(** * LinkedIn profile scraper: session and extraction orchestration

    A shallow embedding of the scraper class (constructor, [setup],
    [createPage], [close], [checkIfLoggedIn], [run]) and of the browser-side
    extraction helpers of the volunteering, experience and skills modules,
    together with the properties the specification states about them.

    The browser-automation engine and the process-tree killer are external
    collaborators: their answers are read from an oracle ([Env]) and every
    call made to them is recorded in a trace. *)

From Stdlib Require Import String Ascii List ZArith Bool Lia DecimalString.
Import ListNotations.
Open Scope string_scope.

(** ** JavaScript values, as far as the scraper looks at them *)

Module Js.

(** A number, as far as [parseInt] and truthiness tell numbers apart. *)
Inductive number : Type :=
| Finite (n : Z)
| NaN.

(** A runtime value.  The constructor only inspects [typeof] and
    truthiness, so every object that is not a primitive is [VObj]. *)
Inductive value : Type :=
| VUndefined
| VNull
| VBool (b : bool)
| VNum (n : number)
| VStr (s : string)
| VObj.

(** [!!v] *)
Definition truthy (v : value) : bool :=
  match v with
  | VUndefined | VNull | VNum NaN => false
  | VBool b => b
  | VNum (Finite n) => negb (n =? 0)%Z
  | VStr s => negb (s =? "")
  | VObj => true
  end.

(** [typeof v] *)
Definition typeof (v : value) : string :=
  match v with
  | VUndefined => "undefined"
  | VNull | VObj => "object"
  | VBool _ => "boolean"
  | VNum _ => "number"
  | VStr _ => "string"
  end.

(** [v !== undefined] *)
Definition is_defined (v : value) : bool :=
  match v with VUndefined => false | _ => true end.

(** Reading a property that may be absent from an object literal. *)
Definition prop (o : option value) : value :=
  match o with Some v => v | None => VUndefined end.

Definition dquote : string := String (ascii_of_nat 34) EmptyString.
Definition quoted (s : string) : string := dquote ++ s ++ dquote.

(** [s.endsWith(suffix)] *)
Fixpoint endsWith (s suffix : string) : bool :=
  (s =? suffix) ||
  match s with
  | EmptyString => false
  | String _ rest => endsWith rest suffix
  end.

(** [s.includes(sub)] *)
Fixpoint includes (s sub : string) : bool :=
  String.prefix sub s ||
  match s with
  | EmptyString => false
  | String _ rest => includes rest sub
  end.

(** [xs.includes(x)] on an array of strings *)
Definition arrayIncludes (xs : list string) (x : string) : bool :=
  existsb (String.eqb x) xs.

(** [xs.includes(v)] when [v] may be any value: only a string can be found
    in an array of strings. *)
Definition arrayIncludesValue (xs : list string) (v : value) : bool :=
  match v with VStr s => arrayIncludes xs s | _ => false end.

(** [s.split(sep)] for a non-empty separator: [skip] counts the characters
    of a separator just matched that are still to be dropped, [cur] is the
    segment being read. *)
Fixpoint splitAux (sep : string) (skip : nat) (cur s : string) : list string :=
  match s with
  | EmptyString => [cur]
  | String c rest =>
      match skip with
      | S k => splitAux sep k cur rest
      | O =>
          if String.prefix sep s
          then cur :: splitAux sep (String.length sep - 1) EmptyString rest
          else splitAux sep 0 (cur ++ String c EmptyString) rest
      end
  end.

Definition split (s sep : string) : list string := splitAux sep 0 EmptyString s.

(** [x || null] for [x : string | undefined | null]: the empty string is
    falsy as well. *)
Definition orNull (x : option string) : option string :=
  match x with
  | Some s => if s =? "" then None else Some s
  | None => None
  end.

(** The en dash U+2013 (UTF-8: E2 80 93) that separates the two dates. *)
Definition enDash : string :=
  String (ascii_of_nat 226) (String (ascii_of_nat 128)
    (String (ascii_of_nat 147) EmptyString)).

End Js.

(** ** Errors a caller of the scraper can observe *)

Inductive thrown : Type :=
| JsError (msg : string)          (* [new Error(msg)] raised by the scraper *)
| SessionExpired (msg : string)   (* [new SessionExpired(msg)] *)
| Engine (msg : string)           (* raised by the browser engine *)
| Rejection (msg : string).       (* a promise rejected with a plain string *)

Definition result (A : Type) : Type := (thrown + A)%type.
Definition Ok {A} (a : A) : result A := inr a.
Definition Throw {A} (e : thrown) : result A := inl e.

(** ** The constructor (configuration validation) *)

Module Config.
Import Js.

(** [ScraperUserDefinedOptions] as it arrives at run time: every property
    may be absent ([None]) or hold a value of any type. *)
Record UserOptions : Type := mkUser {
  u_sessionCookieValue : option value;
  u_keepAlive : option value;
  u_userAgent : option value;
  u_timeout : option value;
  u_headless : option value
}.

(** [ScraperOptions] after [Object.assign]; the fields hold whatever the
    user passed, so they stay runtime values. *)
Record ScraperOptions : Type := mkOptions {
  sessionCookieValue : value;
  keepAlive : value;
  userAgent : value;
  timeout : value;
  headless : value
}.

Definition defaultUserAgent : string :=
  "Mozilla/5.0 (Windows NT 10.0; Win64; x64) AppleWebKit/537.36 (KHTML, like Gecko) Chrome/69.0.3497.100 Safari/537.36".

Definition defaultOptions : ScraperOptions :=
  {| sessionCookieValue := VStr "";
     keepAlive := VBool false;
     timeout := VNum (Finite 10000);
     userAgent := VStr defaultUserAgent;
     headless := VBool true |}.

(** [Object.assign(target, source)]: every property present in the source
    overwrites the target's, also when its value is [undefined]. *)
Definition assign (t : ScraperOptions) (u : UserOptions) : ScraperOptions :=
  {| sessionCookieValue :=
       match u_sessionCookieValue u with Some v => v | None => sessionCookieValue t end;
     keepAlive := match u_keepAlive u with Some v => v | None => keepAlive t end;
     userAgent := match u_userAgent u with Some v => v | None => userAgent t end;
     timeout := match u_timeout u with Some v => v | None => timeout t end;
     headless := match u_headless u with Some v => v | None => headless t end |}.

Definition errorPrefix : string := "Error during setup.".

Definition msg_required : string :=
  errorPrefix ++ " Option " ++ quoted "sessionCookieValue" ++ " is required.".
Definition msg_type (field kind : string) : string :=
  errorPrefix ++ " Option " ++ quoted field ++ " needs to be a " ++ kind ++ ".".

(** The body of the constructor up to the assignment of [this.options]. *)
Definition validate (u : UserOptions) : result ScraperOptions :=
  if negb (truthy (prop (u_sessionCookieValue u))) then
    Throw (JsError msg_required)
  else if truthy (prop (u_sessionCookieValue u))
          && negb (typeof (prop (u_sessionCookieValue u)) =? "string") then
    Throw (JsError (msg_type "sessionCookieValue" "string"))
  else if truthy (prop (u_userAgent u))
          && negb (typeof (prop (u_userAgent u)) =? "string") then
    Throw (JsError (msg_type "userAgent" "string"))
  else if is_defined (prop (u_keepAlive u))
          && negb (typeof (prop (u_keepAlive u)) =? "boolean") then
    Throw (JsError (msg_type "keepAlive" "boolean"))
  else if is_defined (prop (u_timeout u))
          && negb (typeof (prop (u_timeout u)) =? "number") then
    Throw (JsError (msg_type "timeout" "number"))
  else if is_defined (prop (u_headless u))
          && negb (typeof (prop (u_headless u)) =? "boolean") then
    Throw (JsError (msg_type "headless" "boolean"))
  else
    Ok (assign defaultOptions u).

End Config.

(** ** The request-interception policy installed by [createPage] *)

Module Policy.
Import Js.

Record Request : Type := mkRequest {
  resourceType : string;
  url : string
}.

Inductive verdict : Type := Abort | Continue.

Definition blockedResources : list string :=
  ["image"; "media"; "font"; "texttrack"; "manifest"].

Definition allowedHostnames : list string :=
  ["linkedin.com"; "www.linkedin.com"; "platform.linkedin.com";
   "realtime.www.linkedin.com"].

Definition blockedUrls : list string := ["https://www.linkedin.com/li/track"].

Section Handler.
(** [getHostname] lives in the utilities module, which is not part of
    the sources at hand; it is a parameter of the handler. *)
Variable getHostname : string -> value.

(** The [page.on("request", ...)] handler. *)
Definition onRequest (req : Request) : verdict :=
  if arrayIncludes blockedResources (resourceType req) then Abort
  else
    let hostname := getHostname (url req) in
    if arrayIncludes blockedUrls (url req) then Abort
    else if truthy hostname && negb (arrayIncludesValue allowedHostnames hostname)
    then Abort
    else Continue.
End Handler.

End Policy.

(** ** Browser-side extraction callbacks (volunteering, experience, skills) *)

Module Extract.
Import Js.

(** A DOM element as the callbacks read it: [textContent] is
    [string | null]. *)
Record Element : Type := mkElement { textContent : option string }.

(** [el?.textContent || null] *)
Definition textOrNull (el : option Element) : option string :=
  orNull (match el with Some e => textContent e | None => None end).

(** [text?.split(sep)[i] || null] *)
Definition segmentOrNull (text : option string) (i : nat) : option string :=
  orNull (match text with
          | Some t => nth_error (split t enDash) i
          | None => None
          end).

(** What [node.querySelector] finds in one volunteering entry. *)
Record VolunteerNode : Type := mkVolunteerNode {
  v_titleElement : option Element;
  v_companyElement : option Element;
  v_dateRangeElement : option Element;
  v_descriptionElement : option Element
}.

Record RawVolunteering : Type := mkRawVolunteering {
  rv_title : option string;
  rv_company : option string;
  rv_startDate : option string;
  rv_endDate : option string;
  rv_endDateIsPresent : bool;
  rv_description : option string
}.

(** What [node.querySelector] finds in one experience entry.  The company
    element is given as the engine leaves it once its first [span] child,
    if any, has been removed. *)
Record ExperienceNode : Type := mkExperienceNode {
  e_titleElement : option Element;
  e_employmentTypeElement : option Element;
  e_companyElementClean : option Element;
  e_descriptionElement : option Element;
  e_dateRangeElement : option Element;
  e_locationElement : option Element
}.

Record RawExperience : Type := mkRawExperience {
  re_title : option string;
  re_company : option string;
  re_employmentType : option string;
  re_location : option string;
  re_startDate : option string;
  re_endDate : option string;
  re_endDateIsPresent : bool;
  re_description : option string
}.

(** What [node.querySelector] finds in one skill entry. *)
Record SkillNode : Type := mkSkillNode {
  s_skillName : option Element;
  s_endorsementCount : option Element
}.

(** [Skill]: [skillName] may come out as a string, [undefined] or [null];
    [endorsementCount] is declared [number | null]. *)
Record Skill : Type := mkSkill {
  skillName : value;
  endorsementCount : option number
}.

(** The object the skills callback builds inside the page, before it is
    handed to the caller: there the count is a number, [NaN] included. *)
Record PageSkill : Type := mkPageSkill {
  ps_skillName : value;
  ps_endorsementCount : number
}.

(** [page.$$eval] hands the callback's result over by value, as JSON:
    [NaN] has no JSON form and arrives as [null]. *)
Definition handedOver (n : number) : option number :=
  match n with
  | Finite z => Some (Finite z)
  | NaN => None
  end.

Definition skillHandedOver (s : PageSkill) : Skill :=
  {| skillName := ps_skillName s;
     endorsementCount := handedOver (ps_endorsementCount s) |}.

Section Builtins.
(** The engine's string builtins.  The extraction is written against any
    implementation of them. *)
Variable trim : string -> string.
Variable toLowerCase : string -> string.
Variable parseInt : string -> number.

(** [endDatePart?.trim().toLowerCase() === "present" || false] *)
Definition isPresent (endDatePart : option string) : bool :=
  match endDatePart with
  | Some p => toLowerCase (trim p) =? "present"
  | None => false
  end.

(** [endDatePart && !endDateIsPresent ? endDatePart.trim() : "Present"] *)
Definition endDateOf (endDatePart : option string) (endDateIsPresent : bool)
  : string :=
  match endDatePart with
  | Some p => if negb endDateIsPresent then trim p else "Present"
  | None => "Present"
  end.

(** One iteration of the loop in [getVolunteering]'s callback. *)
Definition volunteeringEntry (node : VolunteerNode) : RawVolunteering :=
  let title := textOrNull (v_titleElement node) in
  let company := textOrNull (v_companyElement node) in
  let dateRangeText := textOrNull (v_dateRangeElement node) in
  let startDatePart := segmentOrNull dateRangeText 0 in
  let startDate := orNull (option_map trim startDatePart) in
  let endDatePart := segmentOrNull dateRangeText 1 in
  let endDateIsPresent := isPresent endDatePart in
  let endDate := endDateOf endDatePart endDateIsPresent in
  let description := textOrNull (v_descriptionElement node) in
  {| rv_title := title; rv_company := company; rv_startDate := startDate;
     rv_endDate := Some endDate; rv_endDateIsPresent := endDateIsPresent;
     rv_description := description |}.

Definition rawVolunteering (nodes : list VolunteerNode) : list RawVolunteering :=
  map volunteeringEntry nodes.

(** One iteration of the loop in [getExperiences]'s callback. *)
Definition experienceEntry (node : ExperienceNode) : RawExperience :=
  let title := textOrNull (e_titleElement node) in
  let employmentType := textOrNull (e_employmentTypeElement node) in
  let company := textOrNull (e_companyElementClean node) in
  let description := textOrNull (e_descriptionElement node) in
  let dateRangeText := textOrNull (e_dateRangeElement node) in
  let startDatePart := segmentOrNull dateRangeText 0 in
  let startDate := orNull (option_map trim startDatePart) in
  let endDatePart := segmentOrNull dateRangeText 1 in
  let endDateIsPresent := isPresent endDatePart in
  let endDate := endDateOf endDatePart endDateIsPresent in
  let location := textOrNull (e_locationElement node) in
  {| re_title := title; re_company := company;
     re_employmentType := employmentType; re_location := location;
     re_startDate := startDate; re_endDate := Some endDate;
     re_endDateIsPresent := endDateIsPresent; re_description := description |}.

Definition rawExperiences (nodes : list ExperienceNode) : list RawExperience :=
  map experienceEntry nodes.

(** [el.textContent?.trim() || "0"] *)
Definition countText (el : Element) : string :=
  match option_map trim (textContent el) with
  | Some t => if t =? "" then "0" else t
  | None => "0"
  end.

(** The [nodes.map] callback of [getSkills], inside the page. *)
Definition skillInPage (node : SkillNode) : PageSkill :=
  {| ps_skillName :=
       match s_skillName node with
       | Some el =>
           match textContent el with
           | Some t => VStr (trim t)
           | None => VUndefined
           end
       | None => VNull
       end;
     ps_endorsementCount :=
       match s_endorsementCount node with
       | Some el => parseInt (countText el)
       | None => Finite 0
       end |}.

(** The [Skill] that [getSkills] returns for one node. *)
Definition skillEntry (node : SkillNode) : Skill :=
  skillHandedOver (skillInPage node).

(** What [page.$$eval] returns to [getSkills], which returns it as it is. *)
Definition scrapeSkills (nodes : list SkillNode) : list Skill :=
  map skillEntry nodes.

End Builtins.

End Extract.

(** ** Executable ASCII instances of the string builtins

    Enough of [trim], [toLowerCase] and [parseInt] to run the callbacks on
    plain ASCII text (radix 10, no exponent); the theorems below do not
    depend on them. *)

Module AsciiBuiltins.
Import Js.

Definition isSpace (c : ascii) : bool :=
  let n := nat_of_ascii c in
  ((9 <=? n) && (n <=? 13))%nat || (n =? 32)%nat.

Fixpoint trimStart (s : string) : string :=
  match s with
  | String c rest => if isSpace c then trimStart rest else s
  | EmptyString => EmptyString
  end.

Fixpoint rev (s : string) : string :=
  match s with
  | String c rest => rev rest ++ String c EmptyString
  | EmptyString => EmptyString
  end.

Definition trim (s : string) : string := rev (trimStart (rev (trimStart s))).

Definition lowerChar (c : ascii) : ascii :=
  let n := nat_of_ascii c in
  if ((65 <=? n) && (n <=? 90))%nat then ascii_of_nat (n + 32) else c.

Fixpoint toLowerCase (s : string) : string :=
  match s with
  | String c rest => String (lowerChar c) (toLowerCase rest)
  | EmptyString => EmptyString
  end.

Definition digit (c : ascii) : option Z :=
  let n := nat_of_ascii c in
  if ((48 <=? n) && (n <=? 57))%nat then Some (Z.of_nat (n - 48)) else None.

(** Reads the longest run of decimal digits; [None] when there is none. *)
Fixpoint digits (acc : option Z) (s : string) : option Z :=
  match s with
  | String c rest =>
      match digit c with
      | Some d =>
          digits (Some (10 * match acc with Some a => a | None => 0 end + d)%Z) rest
      | None => acc
      end
  | EmptyString => acc
  end.

Definition parseInt (s : string) : number :=
  match trimStart s with
  | String "-" rest =>
      match digits None rest with Some n => Finite (- n) | None => NaN end
  | String "+" rest =>
      match digits None rest with Some n => Finite n | None => NaN end
  | t => match digits None t with Some n => Finite n | None => NaN end
  end.

End AsciiBuiltins.

(** ** Entities returned across the scraper's boundary *)

Module Entities.
Import Js.

Record Location : Type := mkLocation {
  city : option string;
  province : option string;
  country : option string
}.

Record Profile : Type := mkProfile {
  fullName : option string;
  title : option string;
  location : option Location;
  photo : option string;
  description : option string;
  url : string
}.

Record Experience : Type := mkExperience {
  x_title : option string;
  x_company : option string;
  x_employmentType : option string;
  x_location : option Location;
  x_startDate : option string;
  x_endDate : option string;
  x_endDateIsPresent : bool;
  x_durationInDays : option number;
  x_description : option string
}.

Record Education : Type := mkEducation {
  schoolName : option string;
  degreeName : option string;
  fieldOfStudy : option string;
  d_startDate : option string;
  d_endDate : option string;
  d_durationInDays : option number
}.

Record Volunteering : Type := mkVolunteering {
  g_title : option string;
  g_company : option string;
  g_startDate : option string;
  g_endDate : option string;
  g_endDateIsPresent : bool;
  g_durationInDays : option number;
  g_description : option string
}.

(** [Result] *)
Record Result : Type := mkResult {
  profile : Profile;
  experiences : list Experience;
  education : list Education;
  volunteering : list Volunteering;
  skills : list Extract.Skill
}.

End Entities.

(** ** The browser engine seen from the scraper *)

Module Engine.
Import Js.

Definition PageId : Type := nat.

(** Calls made to the engine and to the process-tree killer, in the order
    they are issued.  One [ConfigurePage] stands for the fixed sequence
    that prepares a fresh page (debugging session, lifecycle state, request
    interception with [Policy.onRequest], user agent, viewport, cookie). *)
Inductive Event : Type :=
| Launch (headless : value) (extraArgs : list string) (timeout : value)
| NewPage
| ConfigurePage (p : PageId) (userAgent cookie : value)
| Goto (p : PageId) (url waitUntil : string) (timeout : option value)
| AutoScroll (p : PageId)
| Evaluate (p : PageId) (extractor : string)
| ClosePage (p : PageId)
| CloseBrowser
| TreeKill (pid : Z) (signal : string).

(** [Browser]: what [browser.process()?.pid] yields. *)
Record Browser : Type := mkBrowser { process_pid : option Z }.

(** The order in which the three detail-page tasks run to completion. *)
Inductive Schedule : Type :=
| ExpEduSki | ExpSkiEdu | EduExpSki | EduSkiExp | SkiExpEdu | SkiEduExp.

(** The collaborators' answers.  Every answer is indexed by the number of
    calls issued so far; a failure carries the engine's message. *)
Record Env : Type := mkEnv {
  launch_answer : nat -> string + Browser;
  newPage_answer : nat -> option string;
  configure_answer : nat -> option string;
  goto_answer : nat -> string -> string + string;   (* final URL on success *)
  autoScroll_answer : nat -> option string;
  profile_answer : nat -> string + Entities.Profile;
  volunteering_answer : nat -> string + list Entities.Volunteering;
  experiences_answer : nat -> string + list Entities.Experience;
  education_answer : nat -> string + list Entities.Education;
  skills_answer : nat -> string + list Extract.Skill;
  closePage_answer : nat -> option string;
  closeBrowser_answer : nat -> option string;
  treeKill_answer : nat -> option string;           (* [err] of the callback *)
  schedule : nat -> Schedule
}.

End Engine.

(** ** The scraper class *)

Module Scraper.
Import Js Config Entities Engine.

(** The scraper object ([options], [browser]) together with the engine-side
    facts its calls depend on and the trace of calls issued. *)
Record State : Type := mkState {
  options : ScraperOptions;
  browser : option Browser;      (* [this.browser] *)
  connected : bool;              (* launched, and [browser.close()] has not
                                    succeeded since *)
  pages : list PageId;           (* pages currently open *)
  nextPage : PageId;
  trace : list Event
}.

(** The object right after a successful constructor call. *)
Definition fresh (o : ScraperOptions) : State :=
  {| options := o; browser := None; connected := false; pages := [];
     nextPage := 0; trace := [] |}.

(** [new LinkedInProfileScraper(userDefinedOptions)] *)
Definition construct (u : UserOptions) : result State :=
  match validate u with
  | inl e => Throw e
  | inr o => Ok (fresh o)
  end.

Definition tick (st : State) : nat := length (trace st).

Definition emit (ev : Event) (st : State) : State :=
  {| options := options st; browser := browser st; connected := connected st;
     pages := pages st; nextPage := nextPage st; trace := trace st ++ [ev] |}.

Definition setBrowser (b : Browser) (st : State) : State :=
  {| options := options st; browser := Some b; connected := true;
     pages := []; nextPage := nextPage st; trace := trace st |}.

Definition openPage (st : State) : State :=
  {| options := options st; browser := browser st; connected := connected st;
     pages := nextPage st :: pages st; nextPage := S (nextPage st);
     trace := trace st |}.

Definition dropPage (p : PageId) (st : State) : State :=
  {| options := options st; browser := browser st; connected := connected st;
     pages := filter (fun q => negb (q =? p)%nat) (pages st);
     nextPage := nextPage st; trace := trace st |}.

Definition disconnect (st : State) : State :=
  {| options := options st; browser := browser st; connected := false;
     pages := []; nextPage := nextPage st; trace := trace st |}.

(** Computations of the scraper: state passing with exceptions. *)
Definition M (A : Type) : Type := State -> result A * State.

Definition ret {A} (a : A) : M A := fun st => (Ok a, st).
Definition throw {A} (e : thrown) : M A := fun st => (Throw e, st).
Definition bind {A B} (m : M A) (k : A -> M B) : M B :=
  fun st =>
    match m st with
    | (inl e, st') => (inl e, st')
    | (inr a, st') => k a st'
    end.

(** [try { body } catch (err) { handler(err) }] *)
Definition tryCatch {A} (body : M A) (handler : thrown -> M A) : M A :=
  fun st =>
    match body st with
    | (inl e, st') => handler e st'
    | (inr a, st') => (inr a, st')
    end.

Declare Scope scraper_scope.
Delimit Scope scraper_scope with scraper.
Notation "x <- m ;; k" := (bind m (fun x => k))
  (at level 61, m at next level, right associativity) : scraper_scope.
Notation "' pat <- m ;; k" := (bind m (fun x => match x with pat => k end))
  (at level 61, pat pattern, m at next level, right associativity) : scraper_scope.
Notation "m ;;; k" := (bind m (fun _ => k))
  (at level 61, right associativity) : scraper_scope.
Local Open Scope scraper_scope.

(** An answer that may fail, lifted to the monad. *)
Definition answered {A} (a : string + A) : result A :=
  match a with inl msg => Throw (Engine msg) | inr v => Ok v end.
Definition succeeded (a : option string) : result unit :=
  match a with Some msg => Throw (Engine msg) | None => Ok tt end.

Section WithEnv.
Variable env : Env.

(** *** Engine calls *)

(** [puppeteer.launch(...)], assigned to [this.browser] on success. *)
Definition launch (headless : value) (extraArgs : list string) (timeout : value)
  : M unit := fun st =>
  let st1 := emit (Launch headless extraArgs timeout) st in
  match launch_answer env (tick st) with
  | inl msg => (Throw (Engine msg), st1)
  | inr b => (Ok tt, setBrowser b st1)
  end.

(** [this.browser.newPage()].  The scraper calls it on whatever handle it
    stores, closed or not; what comes back is the engine's answer in both
    cases. *)
Definition newPage : M PageId := fun st =>
  let st1 := emit NewPage st in
  match newPage_answer env (tick st) with
  | Some msg => (Throw (Engine msg), st1)
  | None => (Ok (nextPage st), openPage st1)
  end.

Definition configurePage (p : PageId) (userAgent cookie : value) : M unit :=
  fun st =>
    (succeeded (configure_answer env (tick st)),
     emit (ConfigurePage p userAgent cookie) st).

(** [page.goto(url, {waitUntil, timeout})] followed by [page.url()]. *)
Definition goto (p : PageId) (url waitUntil : string) (timeout : option value)
  : M string := fun st =>
  (answered (goto_answer env (tick st) url),
   emit (Goto p url waitUntil timeout) st).

Definition autoScroll (p : PageId) : M unit := fun st =>
  (succeeded (autoScroll_answer env (tick st)), emit (AutoScroll p) st).

Definition evaluate {A} (p : PageId) (extractor : string)
  (answer : nat -> string + A) : M A := fun st =>
  (answered (answer (tick st)), emit (Evaluate p extractor) st).

(** [page.close()] *)
Definition closePage (p : PageId) : M unit := fun st =>
  let st1 := emit (ClosePage p) st in
  match closePage_answer env (tick st) with
  | Some msg => (Throw (Engine msg), st1)
  | None => (Ok tt, dropPage p st1)
  end.

(** [browser.close()] *)
Definition closeBrowser : M unit := fun st =>
  let st1 := emit CloseBrowser st in
  match closeBrowser_answer env (tick st) with
  | Some msg => (Throw (Engine msg), st1)
  | None => (Ok tt, disconnect st1)
  end.

(** [treeKill(pid, signal, callback)]: returns at once; the value is the
    [err] the callback will be called with on a later turn of the event
    loop. *)
Definition treeKill (pid : Z) (signal : string) (st : State)
  : option string * State :=
  (treeKill_answer env (tick st), emit (TreeKill pid signal) st).

(** *** [close] *)

Definition showPid (pid : Z) : string := NilZero.string_of_int (Z.to_int pid).

(** A promise is decided by the first [resolve] or [reject] issued on it;
    [calls] lists them in the order they happen. *)
Definition firstSettled (calls : list (result unit)) : result unit :=
  match calls with r :: _ => r | [] => Ok tt end.

(** The first step of [close]: the page, when one is given.  The value
    lists the [reject] calls made. *)
Definition closeGivenPage (page : option PageId) (st : State)
  : list (result unit) * State :=
  match page with
  | Some p =>
      match closePage p st with
      | (inl err, st') => ([Throw err], st')
      | (inr _, st') => ([], st')
      end
  | None => ([], st)
  end.

(** The second step of [close]: the stored browser, when there is one.
    [early] lists the [reject] calls made while the step runs, [late] the
    settle call of the tree-kill callback, which the killer invokes on a
    later turn of the event loop. *)
Definition closeStoredBrowser (st : State)
  : list (result unit) * list (result unit) * State :=
  match browser st with
  | Some b =>
      match closeBrowser st with
      | (inl err, st') => ([Throw err], [], st')
      | (inr _, st') =>
          match process_pid b with
          | Some pid =>
              if (pid =? 0)%Z then ([], [], st')
              else
                let '(err, st'') := treeKill pid "SIGKILL" st' in
                ([],
                 [match err with
                  | Some _ =>
                      Throw (Rejection
                               ("Failed to kill browser process pid: "
                                ++ showPid pid))
                  | None => Ok tt
                  end],
                 st'')
          | None => ([], [], st')
          end
      end
  | None => ([], [], st)
  end.

(** [close(page?)]: both steps, then [return resolve()]; the callback of
    the killer settles last. *)
Definition close (page : option PageId) : M unit := fun st =>
  let '(early1, st1) := closeGivenPage page st in
  let '(early2, late, st2) := closeStoredBrowser st1 in
  (firstSettled (early1 ++ early2 ++ [Ok tt] ++ late), st2).

(** *** [createPage] *)

Definition createPage : M PageId := fun st =>
  match browser st with
  | None => (Throw (JsError "Browser not set."), st)
  | Some _ =>
      tryCatch
        (page <- newPage ;;
         configurePage page (userAgent (options st))
                       (sessionCookieValue (options st)) ;;;
         ret page)
        (fun err => close None ;;; throw err)
        st
  end.

(** *** [checkIfLoggedIn] *)

Definition loginUrl : string := "https://www.linkedin.com/login".

Definition expiredMessage : string :=
  "Bad news, we are not logged in! Your session seems to be expired. Use your browser to login again with your LinkedIn credentials and extract the "
  ++ quoted "li_at" ++ " cookie value for the " ++ quoted "sessionCookieValue"
  ++ " option.".

Definition checkIfLoggedIn : M unit := fun st =>
  (page <- createPage ;;
   url <- goto page loginUrl "domcontentloaded" (Some (timeout (options st))) ;;
   let isLoggedIn := negb (endsWith url "/login") in
   closePage page ;;;
   if isLoggedIn then ret tt else throw (SessionExpired expiredMessage)) st.

(** *** [setup] *)

Definition setup : M unit := fun st =>
  tryCatch
    (launch (headless (options st))
            (if truthy (headless (options st))
             then ["--headless"; "--single-process"]
             else ["--start-maximized"])
            (timeout (options st)) ;;;
     checkIfLoggedIn)
    (fun err => close None ;;; throw err)
    st.

(** *** The extractors called by [run] *)

Definition getProfile (page : PageId) : M Profile :=
  evaluate page "profile" (profile_answer env).

Definition getVolunteering (page : PageId) : M (list Volunteering) :=
  evaluate page "volunteering" (volunteering_answer env).

Definition getExperiences (profileUrl : string) : M (list Experience) :=
  page <- createPage ;;
  goto page (profileUrl ++ "/details/experience") "networkidle2" None ;;;
  data <- evaluate page "experience" (experiences_answer env) ;;
  closePage page ;;;
  ret data.

Definition getEducation (profileUrl : string) : M (list Education) :=
  page <- createPage ;;
  goto page (profileUrl ++ "/details/education") "networkidle2" None ;;;
  data <- evaluate page "education" (education_answer env) ;;
  closePage page ;;;
  ret data.

Definition getSkills (profileUrl : string) : M (list Extract.Skill) :=
  page <- createPage ;;
  goto page (profileUrl ++ "/details/skills") "networkidle2" None ;;;
  data <- evaluate page "skills" (skills_answer env) ;;
  closePage page ;;;
  ret data.

(** *** The concurrent fan-out

    [Promise.all] starts the three tasks and waits for all of them; it
    rejects with the first rejection to happen and never cancels a task.
    The tasks are taken to run to completion one after the other, in the
    order the scheduler picks.  The engine really receives the three
    [newPage] calls first and the later calls interleaved, and the [catch]
    of [run] may close the browser while a task is still in flight: the
    order of the calls of different tasks is not what this records, only
    each task's own calls and its outcome. *)

(** The joint outcome of three outcomes listed in completion order. *)
Definition join3 {A B C D} (ra : result A) (rb : result B) (rc : result C)
  (k : A -> B -> C -> D) : result D :=
  match ra with
  | inl e => inl e
  | inr a =>
      match rb with
      | inl e => inl e
      | inr b =>
          match rc with
          | inl e => inl e
          | inr c => inr (k a b c)
          end
      end
  end.

Definition Details : Type :=
  (list Experience * list Education * list Extract.Skill)%type.

Definition promiseAll (profileUrl : string) : M Details := fun st =>
  let tE := getExperiences profileUrl in
  let tD := getEducation profileUrl in
  let tS := getSkills profileUrl in
  match schedule env (tick st) with
  | ExpEduSki =>
      let '(rE, s1) := tE st in let '(rD, s2) := tD s1 in
      let '(rS, s3) := tS s2 in
      (join3 rE rD rS (fun e d s => (e, d, s)), s3)
  | ExpSkiEdu =>
      let '(rE, s1) := tE st in let '(rS, s2) := tS s1 in
      let '(rD, s3) := tD s2 in
      (join3 rE rS rD (fun e s d => (e, d, s)), s3)
  | EduExpSki =>
      let '(rD, s1) := tD st in let '(rE, s2) := tE s1 in
      let '(rS, s3) := tS s2 in
      (join3 rD rE rS (fun d e s => (e, d, s)), s3)
  | EduSkiExp =>
      let '(rD, s1) := tD st in let '(rS, s2) := tS s1 in
      let '(rE, s3) := tE s2 in
      (join3 rD rS rE (fun d s e => (e, d, s)), s3)
  | SkiExpEdu =>
      let '(rS, s1) := tS st in let '(rE, s2) := tE s1 in
      let '(rD, s3) := tD s2 in
      (join3 rS rE rD (fun s e d => (e, d, s)), s3)
  | SkiEduExp =>
      let '(rS, s1) := tS st in let '(rD, s2) := tD s1 in
      let '(rE, s3) := tE s2 in
      (join3 rS rD rE (fun s d e => (e, d, s)), s3)
  end.

(** *** [run] *)

(** The primary-page phase: own page, navigation, scroll, the two
    extractors that read the loaded page. *)
Definition primary (profileUrl : string)
  : M (PageId * Profile * list Volunteering) := fun st =>
  (page <- createPage ;;
   goto page profileUrl "domcontentloaded" (Some (timeout (options st))) ;;;
   autoScroll page ;;;
   profile <- getProfile page ;;
   volunteering <- getVolunteering page ;;
   ret (page, profile, volunteering)) st.

(** What [run] does with the session once all the data is there. *)
Definition dispose (page : PageId) : M unit := fun st =>
  if negb (truthy (keepAlive (options st)))
  then close (Some page) st
  else closePage page st.

Definition runBody (profileUrl : string) : M Result :=
  '(page, profile, volunteering) <- primary profileUrl ;;
  '(experiences, education, skills) <- promiseAll profileUrl ;;
  dispose page ;;;
  ret {| profile := profile; experiences := experiences;
         education := education; volunteering := volunteering;
         skills := skills |}.

Definition msgNoBrowser : string :=
  "Browser is not set. Please run the setup method first.".
Definition msgNoUrl : string := "No profileUrl given.".
Definition msgNotLinkedIn : string :=
  "The given URL to scrape is not a linkedin.com url.".

Definition run (profileUrl : string) : M Result := fun st =>
  match browser st with
  | None => (Throw (JsError msgNoBrowser), st)
  | Some _ =>
      if profileUrl =? "" then (Throw (JsError msgNoUrl), st)
      else if negb (includes profileUrl "linkedin.com/")
      then (Throw (JsError msgNotLinkedIn), st)
      else
        tryCatch (runBody profileUrl) (fun err => close None ;;; throw err) st
  end.

End WithEnv.

End Scraper.

(** ** Vocabulary of the specification *)

Module Spec.
Import Js Config.

(** The six checks of the constructor, in the order the specification
    lists them. *)
Inductive Check : Type :=
| TokenPresence | TokenType | UserAgentType | KeepAliveType | TimeoutType
| HeadlessType.

Definition checkOrder : list Check :=
  [TokenPresence; TokenType; UserAgentType; KeepAliveType; TimeoutType;
   HeadlessType].

(** The condition of the constructor's [if] statement for each check, as
    the source writes it. *)
Definition rejects (u : UserOptions) (c : Check) : bool :=
  match c with
  | TokenPresence => negb (truthy (prop (u_sessionCookieValue u)))
  | TokenType =>
      truthy (prop (u_sessionCookieValue u))
      && negb (typeof (prop (u_sessionCookieValue u)) =? "string")
  | UserAgentType =>
      truthy (prop (u_userAgent u))
      && negb (typeof (prop (u_userAgent u)) =? "string")
  | KeepAliveType =>
      is_defined (prop (u_keepAlive u))
      && negb (typeof (prop (u_keepAlive u)) =? "boolean")
  | TimeoutType =>
      is_defined (prop (u_timeout u))
      && negb (typeof (prop (u_timeout u)) =? "number")
  | HeadlessType =>
      is_defined (prop (u_headless u))
      && negb (typeof (prop (u_headless u)) =? "boolean")
  end.

(** The error a check raises; it names the field. *)
Definition complaint (c : Check) : thrown :=
  JsError
    match c with
    | TokenPresence => msg_required
    | TokenType => msg_type "sessionCookieValue" "string"
    | UserAgentType => msg_type "userAgent" "string"
    | KeepAliveType => msg_type "keepAlive" "boolean"
    | TimeoutType => msg_type "timeout" "number"
    | HeadlessType => msg_type "headless" "boolean"
    end.

(** The hostname is one of the allowlisted ones. *)
Definition allowlisted (hostname : value) : Prop :=
  exists h, hostname = VStr h /\ In h Policy.allowedHostnames.

(** The second segment of an entry's date-range text, when there is one. *)
Definition secondSegment (dateRangeElement : option Extract.Element)
  : option string :=
  match Extract.textOrNull dateRangeElement with
  | Some t => nth_error (split t enDash) 1
  | None => None
  end.

(** The segment reads "present", whatever its case and surrounding space. *)
Definition saysPresent (trim toLowerCase : string -> string)
  (segment : option string) : Prop :=
  exists s, segment = Some s /\ toLowerCase (trim s) = "present".

End Spec.

(** ** Vocabulary for sessions *)

Module SessionSpec.
Import Js Config Entities Engine Scraper.

Definition isLaunch (ev : Event) : bool :=
  match ev with Launch _ _ _ => true | _ => false end.

(** The events that shut the browser down. *)
Definition isShutdown (ev : Event) : bool :=
  match ev with CloseBrowser | TreeKill _ _ => true | _ => false end.

Definition isGoto (ev : Event) : bool :=
  match ev with Goto _ _ _ _ => true | _ => false end.

(** The calls issued after the first [n]. *)
Definition callsAfter (n : nat) (st : State) : list Event := skipn n (trace st).

(** [st'] is reached from [st] by issuing the calls [calls]. *)
Definition issued (st st' : State) (calls : list Event) : Prop :=
  trace st' = (trace st ++ calls)%list.

(** The outcome of a task with its data forgotten. *)
Definition outcome {A} (r : result A) : option thrown :=
  match r with inl e => Some e | inr _ => None end.

(** The outcomes of the three detail-page tasks of one fan-out, in the
    order in which they complete. *)
Definition taskOutcomes (env : Env) (profileUrl : string) (st : State)
  : list (option thrown) :=
  let tE := getExperiences env profileUrl in
  let tD := getEducation env profileUrl in
  let tS := getSkills env profileUrl in
  let three {A B C} (a : M A) (b : M B) (c : M C) :=
    let '(ra, s1) := a st in
    let '(rb, s2) := b s1 in
    let '(rc, _) := c s2 in
    [outcome ra; outcome rb; outcome rc] in
  match schedule env (tick st) with
  | ExpEduSki => three tE tD tS
  | ExpSkiEdu => three tE tS tD
  | EduExpSki => three tD tE tS
  | EduSkiExp => three tD tS tE
  | SkiExpEdu => three tS tE tD
  | SkiEduExp => three tS tD tE
  end.

(** The first failure among outcomes listed in completion order. *)
Fixpoint firstFailure (outcomes : list (option thrown)) : option thrown :=
  match outcomes with
  | Some e :: _ => Some e
  | None :: rest => firstFailure rest
  | [] => None
  end.

(** An engine that answers every call the scraper makes after launch with
    success. *)
Record Cooperative (env : Env) : Prop := mkCooperative {
  coop_newPage : forall n, newPage_answer env n = None;
  coop_configure : forall n, configure_answer env n = None;
  coop_goto : forall n u, exists final, goto_answer env n u = inr final;
  coop_autoScroll : forall n, autoScroll_answer env n = None;
  coop_profile : forall n, exists v, profile_answer env n = inr v;
  coop_volunteering : forall n, exists v, volunteering_answer env n = inr v;
  coop_experiences : forall n, exists v, experiences_answer env n = inr v;
  coop_education : forall n, exists v, education_answer env n = inr v;
  coop_skills : forall n, exists v, skills_answer env n = inr v;
  coop_closePage : forall n, closePage_answer env n = None
}.

(** The URL passes the two checks [run] makes on it. *)
Definition acceptableUrl (profileUrl : string) : Prop :=
  profileUrl <> "" /\ includes profileUrl "linkedin.com/" = true.

End SessionSpec.

(** ** Invariants of scraper computations *)

Module SessionLogic.
Import Js Config Entities Engine Scraper SessionSpec.

(** What no computation but [launch] changes: the options, the stored
    browser handle, the fact that a closed browser stays closed; and no
    browser is launched on the way. *)
Record stable (st st' : State) : Prop := mkStable {
  stable_options : options st' = options st;
  stable_browser : browser st' = browser st;
  stable_dead : connected st = false -> connected st' = false;
  stable_calls :
    exists calls, issued st st' calls /\ existsb isLaunch calls = false
}.

Definition Stable {A} (m : M A) : Prop :=
  forall st r st', m st = (r, st') -> stable st st'.

(** A computation that returns normally has left the browser running as it
    found it and has issued no shutdown call. *)
Record quiet (st st' : State) : Prop := mkQuiet {
  quiet_connected : connected st' = connected st;
  quiet_calls :
    exists calls, issued st st' calls /\ existsb isShutdown calls = false
}.

Definition Quiet {A} (m : M A) : Prop :=
  forall st a st', m st = (inr a, st') -> quiet st st'.

(** The object holds the options [o] and stores the browser handle [b]. *)
Record ready (o : ScraperOptions) (b : Browser) (st : State) : Prop := mkReady {
  ready_options : options st = o;
  ready_browser : browser st = Some b
}.

Definition Succeeds (o : ScraperOptions) (b : Browser) {A} (m : M A) : Prop :=
  forall st, ready o b st -> exists a st', m st = (inr a, st') /\ ready o b st'.

(** A computation that never returns normally. *)
Definition Fails {A} (m : M A) : Prop :=
  forall st, exists e st', m st = (inl e, st').

(** Errors that come from the engine. *)
Definition fromEngine (e : thrown) : Prop := exists msg, e = Engine msg.

(** One engine call keeps [stable], resp. [quiet], resp. [ready]. *)
Ltac stable_step :=
  constructor; cbn; auto;
  eexists; split; [unfold issued; cbn; reflexivity | reflexivity].

Ltac quiet_step :=
  constructor; cbn; auto;
  eexists; split; [unfold issued; cbn; reflexivity | reflexivity].

Ltac ready_step :=
  match goal with
  | R : ready _ _ _ |- _ => destruct R as [Ro Rb]
  end;
  do 2 eexists; split; [reflexivity | constructor; cbn; assumption].

End SessionLogic.

(** ** Concrete engines and sessions *)

Module Examples.
Import Js Config Entities Engine Scraper.

Definition someProfile : Profile :=
  mkProfile (Some "Jane Doe") (Some "Engineer") None None None
    "https://www.linkedin.com/in/example".

(** An engine that answers everything with success, except what [goto]
    and the process-tree killer are told to do. *)
Definition engine (goto : string -> string + string) (kill : option string)
  : Env :=
  {| launch_answer := fun _ => inr (mkBrowser (Some 4242%Z));
     newPage_answer := fun _ => None;
     configure_answer := fun _ => None;
     goto_answer := fun _ => goto;
     autoScroll_answer := fun _ => None;
     profile_answer := fun _ => inr someProfile;
     volunteering_answer := fun _ => inr [];
     experiences_answer := fun _ => inr [];
     education_answer := fun _ => inr [];
     skills_answer := fun _ => inr [];
     closePage_answer := fun _ => None;
     closeBrowser_answer := fun _ => None;
     treeKill_answer := fun _ => kill;
     schedule := fun _ => EduSkiExp |}.

(** The login page redirects to the feed: the session cookie is valid. *)
Definition loggedIn (u : string) : string + string :=
  inr (if u =? loginUrl then "https://www.linkedin.com/feed/" else u).

(** The login page stays where it is: the session cookie has expired. *)
Definition loggedOut (u : string) : string + string := inr u.

(** The education detail page never becomes idle. *)
Definition educationTimesOut (u : string) : string + string :=
  if endsWith u "/details/education"
  then inl "Navigation timeout of 30000 ms exceeded"
  else loggedIn u.

(** The answer of a browser that has been shut down once [n] calls have
    been made: from then on it opens no page. *)
Definition closedFrom (n : nat) (t : nat) : option string :=
  if (n <=? t)%nat then Some "Target closed." else None.

Definition cooperative : Env := engine loggedIn None.

(** The session cookie has expired; the seven calls of the failing [setup]
    leave the browser shut down. *)
Definition expired : Env :=
  {| launch_answer := launch_answer (engine loggedOut None);
     newPage_answer := closedFrom 7;
     configure_answer := configure_answer (engine loggedOut None);
     goto_answer := goto_answer (engine loggedOut None);
     autoScroll_answer := autoScroll_answer (engine loggedOut None);
     profile_answer := profile_answer (engine loggedOut None);
     volunteering_answer := volunteering_answer (engine loggedOut None);
     experiences_answer := experiences_answer (engine loggedOut None);
     education_answer := education_answer (engine loggedOut None);
     skills_answer := skills_answer (engine loggedOut None);
     closePage_answer := closePage_answer (engine loggedOut None);
     closeBrowser_answer := closeBrowser_answer (engine loggedOut None);
     treeKill_answer := treeKill_answer (engine loggedOut None);
     schedule := schedule (engine loggedOut None) |}.

Definition killFails : Env := engine loggedIn (Some "ESRCH").
Definition slowEducation : Env := engine educationTimesOut None.

Definition exampleUrl : string := "https://www.linkedin.com/in/example".

Definition withKeepAlive (k : bool) (t : Z) : ScraperOptions :=
  {| sessionCookieValue := VStr "AQEDAT"; keepAlive := VBool k;
     userAgent := VStr defaultUserAgent; timeout := VNum (Finite t);
     headless := VBool true |}.

(** The session a call of [setup] on a fresh object leaves behind. *)
Definition afterSetup (env : Env) (o : ScraperOptions) : State :=
  snd (setup env (fresh o)).

End Examples.

(** ** Which errors a computation can raise *)

Module ErrorLogic.
Import Scraper SessionLogic.

(** Every error [m] throws satisfies [P]. *)
Definition Raises (P : thrown -> Prop) {A} (m : M A) : Prop :=
  forall st e st', m st = (inl e, st') -> P e.

(** An [Error] object built by the scraper itself. *)
Definition ownError (e : thrown) : Prop := exists msg, e = JsError msg.

(** What [run] can throw. *)
Definition runError (e : thrown) : Prop := fromEngine e \/ ownError e.

(** What [setup] can throw. *)
Definition setupError (e : thrown) : Prop :=
  runError e \/ e = SessionExpired expiredMessage.

End ErrorLogic.

(** ** More engines *)

Module MoreExamples.
Import Js Config Entities Engine Scraper.

(** The browser process cannot be started. *)
Definition launchFails : Env :=
  {| launch_answer := fun _ => inl "Failed to launch the browser process!";
     newPage_answer := fun _ => None;
     configure_answer := fun _ => None;
     goto_answer := fun _ u => inr u;
     autoScroll_answer := fun _ => None;
     profile_answer := fun _ => inr Examples.someProfile;
     volunteering_answer := fun _ => inr [];
     experiences_answer := fun _ => inr [];
     education_answer := fun _ => inr [];
     skills_answer := fun _ => inr [];
     closePage_answer := fun _ => None;
     closeBrowser_answer := fun _ => None;
     treeKill_answer := fun _ => None;
     schedule := fun _ => ExpEduSki |}.

(** Pages open but cannot be configured. *)
Definition configureFails : Env :=
  {| launch_answer := fun _ => inr (mkBrowser (Some 4242%Z));
     newPage_answer := fun _ => None;
     configure_answer := fun _ => Some "Protocol error (Page.enable)";
     goto_answer := fun _ u => inr u;
     autoScroll_answer := fun _ => None;
     profile_answer := fun _ => inr Examples.someProfile;
     volunteering_answer := fun _ => inr [];
     experiences_answer := fun _ => inr [];
     education_answer := fun _ => inr [];
     skills_answer := fun _ => inr [];
     closePage_answer := fun _ => None;
     closeBrowser_answer := fun _ => None;
     treeKill_answer := fun _ => None;
     schedule := fun _ => ExpEduSki |}.

(** Nothing can be closed: neither pages nor the browser. *)
Definition nothingCloses : Env :=
  {| launch_answer := fun _ => inr (mkBrowser (Some 4242%Z));
     newPage_answer := fun _ => None;
     configure_answer := fun _ => None;
     goto_answer := fun _ => Examples.loggedIn;
     autoScroll_answer := fun _ => None;
     profile_answer := fun _ => inr Examples.someProfile;
     volunteering_answer := fun _ => inr [];
     experiences_answer := fun _ => inr [];
     education_answer := fun _ => inr [];
     skills_answer := fun _ => inr [];
     closePage_answer := fun _ => Some "Protocol error (Target.closeTarget)";
     closeBrowser_answer := fun _ => Some "Protocol error (Browser.close)";
     treeKill_answer := fun _ => None;
     schedule := fun _ => ExpEduSki |}.

End MoreExamples.

(** ** The shutdown protocol, spelled out *)

Module CloseSpec.
Import Js Config Entities Engine Scraper.

(** The number of calls issued when the browser step of [close] starts. *)
Definition browserStepTick (page : option PageId) (st : State) : nat :=
  match page with Some _ => S (tick st) | None => tick st end.

(** The calls of one [close(page?)]: the page if one is given; then the
    stored browser if there is one; then the process tree, provided the
    browser closed gracefully and its process has a pid other than 0. *)
Definition closeCalls (env : Env) (page : option PageId) (st : State)
  : list Event :=
  (match page with Some p => [ClosePage p] | None => [] end
   ++
   match browser st with
   | None => []
   | Some b =>
       CloseBrowser ::
       match closeBrowser_answer env (browserStepTick page st), process_pid b with
       | None, Some pid => if (pid =? 0)%Z then [] else [TreeKill pid "SIGKILL"]
       | _, _ => []
       end
   end)%list.

(** Neither the page nor the browser refused to close. *)
Definition closesCleanly (env : Env) (page : option PageId) (st : State)
  : Prop :=
  (page = None \/ closePage_answer env (tick st) = None)
  /\ (browser st = None
      \/ closeBrowser_answer env (browserStepTick page st) = None).

End CloseSpec.

(** ** Configurations the constructor lets through *)

Module ConfigSpec.
Import Js Config.

Definition nonEmptyString (v : value) : Prop := exists s, v = VStr s /\ s <> "".
Definition falsyOrString (v : value) : Prop :=
  truthy v = false \/ exists s, v = VStr s.
Definition isBoolean (v : value) : Prop := exists b, v = VBool b.
Definition isNumber (v : value) : Prop := exists n, v = VNum n.
Definition undefinedOr (kind : value -> Prop) (v : value) : Prop :=
  v = VUndefined \/ kind v.

(** A non-empty string token; a user agent that is falsy or a string; the
    other three fields absent, [undefined], or of their type. *)
Definition accepted (u : UserOptions) : Prop :=
  nonEmptyString (prop (u_sessionCookieValue u))
  /\ falsyOrString (prop (u_userAgent u))
  /\ undefinedOr isBoolean (prop (u_keepAlive u))
  /\ undefinedOr isNumber (prop (u_timeout u))
  /\ undefinedOr isBoolean (prop (u_headless u)).

End ConfigSpec.

(** ** The profile and education callbacks *)

Module Pages.
Import Js Extract Entities.

(** An element whose [src] attribute the profile callback reads. *)
Record Image : Type := mkImage { src : option string }.

(** What [profileSection?.querySelector] finds inside the top card. *)
Record TopCard : Type := mkTopCard {
  t_fullNameElement : option Element;
  t_titleElement : option Element;
  t_locationElement : option Element;
  t_photo : option Image;            (* ".pv-top-card__photo" *)
  t_photoPreview : option Image      (* ".profile-photo-edit__preview" *)
}.

(** The document the profile callback runs in. *)
Record ProfileDocument : Type := mkProfileDocument {
  profileSection : option TopCard;          (* ".pv-top-card" *)
  descriptionElement : option Element;      (* outside the top card *)
  href : string                             (* [window.location.href] *)
}.

Record RawProfile : Type := mkRawProfile {
  rp_fullName : option string;
  rp_title : option string;
  rp_location : option string;
  rp_photo : option string;
  rp_description : option string;
  rp_url : string
}.

(** [profileSection?.querySelector(...)] *)
Definition inTopCard {A} (doc : ProfileDocument) (q : TopCard -> option A)
  : option A :=
  match profileSection doc with Some card => q card | None => None end.

(** [a || b] on two elements that may be missing. *)
Definition firstFound {A} (a b : option A) : option A :=
  match a with Some _ => a | None => b end.

(** The callback of [page.evaluate] in [getProfile]. *)
Definition rawProfile (doc : ProfileDocument) : RawProfile :=
  let url := href doc in
  let fullName := textOrNull (inTopCard doc t_fullNameElement) in
  let title := textOrNull (inTopCard doc t_titleElement) in
  let location := textOrNull (inTopCard doc t_locationElement) in
  let photoElement :=
    firstFound (inTopCard doc t_photo) (inTopCard doc t_photoPreview) in
  let photo :=
    orNull (match photoElement with Some img => src img | None => None end) in
  let description := textOrNull (descriptionElement doc) in
  {| rp_fullName := fullName; rp_title := title; rp_location := location;
     rp_photo := photo; rp_description := description; rp_url := url |}.

(** What [node.querySelector] and [node.querySelectorAll] find in one
    education entry. *)
Record EducationNode : Type := mkEducationNode {
  n_schoolNameElement : option Element;
  n_degreeNameElement : option Element;
  n_fieldOfStudyElement : option Element;
  n_dateRangeElement : list Element         (* ".pv-entity__dates time" *)
}.

Record RawEducation : Type := mkRawEducation {
  red_schoolName : option string;
  red_degreeName : option string;
  red_fieldOfStudy : option string;
  red_startDate : option string;
  red_endDate : option string
}.

(** [(list && list[i]?.textContent) || null] *)
Definition timeText (times : list Element) (i : nat) : option string :=
  orNull (match nth_error times i with
          | Some el => textContent el
          | None => None
          end).

(** One iteration of the loop in [getEducation]'s callback. *)
Definition educationEntry (node : EducationNode) : RawEducation :=
  let schoolName := textOrNull (n_schoolNameElement node) in
  let degreeName := textOrNull (n_degreeNameElement node) in
  let fieldOfStudy := textOrNull (n_fieldOfStudyElement node) in
  let startDatePart := timeText (n_dateRangeElement node) 0 in
  let startDate := orNull startDatePart in
  let endDatePart := timeText (n_dateRangeElement node) 1 in
  let endDate := orNull endDatePart in
  {| red_schoolName := schoolName; red_degreeName := degreeName;
     red_fieldOfStudy := fieldOfStudy; red_startDate := startDate;
     red_endDate := endDate |}.

Definition rawEducation (nodes : list EducationNode) : list RawEducation :=
  map educationEntry nodes.

(** The second argument of [getDurationInDays]: a formatted date, or the
    [new Date()] the experience step passes for an ongoing position. *)
Inductive EndOfPeriod : Type :=
| Formatted (date : option string)
| CurrentDate.

Section Cleaning.
(** The helpers of the utilities module, which is not among the sources at
    hand; the cleaning steps are written against any implementation. *)
Variable getCleanText : option string -> option string.
Variable getLocationFromText : string -> option Location.
Variable formatDate : option string -> option string.
Variable getDurationInDays : option string -> EndOfPeriod -> option number.

(** The second half of [getProfile]. *)
Definition cleanProfile (raw : RawProfile) : Profile :=
  {| fullName := getCleanText (rp_fullName raw);
     title := getCleanText (rp_title raw);
     location :=
       match rp_location raw with
       | Some l => getLocationFromText l
       | None => None
       end;
     photo := rp_photo raw;
     description := getCleanText (rp_description raw);
     url := rp_url raw |}.

Definition getProfileData (doc : ProfileDocument) : Profile :=
  cleanProfile (rawProfile doc).

(** A string that may be null, as a condition. *)
Definition given (s : option string) : bool :=
  match s with Some t => negb (t =? "") | None => false end.

(** The [map] callback of [getExperiences]. *)
Definition cleanExperience (raw : RawExperience) : Experience :=
  let startDate := formatDate (re_startDate raw) in
  let endDate := orNull (formatDate (re_endDate raw)) in
  let endDateIsPresent := re_endDateIsPresent raw in
  let durationInDaysWithEndDate :=
    if given startDate && given endDate && negb endDateIsPresent
    then getDurationInDays startDate (Formatted endDate) else None in
  let durationInDaysForPresentDate :=
    if endDateIsPresent && given startDate
    then getDurationInDays startDate CurrentDate else None in
  let durationInDays :=
    if endDateIsPresent then durationInDaysForPresentDate
    else durationInDaysWithEndDate in
  {| x_title := getCleanText (re_title raw);
     x_company := getCleanText (re_company raw);
     x_employmentType := getCleanText (re_employmentType raw);
     x_location :=
       match re_location raw with
       | Some l => getLocationFromText l
       | None => None
       end;
     x_startDate := startDate;
     x_endDate := endDate;
     x_endDateIsPresent := endDateIsPresent;
     x_durationInDays := durationInDays;
     x_description := getCleanText (re_description raw) |}.

(** The [map] callback of [getVolunteering]. *)
Definition cleanVolunteering (raw : RawVolunteering) : Volunteering :=
  let startDate := formatDate (rv_startDate raw) in
  let endDate := formatDate (rv_endDate raw) in
  {| g_title := getCleanText (rv_title raw);
     g_company := getCleanText (rv_company raw);
     g_startDate := startDate;
     g_endDate := endDate;
     g_endDateIsPresent := rv_endDateIsPresent raw;
     g_durationInDays := getDurationInDays startDate (Formatted endDate);
     g_description := getCleanText (rv_description raw) |}.

(** The [map] callback of [getEducation]. *)
Definition cleanEducation (raw : RawEducation) : Education :=
  let startDate := formatDate (red_startDate raw) in
  let endDate := formatDate (red_endDate raw) in
  {| schoolName := getCleanText (red_schoolName raw);
     degreeName := getCleanText (red_degreeName raw);
     fieldOfStudy := getCleanText (red_fieldOfStudy raw);
     d_startDate := startDate;
     d_endDate := endDate;
     d_durationInDays := getDurationInDays startDate (Formatted endDate) |}.

End Cleaning.

End Pages.

(** ** Vocabulary for the extracted records *)

Module ExtractSpec.
Import Js Extract.

(** Null or a non-empty string: never the empty string. *)
Definition filled (x : option string) : Prop := x <> Some "".

(** The second segment is there, not empty, and reads "present". *)
Definition ongoing (trim toLowerCase : string -> string)
  (dateRangeElement : option Element) : Prop :=
  exists seg,
    Spec.secondSegment dateRangeElement = Some seg
    /\ seg <> "" /\ toLowerCase (trim seg) = "present".

End ExtractSpec.

(** ** Vocabulary for the reuse of a handle *)

Module ReuseSpec.
Import Js Config Entities Engine Scraper.

(** The calls of the primary phase of [run] on its own page [p]. *)
Definition primaryCalls (o : ScraperOptions) (p : PageId) (profileUrl : string)
  : list Event :=
  [NewPage;
   ConfigurePage p (userAgent o) (sessionCookieValue o);
   Goto p profileUrl "domcontentloaded" (Some (timeout o));
   AutoScroll p; Evaluate p "profile"; Evaluate p "volunteering"].

(** The object once [setup] has launched the browser [b] and stored it. *)
Definition afterLaunch (b : Browser) (st : State) : State :=
  setBrowser b
    (emit (Launch (headless (options st))
             (if truthy (headless (options st))
              then ["--headless"; "--single-process"]
              else ["--start-maximized"])
             (timeout (options st)))
       st).

End ReuseSpec.

(** ** Engines whose browser refuses to close *)

Module StuckExamples.
Import Js Config Entities Engine Scraper.

(** Everything answers, except that [browser.close()] is rejected; [goto]
    answers as told. *)
Definition wontClose (goto : string -> string + string) : Env :=
  {| launch_answer := fun _ => inr (mkBrowser (Some 4242%Z));
     newPage_answer := fun _ => None;
     configure_answer := fun _ => None;
     goto_answer := fun _ => goto;
     autoScroll_answer := fun _ => None;
     profile_answer := fun _ => inr Examples.someProfile;
     volunteering_answer := fun _ => inr [];
     experiences_answer := fun _ => inr [];
     education_answer := fun _ => inr [];
     skills_answer := fun _ => inr [];
     closePage_answer := fun _ => None;
     closeBrowser_answer := fun _ => Some "Protocol error (Browser.close)";
     treeKill_answer := fun _ => None;
     schedule := fun _ => ExpEduSki |}.

(** The session cookie has expired and the browser refuses to close. *)
Definition expiredWontClose : Env := wontClose Examples.loggedOut.

(** The education page times out and the browser refuses to close. *)
Definition slowEducationWontClose : Env := wontClose Examples.educationTimesOut.

End StuckExamples.

(** ** Invalid fields, as the specification has them *)

Module ValiditySpec.
Import Js Config Spec.

(** A value has been supplied for the field and it is not of the
    documented type. *)
Definition wrongType (kind : string) (v : value) : bool :=
  is_defined v && negb (typeof v =? kind).

(** The configuration fails the check: the required token is missing
    (nothing truthy was supplied), or the field holds a value of the wrong
    type. *)
Definition invalid (u : UserOptions) (c : Check) : bool :=
  match c with
  | TokenPresence => negb (truthy (prop (u_sessionCookieValue u)))
  | TokenType => wrongType "string" (prop (u_sessionCookieValue u))
  | UserAgentType => wrongType "string" (prop (u_userAgent u))
  | KeepAliveType => wrongType "boolean" (prop (u_keepAlive u))
  | TimeoutType => wrongType "number" (prop (u_timeout u))
  | HeadlessType => wrongType "boolean" (prop (u_headless u))
  end.

(** The first invalid field in the fixed check order. *)
Definition firstInvalid (u : UserOptions) : option Check :=
  find (invalid u) checkOrder.

End ValiditySpec.

(** * Properties *)

(** ** The constructor *)

Section ConstructorFacts.
Import Js Config Spec Scraper.

Lemma validate_first_rejection (u : UserOptions) :
  validate u =
  match find (rejects u) checkOrder with
  | Some c => Throw (complaint c)
  | None => Ok (assign defaultOptions u)
  end.
Proof.
  unfold validate, checkOrder, complaint; cbn [find rejects].
  destruct (negb (truthy (prop (u_sessionCookieValue u)))); [reflexivity|].
  destruct (truthy (prop (u_sessionCookieValue u))
            && negb (typeof (prop (u_sessionCookieValue u)) =? "string"));
    [reflexivity|].
  destruct (truthy (prop (u_userAgent u))
            && negb (typeof (prop (u_userAgent u)) =? "string"));
    [reflexivity|].
  destruct (is_defined (prop (u_keepAlive u))
            && negb (typeof (prop (u_keepAlive u)) =? "boolean"));
    [reflexivity|].
  destruct (is_defined (prop (u_timeout u))
            && negb (typeof (prop (u_timeout u)) =? "number"));
    [reflexivity|].
  destruct (is_defined (prop (u_headless u))
            && negb (typeof (prop (u_headless u)) =? "boolean"));
    reflexivity.
Qed.

End ConstructorFacts.

(** Apart from a falsy user agent that is not a string, the constructor
    does what the specification says: it throws the error of the first
    invalid field in the fixed order, and otherwise builds the options. *)
Lemma constructor_follows_the_order_otherwise (u : Config.UserOptions) :
  Js.truthy (Js.prop (Config.u_userAgent u)) = true
  \/ Js.is_defined (Js.prop (Config.u_userAgent u)) = false ->
  Scraper.construct u =
    match ValiditySpec.firstInvalid u with
    | Some c => Throw (Spec.complaint c)
    | None => Ok (Scraper.fresh (Config.assign Config.defaultOptions u))
    end.
Proof.
  intros Hua. unfold Scraper.construct. rewrite validate_first_rejection.
  assert (Hfind : find (Spec.rejects u) Spec.checkOrder
                  = ValiditySpec.firstInvalid u).
  { unfold ValiditySpec.firstInvalid, Spec.checkOrder.
    cbn [find Spec.rejects ValiditySpec.invalid]. unfold ValiditySpec.wrongType.
    destruct (Js.truthy (Js.prop (Config.u_sessionCookieValue u))) eqn:Et;
      cbn [negb andb]; [|reflexivity].
    assert (Hd : Js.is_defined (Js.prop (Config.u_sessionCookieValue u)) = true).
    { destruct (Js.prop (Config.u_sessionCookieValue u)); try reflexivity.
      discriminate. }
    rewrite Hd. cbn [andb].
    destruct (negb (Js.typeof (Js.prop (Config.u_sessionCookieValue u))
                    =? "string")); [reflexivity|].
    destruct Hua as [Hua | Hua].
    - assert (Hd2 : Js.is_defined (Js.prop (Config.u_userAgent u)) = true).
      { destruct (Js.prop (Config.u_userAgent u)); try reflexivity.
        discriminate. }
      rewrite Hua, Hd2. reflexivity.
    - assert (Ht2 : Js.truthy (Js.prop (Config.u_userAgent u)) = false).
      { destruct (Js.prop (Config.u_userAgent u)); try discriminate.
        reflexivity. }
      rewrite Hua, Ht2. reflexivity. }
  rewrite Hfind.
  destruct (ValiditySpec.firstInvalid u); reflexivity.
Qed.

(** C7, evaluated.  With a user agent that is falsy and not a string the
    constructor departs from the fixed order: [{userAgent: 0, keepAlive:
    "yes"}] has the user agent as its first invalid field, yet the error
    names keepAlive; and [{userAgent: false}] has an invalid user agent,
    yet the object is built and holds [false] as its user agent. *)
Theorem constructor_misses_falsy_userAgent :
  let u1 := Config.mkUser (Some (Js.VStr "AQEDAT"))
              (Some (Js.VStr "yes")) (Some (Js.VNum (Js.Finite 0))) None None in
  let u2 := Config.mkUser (Some (Js.VStr "AQEDAT")) None
              (Some (Js.VBool false)) None None in
  (ValiditySpec.firstInvalid u1 = Some Spec.UserAgentType
   /\ Scraper.construct u1 = Throw (Spec.complaint Spec.KeepAliveType))
  /\ (ValiditySpec.firstInvalid u2 = Some Spec.UserAgentType
      /\ exists st,
           Scraper.construct u2 = Ok st
           /\ Config.userAgent (Scraper.options st) = Js.VBool false).
Proof.
  cbv zeta. split; [split; reflexivity|].
  split; [reflexivity|]. eexists. split; reflexivity.
Qed.

(** The user-agent check is guarded by truthiness: a falsy value of any
    type passes it and is copied into the options. *)
Example falsy_userAgent_is_accepted :
  Scraper.construct
    (Config.mkUser (Some (Js.VStr "AQEDAT")) None (Some (Js.VBool false)) None None)
  = Ok (Scraper.fresh
          (Config.mkOptions (Js.VStr "AQEDAT") (Js.VBool false) (Js.VBool false)
             (Js.VNum (Js.Finite 10000)) (Js.VBool true))).
Proof. reflexivity. Qed.

(** ** The request-interception policy *)

Section PolicyFacts.
Import Js Policy Spec.

Lemma arrayIncludes_In (xs : list string) (x : string) :
  arrayIncludes xs x = true <-> In x xs.
Proof.
  unfold arrayIncludes. rewrite existsb_exists. split.
  - intros (y & Hy & Heq). apply String.eqb_eq in Heq. now subst.
  - intros Hx. exists x. split; [assumption | apply String.eqb_refl].
Qed.

Lemma arrayIncludes_not_In (xs : list string) (x : string) :
  arrayIncludes xs x = false <-> ~ In x xs.
Proof.
  rewrite <- arrayIncludes_In. destruct (arrayIncludes xs x); split;
    congruence.
Qed.

Lemma arrayIncludesValue_allowlisted (v : value) :
  arrayIncludesValue allowedHostnames v = true <-> allowlisted v.
Proof.
  unfold allowlisted. destruct v; cbn [arrayIncludesValue];
    try (split; [discriminate | intros (h & Hh & _); discriminate]).
  rewrite arrayIncludes_In. split.
  - intros H. exists s. now split.
  - intros (h & Hh & Hin). injection Hh as ->. assumption.
Qed.

(** The handler's verdict, as a decision table. *)
Lemma onRequest_abort_iff (getHostname : string -> value) (req : Request) :
  onRequest getHostname req = Abort <->
  In (resourceType req) blockedResources
  \/ In (url req) blockedUrls
  \/ (truthy (getHostname (url req)) = true
      /\ ~ allowlisted (getHostname (url req))).
Proof.
  unfold onRequest.
  destruct (arrayIncludes blockedResources (resourceType req)) eqn:Hres.
  { apply arrayIncludes_In in Hres. tauto. }
  apply arrayIncludes_not_In in Hres.
  destruct (arrayIncludes blockedUrls (url req)) eqn:Hurl.
  { apply arrayIncludes_In in Hurl. tauto. }
  apply arrayIncludes_not_In in Hurl.
  destruct (truthy (getHostname (url req))) eqn:Ht; cbn [andb].
  - destruct (arrayIncludesValue allowedHostnames (getHostname (url req)))
      eqn:Hal; cbn [negb].
    + apply arrayIncludesValue_allowlisted in Hal.
      split; [discriminate | tauto].
    + assert (~ allowlisted (getHostname (url req))).
      { rewrite <- arrayIncludesValue_allowlisted. congruence. }
      tauto.
  - split; [discriminate|]. intros [H | [H | [H _]]];
      [tauto | tauto | discriminate].
Qed.

End PolicyFacts.

(** C4, as the handler decides.  A request is aborted exactly when its
    resource type is image, media, font, texttrack or manifest, or its URL
    is on the tracking denylist, or its hostname is truthy and not on the
    allowlist; every other request continues.  In particular a stylesheet
    request to an allowlisted host continues unless its URL is on the
    denylist. *)
Theorem request_policy_decision (getHostname : string -> Js.value)
  (req : Policy.Request) :
  (Policy.onRequest getHostname req = Policy.Abort <->
     In (Policy.resourceType req) ["image"; "media"; "font"; "texttrack"; "manifest"]
     \/ In (Policy.url req) Policy.blockedUrls
     \/ (Js.truthy (getHostname (Policy.url req)) = true
         /\ ~ Spec.allowlisted (getHostname (Policy.url req))))
  /\ (Policy.onRequest getHostname req = Policy.Continue <->
        ~ (In (Policy.resourceType req)
             ["image"; "media"; "font"; "texttrack"; "manifest"]
           \/ In (Policy.url req) Policy.blockedUrls
           \/ (Js.truthy (getHostname (Policy.url req)) = true
               /\ ~ Spec.allowlisted (getHostname (Policy.url req)))))
  /\ (Policy.resourceType req = "stylesheet" ->
      Spec.allowlisted (getHostname (Policy.url req)) ->
      ~ In (Policy.url req) Policy.blockedUrls ->
      Policy.onRequest getHostname req = Policy.Continue).
Proof.
  pose proof (onRequest_abort_iff getHostname req) as Hab.
  change Policy.blockedResources
    with ["image"; "media"; "font"; "texttrack"; "manifest"] in Hab.
  assert (Hco : Policy.onRequest getHostname req = Policy.Continue <->
                Policy.onRequest getHostname req <> Policy.Abort).
  { destruct (Policy.onRequest getHostname req); split; congruence. }
  split; [exact Hab|]. split.
  - rewrite Hco, Hab. tauto.
  - intros Hty Hal Hurl. rewrite Hco, Hab, Hty.
    intros [Hin | [Hin | [_ Hn]]]; [| tauto | tauto].
    cbn in Hin. repeat (destruct Hin as [Hin | Hin]; [discriminate|]).
    exact Hin.
Qed.

Lemma request_policy_decision_witness :
  Policy.onRequest (fun _ => Js.VStr "www.linkedin.com")
    (Policy.mkRequest "stylesheet" "https://www.linkedin.com/in/someone/")
  = Policy.Continue.
Proof.
  apply (proj2 (proj2 (request_policy_decision
                         (fun _ => Js.VStr "www.linkedin.com")
                         (Policy.mkRequest "stylesheet"
                            "https://www.linkedin.com/in/someone/")))).
  - reflexivity.
  - exists "www.linkedin.com". split; [reflexivity|]. cbn. tauto.
  - cbn. intros [H | []]. discriminate.
Defined.

(** C4 as stated fails: a stylesheet request whose host is allowlisted is
    aborted when its URL is the denylisted tracking endpoint. *)
Lemma stylesheet_to_allowlisted_host_aborted :
  exists (getHostname : string -> Js.value) (req : Policy.Request),
    Policy.resourceType req = "stylesheet"
    /\ Spec.allowlisted (getHostname (Policy.url req))
    /\ Policy.onRequest getHostname req = Policy.Abort.
Proof.
  exists (fun _ => Js.VStr "www.linkedin.com"),
         (Policy.mkRequest "stylesheet" "https://www.linkedin.com/li/track").
  split; [reflexivity|]. split; [|reflexivity].
  exists "www.linkedin.com". split; [reflexivity|]. cbn. tauto.
Qed.

(** ** Raw extraction of date ranges and skills *)

Section ExtractFacts.
Import Js Extract Spec.
Variables trim toLowerCase : string -> string.

Lemma segment_is_second (el : option Element) :
  segmentOrNull (textOrNull el) 1 = orNull (secondSegment el).
Proof. reflexivity. Qed.

Lemma endDateOf_present_when_absent (el : option Element) :
  secondSegment el = None ->
  let part := segmentOrNull (textOrNull el) 1 in
  endDateOf trim part (isPresent trim toLowerCase part) = "Present"
  /\ isPresent trim toLowerCase part = false.
Proof.
  intros Hseg part. subst part. rewrite segment_is_second, Hseg.
  split; reflexivity.
Qed.

Lemma endDateOf_present_when_said (el : option Element) :
  saysPresent trim toLowerCase (secondSegment el) ->
  let part := segmentOrNull (textOrNull el) 1 in
  endDateOf trim part (isPresent trim toLowerCase part) = "Present".
Proof.
  intros (s & Hseg & Hp) part. subst part.
  rewrite segment_is_second, Hseg. cbn [orNull].
  destruct (s =? "") eqn:He; [reflexivity|].
  cbn [isPresent endDateOf]. rewrite Hp. reflexivity.
Qed.

Lemma secondSegment_of_no_element : secondSegment None = None.
Proof. reflexivity. Qed.

End ExtractFacts.

(** C9.  In the raw volunteering and experience entries [endDate] is never
    null.  It is the string "Present" whenever the date-range text has no
    second segment or the second segment reads "present" in any letter
    case; an entry without a date range gets "Present" while
    [endDateIsPresent] is false. *)
Theorem raw_endDate_never_null (trim toLowerCase : string -> string)
  (v : Extract.VolunteerNode) (x : Extract.ExperienceNode) :
  let rv := Extract.volunteeringEntry trim toLowerCase v in
  let rx := Extract.experienceEntry trim toLowerCase x in
  (Extract.rv_endDate rv <> None /\ Extract.re_endDate rx <> None)
  /\ (Spec.secondSegment (Extract.v_dateRangeElement v) = None
      \/ Spec.saysPresent trim toLowerCase
           (Spec.secondSegment (Extract.v_dateRangeElement v)) ->
      Extract.rv_endDate rv = Some "Present")
  /\ (Spec.secondSegment (Extract.e_dateRangeElement x) = None
      \/ Spec.saysPresent trim toLowerCase
           (Spec.secondSegment (Extract.e_dateRangeElement x)) ->
      Extract.re_endDate rx = Some "Present")
  /\ (Extract.v_dateRangeElement v = None ->
      Extract.rv_endDate rv = Some "Present"
      /\ Extract.rv_endDateIsPresent rv = false)
  /\ (Extract.e_dateRangeElement x = None ->
      Extract.re_endDate rx = Some "Present"
      /\ Extract.re_endDateIsPresent rx = false).
Proof.
  cbn zeta. unfold Extract.volunteeringEntry, Extract.experienceEntry.
  cbn [Extract.rv_endDate Extract.re_endDate Extract.rv_endDateIsPresent
       Extract.re_endDateIsPresent].
  split; [split; discriminate|].
  split; [|split; [|split]].
  - intros [Hno | Hsaid]; f_equal.
    + apply (endDateOf_present_when_absent trim toLowerCase _ Hno).
    + apply (endDateOf_present_when_said trim toLowerCase _ Hsaid).
  - intros [Hno | Hsaid]; f_equal.
    + apply (endDateOf_present_when_absent trim toLowerCase _ Hno).
    + apply (endDateOf_present_when_said trim toLowerCase _ Hsaid).
  - intros ->.
    destruct (endDateOf_present_when_absent trim toLowerCase None
                secondSegment_of_no_element) as [H1 H2].
    split; [f_equal; exact H1 | exact H2].
  - intros ->.
    destruct (endDateOf_present_when_absent trim toLowerCase None
                secondSegment_of_no_element) as [H1 H2].
    split; [f_equal; exact H1 | exact H2].
Qed.

Lemma raw_endDate_never_null_witness :
  Extract.rv_endDate
    (Extract.volunteeringEntry AsciiBuiltins.trim AsciiBuiltins.toLowerCase
       (Extract.mkVolunteerNode None None
          (Some (Extract.mkElement
                   (Some ("Jan 2019 " ++ Js.enDash ++ " PRESENT "))))
          None))
  = Some "Present"
  /\ Extract.re_endDateIsPresent
       (Extract.experienceEntry AsciiBuiltins.trim AsciiBuiltins.toLowerCase
          (Extract.mkExperienceNode None None None None None None))
     = false.
Proof.
  pose proof (raw_endDate_never_null AsciiBuiltins.trim
                AsciiBuiltins.toLowerCase
                (Extract.mkVolunteerNode None None
                   (Some (Extract.mkElement
                            (Some ("Jan 2019 " ++ Js.enDash ++ " PRESENT "))))
                   None)
                (Extract.mkExperienceNode None None None None None None))
    as (_ & Hv & _ & _ & Hx).
  split.
  - apply Hv. right. exists " PRESENT ". split; reflexivity.
  - apply Hx. reflexivity.
Defined.

Example raw_endDate_of_closed_range :
  Extract.rv_endDate
    (Extract.volunteeringEntry AsciiBuiltins.trim AsciiBuiltins.toLowerCase
       (Extract.mkVolunteerNode None None
          (Some (Extract.mkElement
                   (Some ("Jan 2019 " ++ Js.enDash ++ " Mar 2020"))))
          None))
  = Some "Mar 2020".
Proof. reflexivity. Qed.




(** ** Sessions: invariants of the building blocks *)

Section SessionFacts.
Import Js Config Entities Engine Scraper SessionSpec SessionLogic.
Local Open Scope scraper_scope.

Lemma stable_refl st : stable st st.
Proof.
  constructor; auto. exists []. split; [|reflexivity].
  unfold issued. now rewrite app_nil_r.
Qed.

Lemma stable_trans st1 st2 st3 : stable st1 st2 -> stable st2 st3 -> stable st1 st3.
Proof.
  intros [o1 b1 d1 (c1 & i1 & l1)] [o2 b2 d2 (c2 & i2 & l2)].
  constructor; try congruence; auto.
  exists (c1 ++ c2)%list. split.
  - unfold issued in *. now rewrite i2, i1, app_assoc.
  - rewrite existsb_app, l1, l2. reflexivity.
Qed.

Lemma stable_emit ev st : isLaunch ev = false -> stable st (emit ev st).
Proof.
  intros H. constructor; auto. exists [ev]. split; [reflexivity|].
  cbn. now rewrite H.
Qed.

Lemma Stable_ret {A} (a : A) : Stable (ret a).
Proof. intros st r st' H. injection H as <- <-. apply stable_refl. Qed.

Lemma Stable_throw {A} e : Stable (@throw A e).
Proof. intros st r st' H. injection H as <- <-. apply stable_refl. Qed.

Lemma Stable_bind {A B} (m : M A) (k : A -> M B) :
  Stable m -> (forall a, Stable (k a)) -> Stable (bind m k).
Proof.
  intros Hm Hk st r st' H. unfold bind in H.
  destruct (m st) as [[e | a] s1] eqn:Em.
  - injection H as <- <-. eapply Hm; eassumption.
  - eapply stable_trans; [eapply Hm; eassumption | eapply Hk; eassumption].
Qed.

Lemma Stable_tryCatch {A} (body : M A) (handler : thrown -> M A) :
  Stable body -> (forall e, Stable (handler e)) -> Stable (tryCatch body handler).
Proof.
  intros Hm Hk st r st' H. unfold tryCatch in H.
  destruct (body st) as [[e | a] s1] eqn:Em.
  - eapply stable_trans; [eapply Hm; eassumption | eapply Hk; eassumption].
  - injection H as <- <-. eapply Hm; eassumption.
Qed.

(** A computation that first reads the state. *)
Lemma Stable_read {A X} (f : State -> X) (m : X -> M A) :
  (forall x, Stable (m x)) -> Stable (fun st => m (f st) st).
Proof. intros Hm st r st' H. eapply Hm; eassumption. Qed.

Lemma Stable_newPage env : Stable (newPage env).
Proof.
  intros st r st' H. unfold newPage in H.
  destruct (newPage_answer env (tick st));
    injection H as <- <-; stable_step.
Qed.

Lemma Stable_configurePage env p ua c : Stable (configurePage env p ua c).
Proof. intros st r st' H. injection H as <- <-. stable_step. Qed.

Lemma Stable_goto env p u w t : Stable (goto env p u w t).
Proof. intros st r st' H. injection H as <- <-. stable_step. Qed.

Lemma Stable_autoScroll env p : Stable (autoScroll env p).
Proof. intros st r st' H. injection H as <- <-. stable_step. Qed.

Lemma Stable_evaluate {A} p x (ans : nat -> string + A) :
  Stable (evaluate p x ans).
Proof. intros st r st' H. injection H as <- <-. stable_step. Qed.

Lemma Stable_closePage env p : Stable (closePage env p).
Proof.
  intros st r st' H. unfold closePage in H.
  destruct (closePage_answer env (tick st)); injection H as <- <-; stable_step.
Qed.

Lemma Stable_closeBrowser env : Stable (closeBrowser env).
Proof.
  intros st r st' H. unfold closeBrowser in H.
  destruct (closeBrowser_answer env (tick st)); injection H as <- <-;
    stable_step.
Qed.

Lemma stable_treeKill env pid sig st :
  stable st (snd (treeKill env pid sig st)).
Proof. stable_step. Qed.

Lemma stable_closeGivenPage env page st :
  stable st (snd (closeGivenPage env page st)).
Proof.
  unfold closeGivenPage. destruct page as [p|]; [|apply stable_refl].
  destruct (closePage env p st) as [[e | u] s] eqn:Ec; cbn [snd];
    eapply Stable_closePage; eassumption.
Qed.

Lemma stable_closeStoredBrowser env st :
  stable st (snd (closeStoredBrowser env st)).
Proof.
  unfold closeStoredBrowser.
  destruct (browser st) as [b|]; [|apply stable_refl].
  destruct (closeBrowser env st) as [[e | u] s2] eqn:Ec; cbn [snd].
  { eapply Stable_closeBrowser; eassumption. }
  pose proof (Stable_closeBrowser env _ _ _ Ec) as H2.
  destruct (process_pid b) as [pid|]; [|assumption].
  destruct (pid =? 0)%Z; [assumption|].
  pose proof (stable_treeKill env pid "SIGKILL" s2) as H3.
  destruct (treeKill env pid "SIGKILL" s2) as [err s3].
  cbn [snd] in *. eapply stable_trans; eassumption.
Qed.

Lemma Stable_close env page : Stable (close env page).
Proof.
  intros st r st' H. unfold close in H.
  pose proof (stable_closeGivenPage env page st) as H1.
  destruct (closeGivenPage env page st) as [early1 st1].
  pose proof (stable_closeStoredBrowser env st1) as H2.
  destruct (closeStoredBrowser env st1) as [[early2 late] st2].
  injection H as <- <-. cbn [snd] in *. eapply stable_trans; eassumption.
Qed.

Lemma Stable_handler env {A} e :
  Stable (close env None ;;; @throw A e).
Proof.
  apply Stable_bind; [apply Stable_close | intros; apply Stable_throw].
Qed.

Lemma Stable_createPage env : Stable (createPage env).
Proof.
  intros st r st' H. unfold createPage in H.
  destruct (browser st).
  - revert H. apply Stable_tryCatch.
    + apply Stable_bind; [apply Stable_newPage|]. intros p.
      apply Stable_bind; [apply Stable_configurePage|]. intros _.
      apply Stable_ret.
    + intros e. apply Stable_handler.
  - injection H as <- <-. apply stable_refl.
Qed.

Lemma Stable_detail env {A} (suffix extractor : string)
  (ans : nat -> string + A) profileUrl :
  Stable (page <- createPage env ;;
          goto env page (profileUrl ++ suffix) "networkidle2" None ;;;
          data <- evaluate page extractor ans ;;
          closePage env page ;;;
          ret data).
Proof.
  apply Stable_bind; [apply Stable_createPage|]. intros p.
  apply Stable_bind; [apply Stable_goto|]. intros _.
  apply Stable_bind; [apply Stable_evaluate|]. intros d.
  apply Stable_bind; [apply Stable_closePage|]. intros _.
  apply Stable_ret.
Qed.

Lemma Stable_getExperiences env u : Stable (getExperiences env u).
Proof. apply Stable_detail. Qed.

Lemma Stable_getEducation env u : Stable (getEducation env u).
Proof. apply Stable_detail. Qed.

Lemma Stable_getSkills env u : Stable (getSkills env u).
Proof. apply Stable_detail. Qed.

Lemma Stable_promiseAll env u : Stable (promiseAll env u).
Proof.
  intros st r st' H. unfold promiseAll in H.
  pose proof (Stable_getExperiences env u) as HE.
  pose proof (Stable_getEducation env u) as HD.
  pose proof (Stable_getSkills env u) as HS.
  destruct (schedule env (tick st));
    repeat match type of H with
      | context [let '(_, _) := ?t ?s in _] =>
          let E := fresh "E" in
          destruct (t s) as [? ?] eqn:E
      end;
    injection H as <- <-;
    repeat match goal with
      | E : getExperiences _ _ _ = _ |- _ => apply HE in E
      | E : getEducation _ _ _ = _ |- _ => apply HD in E
      | E : getSkills _ _ _ = _ |- _ => apply HS in E
      end;
    eauto using stable_trans.
Qed.

Lemma Stable_primary env u : Stable (primary env u).
Proof.
  intros st r st' H. unfold primary in H. revert H.
  generalize (timeout (options st)). intros t.
  apply Stable_bind; [apply Stable_createPage|]. intros p.
  apply Stable_bind; [apply Stable_goto|]. intros _.
  apply Stable_bind; [apply Stable_autoScroll|]. intros _.
  apply Stable_bind; [apply Stable_evaluate|]. intros pr.
  apply Stable_bind; [apply Stable_evaluate|]. intros v.
  apply Stable_ret.
Qed.

Lemma Stable_dispose env p : Stable (dispose env p).
Proof.
  intros st r st' H. unfold dispose in H.
  destruct (negb (truthy (keepAlive (options st)))).
  - eapply Stable_close; eassumption.
  - eapply Stable_closePage; eassumption.
Qed.

Lemma Stable_runBody env u : Stable (runBody env u).
Proof.
  apply Stable_bind; [apply Stable_primary|]. intros [[p pr] v].
  apply Stable_bind; [apply Stable_promiseAll|]. intros [[e d] s].
  apply Stable_bind; [apply Stable_dispose|]. intros _.
  apply Stable_ret.
Qed.

Lemma Stable_run env u : Stable (run env u).
Proof.
  intros st r st' H. unfold run in H.
  destruct (browser st); [|injection H as <- <-; apply stable_refl].
  destruct (u =? ""); [injection H as <- <-; apply stable_refl|].
  destruct (negb (includes u "linkedin.com/"));
    [injection H as <- <-; apply stable_refl|].
  revert H. apply Stable_tryCatch; [apply Stable_runBody|].
  intros e. apply Stable_handler.
Qed.

(** *** What [close] does *)

Lemma closeGivenPage_rejects env page st :
  fst (closeGivenPage env page st) = []
  \/ exists msg, fst (closeGivenPage env page st) = [Throw (Engine msg)].
Proof.
  unfold closeGivenPage. destruct page as [p|]; [|now left].
  unfold closePage. destruct (closePage_answer env (tick st)) as [msg|];
    cbn; [right; now exists msg | now left].
Qed.

Lemma closeStoredBrowser_cases env b st :
  browser st = Some b ->
  let '(early2, late, st2) := closeStoredBrowser env st in
  (exists calls, issued st st2 (CloseBrowser :: calls))
  /\ ((exists msg, early2 = [Throw (Engine msg)])
      \/ (early2 = [] /\ connected st2 = false)).
Proof.
  intros Hb. unfold closeStoredBrowser. rewrite Hb.
  unfold closeBrowser.
  destruct (closeBrowser_answer env (tick st)) as [msg|].
  - split; [exists []; reflexivity | left; now exists msg].
  - destruct (process_pid b) as [pid|].
    + destruct (pid =? 0)%Z; cbn.
      * split; [exists []; reflexivity | right; now split].
      * split; [|right; now split].
        eexists. unfold issued. cbn. rewrite <- app_assoc. reflexivity.
    + split; [exists []; reflexivity | right; now split].
Qed.

Lemma close_attempts_shutdown env page b st r st' :
  browser st = Some b -> close env page st = (r, st') ->
  exists calls, issued st st' calls /\ In CloseBrowser calls.
Proof.
  intros Hb H. unfold close in H.
  pose proof (stable_closeGivenPage env page st) as H1.
  destruct (closeGivenPage env page st) as [early1 st1]. cbn [snd] in H1.
  assert (Hb1 : browser st1 = Some b).
  { rewrite (stable_browser _ _ H1). exact Hb. }
  pose proof (closeStoredBrowser_cases env b st1 Hb1) as H2.
  destruct (closeStoredBrowser env st1) as [[early2 late] st2].
  injection H as <- <-. destruct H2 as [(c2 & i2) _].
  destruct (stable_calls _ _ H1) as (c1 & i1 & _).
  exists (c1 ++ CloseBrowser :: c2)%list. split.
  - unfold issued in *. now rewrite i2, i1, app_assoc.
  - apply in_or_app. right. now left.
Qed.

Lemma close_fulfilled_disconnects env page b st u st' :
  browser st = Some b -> close env page st = (inr u, st') ->
  connected st' = false.
Proof.
  intros Hb H. unfold close in H.
  pose proof (stable_closeGivenPage env page st) as H1.
  pose proof (closeGivenPage_rejects env page st) as R1.
  destruct (closeGivenPage env page st) as [early1 st1]. cbn [snd fst] in *.
  assert (Hb1 : browser st1 = Some b).
  { rewrite (stable_browser _ _ H1). exact Hb. }
  pose proof (closeStoredBrowser_cases env b st1 Hb1) as H2.
  destruct (closeStoredBrowser env st1) as [[early2 late] st2].
  destruct H2 as [_ H2].
  destruct R1 as [-> | (msg & ->)]; [|discriminate].
  destruct H2 as [(msg & ->) | [-> Hc]]; [discriminate|].
  injection H as _ <-. exact Hc.
Qed.

Lemma close_throws_engine env page st e st' :
  close env page st = (inl e, st') -> fromEngine e.
Proof.
  intros H. unfold close in H.
  pose proof (closeGivenPage_rejects env page st) as R1.
  destruct (closeGivenPage env page st) as [early1 st1]. cbn [fst] in R1.
  destruct R1 as [-> | (msg & ->)].
  - unfold closeStoredBrowser in H.
    destruct (browser st1) as [b|]; [|discriminate].
    unfold closeBrowser in H.
    destruct (closeBrowser_answer env (tick st1)) as [msg|].
    + injection H as <- _. now exists msg.
    + destruct (process_pid b) as [pid|]; [|discriminate].
      destruct (pid =? 0)%Z; discriminate.
  - destruct (closeStoredBrowser env st1) as [[early2 late] st2].
    injection H as <- _. now exists msg.
Qed.

(** *** Computations that returned normally *)

Lemma quiet_refl st : quiet st st.
Proof.
  constructor; auto. exists []. split; [|reflexivity].
  unfold issued. now rewrite app_nil_r.
Qed.

Lemma quiet_trans st1 st2 st3 : quiet st1 st2 -> quiet st2 st3 -> quiet st1 st3.
Proof.
  intros [d1 (c1 & i1 & l1)] [d2 (c2 & i2 & l2)].
  constructor; try congruence.
  exists (c1 ++ c2)%list. split.
  - unfold issued in *. now rewrite i2, i1, app_assoc.
  - rewrite existsb_app, l1, l2. reflexivity.
Qed.

Lemma Quiet_ret {A} (a : A) : Quiet (ret a).
Proof. intros st x st' H. injection H as _ <-. apply quiet_refl. Qed.

Lemma Quiet_bind {A B} (m : M A) (k : A -> M B) :
  Quiet m -> (forall a, Quiet (k a)) -> Quiet (bind m k).
Proof.
  intros Hm Hk st b st' H. unfold bind in H.
  destruct (m st) as [[e | a] s1] eqn:Em; [discriminate|].
  eapply quiet_trans; [eapply Hm; eassumption | eapply Hk; eassumption].
Qed.

Lemma Fails_handler env {A} e : Fails (close env None ;;; @throw A e).
Proof.
  intros st. unfold bind, throw.
  destruct (close env None st) as [[e' | u] s]; eauto.
Qed.

Lemma Quiet_tryCatch {A} (body : M A) (handler : thrown -> M A) :
  Quiet body -> (forall e, Fails (handler e)) -> Quiet (tryCatch body handler).
Proof.
  intros Hm Hk st a st' H. unfold tryCatch in H.
  destruct (body st) as [[e | a'] s1] eqn:Em.
  - destruct (Hk e s1) as (e' & s' & E). rewrite E in H. discriminate.
  - injection H as <- <-. eapply Hm; eassumption.
Qed.

Lemma Quiet_newPage env : Quiet (newPage env).
Proof.
  intros st a st' H. unfold newPage in H.
  destruct (newPage_answer env (tick st)); [discriminate|].
  injection H as _ <-. quiet_step.
Qed.

Lemma Quiet_configurePage env p ua c : Quiet (configurePage env p ua c).
Proof. intros st a st' H. injection H as _ <-. quiet_step. Qed.

Lemma Quiet_goto env p u w t : Quiet (goto env p u w t).
Proof. intros st a st' H. injection H as _ <-. quiet_step. Qed.

Lemma Quiet_autoScroll env p : Quiet (autoScroll env p).
Proof. intros st a st' H. injection H as _ <-. quiet_step. Qed.

Lemma Quiet_evaluate {A} p x (ans : nat -> string + A) :
  Quiet (evaluate p x ans).
Proof. intros st a st' H. injection H as _ <-. quiet_step. Qed.

Lemma Quiet_closePage env p : Quiet (closePage env p).
Proof.
  intros st a st' H. unfold closePage in H.
  destruct (closePage_answer env (tick st)); [discriminate|].
  injection H as _ <-. quiet_step.
Qed.

Lemma Quiet_createPage env : Quiet (createPage env).
Proof.
  intros st a st' H. unfold createPage in H.
  destruct (browser st); [|discriminate].
  revert H. apply Quiet_tryCatch.
  - apply Quiet_bind; [apply Quiet_newPage|]. intros p.
    apply Quiet_bind; [apply Quiet_configurePage|]. intros _.
    apply Quiet_ret.
  - intros e. apply Fails_handler.
Qed.

Lemma createPage_needs_browser env st p st' :
  createPage env st = (inr p, st') -> exists b, browser st = Some b.
Proof.
  intros H. unfold createPage in H.
  destruct (browser st) as [b|]; [now exists b | discriminate].
Qed.

Lemma Quiet_detail env {A} (suffix extractor : string)
  (ans : nat -> string + A) profileUrl :
  Quiet (page <- createPage env ;;
         goto env page (profileUrl ++ suffix) "networkidle2" None ;;;
         data <- evaluate page extractor ans ;;
         closePage env page ;;;
         ret data).
Proof.
  apply Quiet_bind; [apply Quiet_createPage|]. intros p.
  apply Quiet_bind; [apply Quiet_goto|]. intros _.
  apply Quiet_bind; [apply Quiet_evaluate|]. intros d.
  apply Quiet_bind; [apply Quiet_closePage|]. intros _.
  apply Quiet_ret.
Qed.

Lemma join3_inr {A B C D} (ra : result A) (rb : result B) (rc : result C)
  (k : A -> B -> C -> D) d :
  join3 ra rb rc k = inr d ->
  exists a b c, ra = inr a /\ rb = inr b /\ rc = inr c /\ d = k a b c.
Proof.
  destruct ra as [|a], rb as [|b], rc as [|c]; cbn; try discriminate.
  intros H. injection H as <-. now exists a, b, c.
Qed.

Lemma Quiet_promiseAll env u : Quiet (promiseAll env u).
Proof.
  intros st d st' H. unfold promiseAll in H.
  pose proof (Quiet_detail env "/details/experience" "experience"
                (experiences_answer env) u) as HE.
  pose proof (Quiet_detail env "/details/education" "education"
                (education_answer env) u) as HD.
  pose proof (Quiet_detail env "/details/skills" "skills"
                (skills_answer env) u) as HS.
  fold (getExperiences env u) in HE. fold (getEducation env u) in HD.
  fold (getSkills env u) in HS.
  destruct (schedule env (tick st));
    repeat match type of H with
      | context [let '(_, _) := ?t ?s in _] =>
          let E := fresh "E" in
          destruct (t s) as [? ?] eqn:E
      end;
    injection H as H <-;
    apply join3_inr in H; destruct H as (a & b & c & -> & -> & -> & _);
    repeat match goal with
      | E : getExperiences _ _ _ = _ |- _ => apply HE in E
      | E : getEducation _ _ _ = _ |- _ => apply HD in E
      | E : getSkills _ _ _ = _ |- _ => apply HS in E
      end;
    eauto using quiet_trans.
Qed.

Lemma Quiet_primary env u : Quiet (primary env u).
Proof.
  intros st a st' H. unfold primary in H. revert H.
  generalize (timeout (options st)). intros t.
  apply Quiet_bind; [apply Quiet_createPage|]. intros p.
  apply Quiet_bind; [apply Quiet_goto|]. intros _.
  apply Quiet_bind; [apply Quiet_autoScroll|]. intros _.
  apply Quiet_bind; [apply Quiet_evaluate|]. intros pr.
  apply Quiet_bind; [apply Quiet_evaluate|]. intros v.
  apply Quiet_ret.
Qed.

(** A run that returned a result went through its three phases. *)
Lemma run_returned env u st res st' :
  run env u st = (inr res, st') ->
  exists page pr v s1 e d s s2 x,
    primary env u st = (inr (page, pr, v), s1)
    /\ promiseAll env u s1 = (inr (e, d, s), s2)
    /\ dispose env page s2 = (inr x, st')
    /\ res = mkResult pr e d v s.
Proof.
  intros H. unfold run in H.
  destruct (browser st); [|discriminate].
  destruct (u =? ""); [discriminate|].
  destruct (negb (includes u "linkedin.com/")); [discriminate|].
  unfold tryCatch in H.
  destruct (runBody env u st) as [[err | r] s'] eqn:Eb.
  { destruct (Fails_handler env (A := Result) err s') as (e' & s'' & E).
    rewrite E in H. discriminate. }
  injection H as -> ->. unfold runBody, bind in Eb.
  destruct (primary env u st) as [[err | [[page pr] v]] s1] eqn:E1;
    [discriminate|].
  destruct (promiseAll env u s1) as [[err | [[e d] s]] s2] eqn:E2;
    [discriminate|].
  destruct (dispose env page s2) as [[err | x] s3] eqn:E3; [discriminate|].
  injection Eb as <- <-. now exists page, pr, v, s1, e, d, s, s2, x.
Qed.

(** *** A closed browser *)

Lemma bind_throws {A B} (m : M A) (k : A -> M B) st e st' :
  m st = (inl e, st') -> bind m k st = (inl e, st').
Proof. intros H. unfold bind. now rewrite H. Qed.

Lemma createPage_rejected env b st msg :
  browser st = Some b -> newPage_answer env (tick st) = Some msg ->
  exists e st', createPage env st = (inl e, st').
Proof.
  intros Hb Hn. unfold createPage. rewrite Hb.
  unfold tryCatch, bind, newPage. rewrite Hn.
  apply (Fails_handler env (A := PageId)).
Qed.

(** [run] fails when the engine rejects its first request for a page. *)
Lemma run_rejected env b u st msg :
  browser st = Some b -> newPage_answer env (tick st) = Some msg ->
  exists e st', run env u st = (inl e, st').
Proof.
  intros Hb Hn. unfold run. rewrite Hb.
  destruct (u =? ""); [eauto|].
  destruct (negb (includes u "linkedin.com/")); [eauto|].
  unfold tryCatch.
  destruct (createPage_rejected env b st msg Hb Hn) as (e & s & E).
  assert (Eb : runBody env u st = (inl e, s)).
  { unfold runBody. apply bind_throws. unfold primary.
    apply bind_throws. exact E. }
  rewrite Eb. apply (Fails_handler env (A := Result)).
Qed.

(** *** A cooperative engine *)

Lemma Succeeds_ret o b {A} (a : A) : Succeeds o b (ret a).
Proof. intros st R. now exists a, st. Qed.

Lemma Succeeds_bind o b {A B} (m : M A) (k : A -> M B) :
  Succeeds o b m -> (forall a, Succeeds o b (k a)) -> Succeeds o b (bind m k).
Proof.
  intros Hm Hk st R. destruct (Hm st R) as (a & s1 & E1 & R1).
  destruct (Hk a s1 R1) as (x & s2 & E2 & R2).
  exists x, s2. split; [|assumption]. unfold bind. now rewrite E1.
Qed.

Lemma Succeeds_tryCatch o b {A} (body : M A) handler :
  Succeeds o b body -> Succeeds o b (tryCatch body handler).
Proof.
  intros Hm st R. destruct (Hm st R) as (a & s1 & E1 & R1).
  exists a, s1. split; [|assumption]. unfold tryCatch. now rewrite E1.
Qed.


Section Cooperating.
Variable env : Env.
Hypothesis coop : Cooperative env.
Variable o : ScraperOptions.
Variable b : Browser.

Lemma Succeeds_newPage : Succeeds o b (newPage env).
Proof.
  intros st R. unfold newPage.
  rewrite (coop_newPage env coop). ready_step.
Qed.

Lemma Succeeds_configurePage p ua c : Succeeds o b (configurePage env p ua c).
Proof.
  intros st R. unfold configurePage.
  rewrite (coop_configure env coop). ready_step.
Qed.

Lemma Succeeds_goto p u w t : Succeeds o b (goto env p u w t).
Proof.
  intros st R. unfold goto.
  destruct (coop_goto env coop (tick st) u) as (final & ->). ready_step.
Qed.

Lemma Succeeds_autoScroll p : Succeeds o b (autoScroll env p).
Proof.
  intros st R. unfold autoScroll.
  rewrite (coop_autoScroll env coop). ready_step.
Qed.

Lemma Succeeds_evaluate {A} p x (ans : nat -> string + A) :
  (forall n, exists v, ans n = inr v) -> Succeeds o b (evaluate p x ans).
Proof.
  intros Hans st R. unfold evaluate.
  destruct (Hans (tick st)) as (v & ->). ready_step.
Qed.

Lemma Succeeds_closePage p : Succeeds o b (closePage env p).
Proof.
  intros st R. unfold closePage.
  rewrite (coop_closePage env coop). ready_step.
Qed.

Lemma Succeeds_createPage : Succeeds o b (createPage env).
Proof.
  intros st R. unfold createPage. rewrite (ready_browser _ _ _ R).
  generalize (userAgent (options st)) (sessionCookieValue (options st)).
  intros ua c. revert st R. apply Succeeds_tryCatch.
  apply Succeeds_bind; [apply Succeeds_newPage|]. intros p.
  apply Succeeds_bind; [apply Succeeds_configurePage|]. intros _.
  apply Succeeds_ret.
Qed.

Lemma Succeeds_detail {A} (suffix extractor : string)
  (ans : nat -> string + A) profileUrl :
  (forall n, exists v, ans n = inr v) ->
  Succeeds o b (page <- createPage env ;;
                goto env page (profileUrl ++ suffix) "networkidle2" None ;;;
                data <- evaluate page extractor ans ;;
                closePage env page ;;;
                ret data).
Proof.
  intros Hans.
  apply Succeeds_bind; [apply Succeeds_createPage|]. intros p.
  apply Succeeds_bind; [apply Succeeds_goto|]. intros _.
  apply Succeeds_bind; [now apply Succeeds_evaluate|]. intros d.
  apply Succeeds_bind; [apply Succeeds_closePage|]. intros _.
  apply Succeeds_ret.
Qed.

Lemma Succeeds_promiseAll u : Succeeds o b (promiseAll env u).
Proof.
  intros st R. unfold promiseAll.
  pose proof (Succeeds_detail "/details/experience" "experience"
                (experiences_answer env) u (coop_experiences env coop)) as HE.
  pose proof (Succeeds_detail "/details/education" "education"
                (education_answer env) u (coop_education env coop)) as HD.
  pose proof (Succeeds_detail "/details/skills" "skills"
                (skills_answer env) u (coop_skills env coop)) as HS.
  fold (getExperiences env u) in HE. fold (getEducation env u) in HD.
  fold (getSkills env u) in HS.
  destruct (schedule env (tick st));
    repeat match goal with
      | R' : ready o b ?s |- context [getExperiences env u ?s] =>
          let E := fresh "E" in
          destruct (HE s R') as (? & ? & E & ?); rewrite E; clear E
      | R' : ready o b ?s |- context [getEducation env u ?s] =>
          let E := fresh "E" in
          destruct (HD s R') as (? & ? & E & ?); rewrite E; clear E
      | R' : ready o b ?s |- context [getSkills env u ?s] =>
          let E := fresh "E" in
          destruct (HS s R') as (? & ? & E & ?); rewrite E; clear E
      end;
    cbn [join3]; do 2 eexists; (split; [reflexivity | assumption]).
Qed.

Lemma Succeeds_primary u : Succeeds o b (primary env u).
Proof.
  intros st R. unfold primary. generalize (timeout (options st)). intros t.
  revert st R.
  apply Succeeds_bind; [apply Succeeds_createPage|]. intros p.
  apply Succeeds_bind; [apply Succeeds_goto|]. intros _.
  apply Succeeds_bind; [apply Succeeds_autoScroll|]. intros _.
  apply Succeeds_bind;
    [apply Succeeds_evaluate, (coop_profile env coop)|]. intros pr.
  apply Succeeds_bind;
    [apply Succeeds_evaluate, (coop_volunteering env coop)|]. intros v.
  apply Succeeds_ret.
Qed.

Lemma Succeeds_dispose_keepAlive p :
  truthy (keepAlive o) = true -> Succeeds o b (dispose env p).
Proof.
  intros Hk st R. unfold dispose.
  rewrite (ready_options _ _ _ R), Hk. cbn [negb].
  now apply Succeeds_closePage.
Qed.

Lemma Succeeds_run_keepAlive u :
  truthy (keepAlive o) = true -> acceptableUrl u -> Succeeds o b (run env u).
Proof.
  intros Hk [Hne Hin] st R. unfold run.
  rewrite (ready_browser _ _ _ R).
  apply String.eqb_neq in Hne. rewrite Hne, Hin. cbn [negb].
  revert st R. apply Succeeds_tryCatch. unfold runBody.
  apply Succeeds_bind; [apply Succeeds_primary|]. intros [[p pr] v].
  apply Succeeds_bind; [apply Succeeds_promiseAll|]. intros [[e d] s].
  apply Succeeds_bind; [now apply Succeeds_dispose_keepAlive|]. intros _.
  apply Succeeds_ret.
Qed.

End Cooperating.

(** *** The two ways [run] disposes of the session *)

Lemma issued_unique st st' c1 c2 : issued st st' c1 -> issued st st' c2 -> c1 = c2.
Proof.
  unfold issued. intros H1 H2. rewrite H1 in H2.
  now apply app_inv_head in H2.
Qed.

Lemma issued_trans s1 s2 s3 c1 c2 :
  issued s1 s2 c1 -> issued s2 s3 c2 -> issued s1 s3 (c1 ++ c2).
Proof. unfold issued. intros H1 H2. now rewrite H2, H1, app_assoc. Qed.

Lemma primary_has_browser env u st x st' :
  primary env u st = (inr x, st') -> exists b, browser st = Some b.
Proof.
  intros H. unfold primary, bind in H.
  destruct (createPage env st) as [[e | p] s] eqn:Ec; [discriminate|].
  eapply createPage_needs_browser; eassumption.
Qed.

(** Up to the disposal, a run that returned has neither launched nor shut
    down anything and the browser still runs. *)
Lemma run_before_disposal env u st page pr v s1 d s2 :
  primary env u st = (inr (page, pr, v), s1) ->
  promiseAll env u s1 = (inr d, s2) ->
  options s2 = options st /\ browser s2 = browser st
  /\ connected s2 = connected st
  /\ exists calls, issued st s2 calls
                   /\ existsb isShutdown calls = false
                   /\ existsb isLaunch calls = false.
Proof.
  intros E1 E2.
  pose proof (quiet_trans _ _ _ (Quiet_primary env u _ _ _ E1)
                (Quiet_promiseAll env u _ _ _ E2)) as [Qc (c & Qi & Qs)].
  pose proof (stable_trans _ _ _ (Stable_primary env u _ _ _ E1)
                (Stable_promiseAll env u _ _ _ E2)) as [So Sb _ (c' & Si & Sl)].
  repeat split; try congruence.
  exists c. rewrite (issued_unique _ _ _ _ Si Qi) in Sl. auto.
Qed.

Lemma closePage_returned env p st x st' :
  closePage env p st = (inr x, st') ->
  options st' = options st /\ browser st' = browser st
  /\ connected st' = connected st /\ issued st st' [ClosePage p].
Proof.
  unfold closePage. destruct (closePage_answer env (tick st));
    [discriminate|].
  intros H. injection H as _ <-. repeat split.
Qed.

(** *** Where errors come from *)

Lemma createPage_throws env st e st' :
  createPage env st = (inl e, st') ->
  e = JsError "Browser not set." \/ fromEngine e.
Proof.
  intros H. unfold createPage in H.
  destruct (browser st) as [b|]; [|injection H as <- _; now left].
  right. unfold tryCatch in H.
  destruct ((page <- newPage env ;;
             configurePage env page (userAgent (options st))
               (sessionCookieValue (options st)) ;;; ret page) st)
    as [[err | p] s1] eqn:Eb; [|discriminate].
  assert (Herr : fromEngine err).
  { unfold bind, newPage in Eb.
    destruct (newPage_answer env (tick st)) as [msg|].
    - injection Eb as <- _. now exists msg.
    - unfold configurePage, succeeded in Eb.
      destruct (configure_answer env _) as [msg|]; [|discriminate].
      injection Eb as <- _. now exists msg. }
  unfold bind, throw in H.
  destruct (close env None s1) as [[ce | x] s2] eqn:Ec.
  - injection H as <- _. eapply close_throws_engine; eassumption.
  - injection H as <- _. exact Herr.
Qed.

Lemma goto_throws env p u w t st e st' :
  goto env p u w t st = (inl e, st') -> fromEngine e.
Proof.
  unfold goto, answered. destruct (goto_answer env (tick st) u) as [msg|];
    [|discriminate].
  intros H. injection H as <- _. now exists msg.
Qed.

Lemma closePage_throws env p st e st' :
  closePage env p st = (inl e, st') -> fromEngine e.
Proof.
  unfold closePage. destruct (closePage_answer env (tick st)) as [msg|];
    [|discriminate].
  intros H. injection H as <- _. now exists msg.
Qed.

Lemma closePage_drops env p st x st' :
  closePage env p st = (inr x, st') -> ~ In p (pages st').
Proof.
  unfold closePage. destruct (closePage_answer env (tick st));
    [discriminate|].
  intros H. injection H as _ <-. cbn. rewrite filter_In.
  intros [_ Hp]. now rewrite Nat.eqb_refl in Hp.
Qed.

Lemma expired_not_fromEngine m : ~ fromEngine (SessionExpired m).
Proof. intros (msg & H). discriminate. Qed.

Lemma Stable_checkIfLoggedIn env : Stable (checkIfLoggedIn env).
Proof.
  intros st r st' H. unfold checkIfLoggedIn in H. revert H.
  generalize (timeout (options st)). intros t.
  apply Stable_bind; [apply Stable_createPage|]. intros p.
  apply Stable_bind; [apply Stable_goto|]. intros u.
  apply Stable_bind; [apply Stable_closePage|]. intros _.
  destruct (negb (endsWith u "/login"));
    [apply Stable_ret | apply Stable_throw].
Qed.

(** *** Login verification *)

Lemma checkIfLoggedIn_verdict env st p s1 final s2 x s3 :
  createPage env st = (inr p, s1) ->
  goto env p loginUrl "domcontentloaded" (Some (timeout (options st))) s1
    = (inr final, s2) ->
  closePage env p s2 = (inr x, s3) ->
  checkIfLoggedIn env st
  = (if endsWith final "/login"
     then Throw (SessionExpired expiredMessage) else Ok tt, s3).
Proof.
  intros E1 E2 E3. unfold checkIfLoggedIn, bind. rewrite E1, E2, E3.
  destruct (endsWith final "/login"); reflexivity.
Qed.

Lemma checkIfLoggedIn_expired env st m st' :
  checkIfLoggedIn env st = (inl (SessionExpired m), st') ->
  exists p s1 final s2 x,
    createPage env st = (inr p, s1)
    /\ goto env p loginUrl "domcontentloaded" (Some (timeout (options st))) s1
       = (inr final, s2)
    /\ endsWith final "/login" = true
    /\ closePage env p s2 = (inr x, st').
Proof.
  intros H. unfold checkIfLoggedIn, bind in H.
  destruct (createPage env st) as [[e | p] s1] eqn:E1.
  { injection H as -> _. apply createPage_throws in E1.
    destruct E1 as [E1 | E1]; [discriminate|].
    now apply expired_not_fromEngine in E1. }
  destruct (goto env p loginUrl "domcontentloaded"
              (Some (timeout (options st))) s1) as [[e | final] s2] eqn:E2.
  { injection H as -> _. apply goto_throws in E2.
    now apply expired_not_fromEngine in E2. }
  destruct (closePage env p s2) as [[e | x] s3] eqn:E3.
  { injection H as -> _. apply closePage_throws in E3.
    now apply expired_not_fromEngine in E3. }
  destruct (endsWith final "/login") eqn:Eu; cbn [negb] in H.
  - injection H as _ <-. now exists p, s1, final, s2, x.
  - discriminate.
Qed.

(** [setup] that ends in [SessionExpired] has launched a browser, stored
    its handle and shut it down again. *)
Lemma setup_expired env st m st' :
  setup env st = (inl (SessionExpired m), st') ->
  (exists b, browser st' = Some b) /\ connected st' = false
  /\ exists calls, issued st st' calls /\ In CloseBrowser calls.
Proof.
  intros H. unfold setup, tryCatch, bind, launch in H.
  destruct (launch_answer env (tick st)) as [msg | b].
  { cbv beta iota delta [Throw throw] in H.
    match type of H with
    | context [close env None ?s0] =>
        destruct (close env None s0) as [[ce | x] s] eqn:Ec
    end.
    - injection H as H _. apply close_throws_engine in Ec.
      rewrite H in Ec. now apply expired_not_fromEngine in Ec.
    - discriminate. }
  cbv beta iota delta [Ok] in H.
  set (s0 := setBrowser b _) in H.
  destruct (checkIfLoggedIn env s0) as [[e | x] s1] eqn:E1; [|discriminate].
  pose proof (Stable_checkIfLoggedIn env _ _ _ E1) as S1.
  assert (Hb1 : browser s1 = Some b).
  { rewrite (stable_browser _ _ S1). reflexivity. }
  unfold throw in H.
  destruct (close env None s1) as [[ce | y] s2] eqn:Ec.
  { injection H as H _. apply close_throws_engine in Ec.
    rewrite H in Ec. now apply expired_not_fromEngine in Ec. }
  injection H as _ <-.
  pose proof (Stable_close env None _ _ _ Ec) as S2.
  split; [exists b; now rewrite (stable_browser _ _ S2)|].
  split; [eapply close_fulfilled_disconnects; eassumption|].
  destruct (close_attempts_shutdown _ _ _ _ _ _ Hb1 Ec) as (c2 & Hi2 & Hin).
  destruct (stable_calls _ _ S1) as (c1 & Hi1 & _).
  eexists (_ :: c1 ++ c2)%list. split.
  - unfold issued in *. rewrite Hi2, Hi1. subst s0. cbn.
    rewrite <- !app_assoc. reflexivity.
  - right. apply in_or_app. now right.
Qed.

(** *** The fan-out *)

Lemma join3_outcome {A B C D} (ra : result A) (rb : result B) (rc : result C)
  (k : A -> B -> C -> D) :
  outcome (join3 ra rb rc k) = firstFailure [outcome ra; outcome rb; outcome rc].
Proof. destruct ra, rb, rc; reflexivity. Qed.

(** [Promise.all] fails exactly when a task does, with the failure of the
    first task to fail. *)
Lemma promiseAll_outcome env u st :
  outcome (fst (promiseAll env u st)) = firstFailure (taskOutcomes env u st).
Proof.
  unfold promiseAll, taskOutcomes.
  destruct (schedule env (tick st));
    repeat match goal with
      | |- context [let '(_, _) := ?t ?s in _] =>
          destruct (t s) as [? ?]
      end;
    cbn [fst]; apply join3_outcome.
Qed.

Lemma run_after_failed_fanout env u st page pr v s1 e s2 :
  acceptableUrl u ->
  primary env u st = (inr (page, pr, v), s1) ->
  promiseAll env u s1 = (inl e, s2) ->
  run env u st
  = (Throw (match fst (close env None s2) with inl ce => ce | inr _ => e end),
     snd (close env None s2)).
Proof.
  intros [Hne Hin] E1 E2. unfold run.
  destruct (primary_has_browser _ _ _ _ _ E1) as (b & ->).
  apply String.eqb_neq in Hne. rewrite Hne, Hin. cbn [negb].
  unfold tryCatch.
  assert (Eb : runBody env u st = (inl e, s2)).
  { unfold runBody, bind. now rewrite E1, E2. }
  rewrite Eb. unfold bind, throw.
  destruct (close env None s2) as [[ce | x] s3]; reflexivity.
Qed.

(** *** Calls that the claims single out *)

(** A detail-page task navigates its fresh page without a timeout option,
    whatever the engine answers. *)
Lemma detail_navigation_has_no_timeout env {A} (suffix extractor : string)
  (ans : nat -> string + A) u st p s1 :
  createPage env st = (inr p, s1) ->
  exists calls,
    issued s1
      (snd ((page <- createPage env ;;
             goto env page (u ++ suffix) "networkidle2" None ;;;
             data <- evaluate page extractor ans ;;
             closePage env page ;;;
             ret data) st))
      (Goto p (u ++ suffix) "networkidle2" None :: calls).
Proof.
  intros E. unfold bind. rewrite E. unfold goto, answered.
  destruct (goto_answer env (tick s1) (u ++ suffix)) as [msg | final].
  { exists []. reflexivity. }
  unfold evaluate, answered.
  destruct (ans (tick (emit _ s1))) as [msg | d].
  { exists [Evaluate p extractor]. unfold issued. cbn.
    now rewrite <- app_assoc. }
  unfold closePage.
  destruct (closePage_answer env _) as [msg|];
    exists [Evaluate p extractor; ClosePage p]; unfold issued; cbn;
    now rewrite <- !app_assoc.
Qed.

(** Once the browser has closed gracefully, [close] fulfils whatever the
    process-tree killer reports. *)
Lemma close_fulfils_whatever_kill_reports env st b pid :
  browser st = Some b -> process_pid b = Some pid -> pid <> 0%Z ->
  closeBrowser_answer env (tick st) = None ->
  fst (close env None st) = Ok tt
  /\ issued st (snd (close env None st)) [CloseBrowser; TreeKill pid "SIGKILL"].
Proof.
  intros Hb Hp Hz Hc. unfold close, closeGivenPage, closeStoredBrowser.
  rewrite Hb. unfold closeBrowser. rewrite Hc, Hp.
  apply Z.eqb_neq in Hz. rewrite Hz. unfold treeKill.
  match goal with
  | |- context [treeKill_answer env ?n] => destruct (treeKill_answer env n)
  end; split; try reflexivity; unfold issued; cbn;
    now rewrite <- app_assoc.
Qed.

(** A failure to close the page is what [close] rejects with, and the
    browser is still asked to shut down. *)
Lemma close_surfaces_page_failure env p st b msg :
  browser st = Some b -> closePage_answer env (tick st) = Some msg ->
  fst (close env (Some p) st) = Throw (Engine msg)
  /\ exists calls,
       issued st (snd (close env (Some p) st))
         (ClosePage p :: CloseBrowser :: calls).
Proof.
  intros Hb Hc. unfold close, closeGivenPage, closePage. rewrite Hc.
  cbv beta iota zeta delta [Throw].
  pose proof (closeStoredBrowser_cases env b (emit (ClosePage p) st) Hb) as H.
  destruct (closeStoredBrowser env (emit (ClosePage p) st))
    as [[early2 late] s2].
  destruct H as [(calls & Hi) _]. split; [reflexivity|].
  exists calls. unfold issued in *. cbn in *. rewrite Hi.
  now rewrite <- app_assoc.
Qed.

(** *** The states a page and the primary phase are returned in *)

(** The state [createPage] returns a page in. *)
Lemma createPage_returned env st p st' :
  createPage env st = (inr p, st') ->
  p = nextPage st
  /\ st' = emit (ConfigurePage p (userAgent (options st))
                   (sessionCookieValue (options st)))
             (openPage (emit NewPage st)).
Proof.
  intros H. unfold createPage in H.
  destruct (browser st) as [b|]; [|discriminate].
  unfold tryCatch, bind, newPage in H.
  destruct (newPage_answer env (tick st)) as [msg|].
  - cbv beta iota delta [Throw throw] in H.
    destruct (close env None (emit NewPage st)) as [[e | x] s];
      discriminate.
  - cbv beta iota delta [Ok] in H. unfold configurePage, succeeded in H.
    destruct (configure_answer env _) as [msg|].
    + cbv beta iota delta [Throw throw] in H.
      match type of H with
      | context [close env None ?s0] =>
          destruct (close env None s0) as [[e | x] s]
      end; discriminate.
    + cbv beta iota delta [Ok ret] in H. injection H as <- <-.
      split; reflexivity.
Qed.

Lemma primary_returned env u st p pr v s1 :
  primary env u st = (inr (p, pr, v), s1) ->
  p = nextPage st
  /\ pages s1 = p :: pages st
  /\ issued st s1
       [NewPage;
        ConfigurePage p (userAgent (options st))
          (sessionCookieValue (options st));
        Goto p u "domcontentloaded" (Some (timeout (options st)));
        AutoScroll p; Evaluate p "profile"; Evaluate p "volunteering"].
Proof.
  intros H. unfold primary, bind in H.
  destruct (createPage env st) as [[e | q] sa] eqn:Ea; [discriminate|].
  destruct (createPage_returned _ _ _ _ Ea) as [-> ->].
  unfold goto, answered in H.
  destruct (goto_answer env _ u) as [m | final]; [discriminate|].
  cbv beta iota delta [Ok] in H. unfold autoScroll, succeeded in H.
  destruct (autoScroll_answer env _) as [m|]; [discriminate|].
  cbv beta iota delta [Ok] in H.
  unfold getProfile, getVolunteering, evaluate, answered in H.
  destruct (profile_answer env _) as [m | pr']; [discriminate|].
  cbv beta iota delta [Ok] in H.
  destruct (volunteering_answer env _) as [m | v']; [discriminate|].
  cbv beta iota delta [Ok ret] in H.
  injection H as <- <- <- <-.
  split; [reflexivity|]. split; [reflexivity|].
  unfold issued. cbn. rewrite <- !app_assoc. reflexivity.
Qed.

(** *** The first call of a run *)

Lemma createPage_starts_with_newPage env b st :
  browser st = Some b ->
  exists calls, issued st (snd (createPage env st)) (NewPage :: calls).
Proof.
  intros Hb. unfold createPage. rewrite Hb.
  generalize (userAgent (options st)) (sessionCookieValue (options st)).
  intros ua c. unfold tryCatch.
  assert (Hk : forall p s1,
             exists c1,
               issued s1 (snd ((configurePage env p ua c ;;; ret p) s1)) c1).
  { intros p s1.
    destruct ((configurePage env p ua c ;;; ret p) s1) as [r s2] eqn:E.
    assert (S : stable s1 s2).
    { revert E. apply Stable_bind; [apply Stable_configurePage|].
      intros _. apply Stable_ret. }
    destruct (stable_calls _ _ S) as (c1 & I1 & _). now exists c1. }
  unfold bind at 1. unfold newPage.
  destruct (newPage_answer env (tick st)) as [m|].
  - cbv beta iota delta [Throw].
    destruct ((close env None ;;; throw (Engine m)) (emit NewPage st))
      as [r s] eqn:E.
    destruct (stable_calls _ _ (Stable_handler env (A := PageId) _ _ _ _ E))
      as (c1 & I1 & _).
    exists c1. cbn [snd]. unfold issued in *. rewrite I1. cbn.
    now rewrite <- app_assoc.
  - cbv beta iota delta [Ok].
    destruct (Hk (nextPage st) (openPage (emit NewPage st))) as (c1 & I1).
    destruct ((configurePage env (nextPage st) ua c ;;; ret (nextPage st))
                (openPage (emit NewPage st))) as [[e | p] s1] eqn:E1;
      cbn [snd] in I1.
    + destruct ((close env None ;;; throw e) s1) as [r s] eqn:E.
      destruct (stable_calls _ _ (Stable_handler env (A := PageId) _ _ _ _ E))
        as (c2 & I2 & _).
      exists (c1 ++ c2)%list. cbn [snd]. unfold issued in *.
      rewrite I2, I1. cbn. now rewrite <- !app_assoc.
    + exists c1. cbn [snd]. unfold issued in *. rewrite I1. cbn.
      now rewrite <- app_assoc.
Qed.

Lemma bind_starts {A B} (m : M A) (k : A -> M B) ev st :
  (exists c, issued st (snd (m st)) (ev :: c)) ->
  (forall a, Stable (k a)) ->
  exists c, issued st (snd (bind m k st)) (ev :: c).
Proof.
  intros (c & I) Hk. unfold bind.
  destruct (m st) as [[e | a] s1]; cbn [snd] in *; [now exists c|].
  destruct (k a s1) as [r s2] eqn:E.
  destruct (stable_calls _ _ (Hk a _ _ _ E)) as (c2 & I2 & _).
  exists (c ++ c2)%list. cbn [snd]. unfold issued in *.
  rewrite I2, I. cbn. now rewrite <- app_assoc.
Qed.

Lemma tryCatch_starts {A} (body : M A) (handler : thrown -> M A) ev st :
  (exists c, issued st (snd (body st)) (ev :: c)) ->
  (forall e, Stable (handler e)) ->
  exists c, issued st (snd (tryCatch body handler st)) (ev :: c).
Proof.
  intros (c & I) Hk. unfold tryCatch.
  destruct (body st) as [[e | a] s1]; cbn [snd] in *; [|now exists c].
  destruct (handler e s1) as [r s2] eqn:E.
  destruct (stable_calls _ _ (Hk e _ _ _ E)) as (c2 & I2 & _).
  exists (c ++ c2)%list. cbn [snd]. unfold issued in *.
  rewrite I2, I. cbn. now rewrite <- app_assoc.
Qed.

Lemma run_starts_with_newPage env b u st :
  browser st = Some b -> acceptableUrl u ->
  exists calls, issued st (snd (run env u st)) (NewPage :: calls).
Proof.
  intros Hb [Hne Hin]. unfold run. rewrite Hb.
  apply String.eqb_neq in Hne. rewrite Hne, Hin. cbn [negb].
  apply tryCatch_starts; [|intros e; apply Stable_handler].
  unfold runBody. apply bind_starts.
  - unfold primary. generalize (timeout (options st)). intros t.
    apply bind_starts; [now apply (createPage_starts_with_newPage env b)|].
    intros p.
    apply Stable_bind; [apply Stable_goto|]. intros _.
    apply Stable_bind; [apply Stable_autoScroll|]. intros _.
    apply Stable_bind; [apply Stable_evaluate|]. intros pr.
    apply Stable_bind; [apply Stable_evaluate|]. intros v.
    apply Stable_ret.
  - intros [[p pr] v].
    apply Stable_bind; [apply Stable_promiseAll|]. intros [[e d] s].
    apply Stable_bind; [apply Stable_dispose|]. intros _.
    apply Stable_ret.
Qed.

End SessionFacts.

(** ** Sessions: the specification's statements *)

Section SessionClaims.
Import Js Config Entities Engine Scraper SessionSpec SessionLogic.
Local Open Scope scraper_scope.

Lemma promiseAll_returned_calls env u s1 d s2 :
  promiseAll env u s1 = (inr d, s2) ->
  options s2 = options s1 /\ browser s2 = browser s1
  /\ connected s2 = connected s1
  /\ exists calls, issued s1 s2 calls
                   /\ existsb isShutdown calls = false
                   /\ existsb isLaunch calls = false.
Proof.
  intros E2.
  destruct (Quiet_promiseAll env u _ _ _ E2) as [Qc (c & Qi & Qs)].
  destruct (Stable_promiseAll env u _ _ _ E2) as [So Sb _ (c' & Si & Sl)].
  repeat split; try assumption.
  exists c. rewrite (issued_unique _ _ _ _ Si Qi) in Sl. auto.
Qed.


Lemma setup_after_failed_verification env st b e s1 :
  launch_answer env (tick st) = inr b ->
  checkIfLoggedIn env (ReuseSpec.afterLaunch b st) = (inl e, s1) ->
  setup env st
  = (Throw (match fst (close env None s1) with inl ce => ce | inr _ => e end),
     snd (close env None s1)).
Proof.
  intros Hl E1. unfold setup, tryCatch, bind, launch. rewrite Hl.
  cbv beta iota delta [Ok]. unfold ReuseSpec.afterLaunch in E1. rewrite E1.
  unfold throw. destruct (close env None s1) as [[ce | x] s2]; reflexivity.
Qed.


(** C1, as [run] handles the failure.  When the primary phase of a run has
    succeeded and at least one of
    the three detail-page tasks fails, [run] returns no aggregate: the
    fan-out fails with the failure of the first task to fail, the data of
    the other tasks is dropped, [close()] is called (the browser is asked
    to shut down, and is down whenever [close] fulfils), and the failure is
    thrown to the caller (the failure of [close] itself should that one be
    rejected).  Conversely an aggregate is only returned when no task
    failed. *)
Theorem run_is_all_or_nothing (env : Env) (u : string) (st : State) :
  (forall page pr v s1 e,
     acceptableUrl u ->
     primary env u st = (Ok (page, pr, v), s1) ->
     firstFailure (taskOutcomes env u s1) = Some e ->
     exists s2 rc s3,
       promiseAll env u s1 = (Throw e, s2)
       /\ close env None s2 = (rc, s3)
       /\ run env u st
          = (Throw (match rc with inl ce => ce | inr _ => e end), s3)
       /\ (exists calls, issued s2 s3 calls /\ In CloseBrowser calls)
       /\ (rc = Ok tt -> connected s3 = false))
  /\ (forall res st',
        run env u st = (Ok res, st') ->
        exists page s1,
          primary env u st = (Ok (page, profile res, volunteering res), s1)
          /\ firstFailure (taskOutcomes env u s1) = None).
Proof.
  split.
  - intros page pr v s1 e Hu E1 Hf.
    pose proof (promiseAll_outcome env u s1) as Ho. rewrite Hf in Ho.
    destruct (promiseAll env u s1) as [[e' | d] s2] eqn:E2;
      cbn in Ho; [|discriminate].
    injection Ho as ->.
    pose proof (run_after_failed_fanout _ _ _ _ _ _ _ _ _ Hu E1 E2) as Hr.
    destruct (primary_has_browser _ _ _ _ _ E1) as (b & Hb).
    assert (Hb2 : browser s2 = Some b).
    { rewrite (stable_browser _ _ (Stable_promiseAll env u _ _ _ E2)).
      rewrite (stable_browser _ _ (Stable_primary env u _ _ _ E1)).
      exact Hb. }
    destruct (close env None s2) as [rc s3] eqn:Ec. cbn [fst snd] in Hr.
    exists s2, rc, s3. repeat split; try assumption.
    + eapply close_attempts_shutdown; eassumption.
    + intros ->. eapply close_fulfilled_disconnects; eassumption.
  - intros res st' H.
    destruct (run_returned _ _ _ _ _ H)
      as (page & pr & v & s1 & e & d & s & s2 & x & E1 & E2 & E3 & ->).
    exists page, s1. split; [exact E1|].
    rewrite <- promiseAll_outcome, E2. reflexivity.
Qed.

(** C8, as the guards of [run] decide.  When no browser handle is stored
    (setup never called, or the launch itself failed), or the URL is empty,
    or it does not contain "linkedin.com/", [run] throws a validation error
    and leaves the session as it was: no page is created, no navigation
    issued. *)
Theorem run_validates_before_any_call (env : Env) (u : string) (st : State) :
  browser st = None \/ u = "" \/ includes u "linkedin.com/" = false ->
  exists msg,
    run env u st = (Throw (JsError msg), st)
    /\ In msg [msgNoBrowser; msgNoUrl; msgNotLinkedIn].
Proof.
  intros H. unfold run.
  destruct (browser st) as [b|].
  - destruct (u =? "") eqn:Eu.
    + exists msgNoUrl. split; [reflexivity | cbn; tauto].
    + destruct (includes u "linkedin.com/") eqn:Ei; cbn [negb].
      * destruct H as [H | [H | H]]; [discriminate | | discriminate].
        apply String.eqb_neq in Eu. contradiction.
      * exists msgNotLinkedIn. split; [reflexivity | cbn; tauto].
  - exists msgNoBrowser. split; [reflexivity | cbn; tauto].
Qed.

Lemma run_validates_before_any_call_witness :
  exists msg,
    run Examples.cooperative "https://example.org/in/jane"
      (Examples.afterSetup Examples.cooperative
         (Examples.withKeepAlive true 5000))
    = (Throw (JsError msg),
       Examples.afterSetup Examples.cooperative
         (Examples.withKeepAlive true 5000))
    /\ In msg [msgNoBrowser; msgNoUrl; msgNotLinkedIn].
Proof.
  apply (run_validates_before_any_call Examples.cooperative
           "https://example.org/in/jane"
           (Examples.afterSetup Examples.cooperative
              (Examples.withKeepAlive true 5000))).
  right; right. reflexivity.
Defined.

(** C8 as stated fails: after a [setup] that failed at the login check the
    handle still stores its browser, and [run] goes on to ask the engine
    for a page; it fails with the engine's error, not a validation error. *)
Lemma run_after_failed_setup_reaches_engine :
  exists e st r st' calls,
    setup Examples.expired (fresh (Examples.withKeepAlive false 5000))
    = (Throw e, st)
    /\ run Examples.expired Examples.exampleUrl st = (r, st')
    /\ r = Throw (Engine "Target closed.")
    /\ (forall msg, r <> Throw (JsError msg))
    /\ issued st st' (NewPage :: calls).
Proof.
  do 5 eexists. split; [vm_compute; reflexivity|].
  split; [vm_compute; reflexivity|].
  split; [reflexivity|]. split; [discriminate|].
  vm_compute. reflexivity.
Qed.

(** C3, evaluated.  With a configured timeout of 5000 ms the login check
    and the primary navigation carry it; the three detail-page navigations
    are issued without any timeout option, so the engine's own default
    applies to them. *)
Theorem detail_navigations_carry_no_timeout :
  let st := Examples.afterSetup Examples.cooperative
              (Examples.withKeepAlive true 5000) in
  filter isGoto (trace st)
  = [Goto 0 loginUrl "domcontentloaded" (Some (VNum (Finite 5000)))]
  /\ filter isGoto
       (callsAfter (tick st)
          (snd (run Examples.cooperative Examples.exampleUrl st)))
     = [Goto 1 Examples.exampleUrl "domcontentloaded"
          (Some (VNum (Finite 5000)));
        Goto 2 (Examples.exampleUrl ++ "/details/education") "networkidle2" None;
        Goto 3 (Examples.exampleUrl ++ "/details/skills") "networkidle2" None;
        Goto 4 (Examples.exampleUrl ++ "/details/experience") "networkidle2"
          None].
Proof. split; vm_compute; reflexivity. Qed.

(** C6, evaluated.  The browser closes gracefully, the process tree is
    killed with SIGKILL, the killer reports a failure, and [close] fulfils
    all the same: the failure never reaches the caller. *)
Theorem close_swallows_kill_failure :
  let st := Examples.afterSetup Examples.killFails
              (Examples.withKeepAlive false 5000) in
  treeKill_answer Examples.killFails (S (tick st)) = Some "ESRCH"
  /\ fst (close Examples.killFails None st) = Ok tt
  /\ callsAfter (tick st) (snd (close Examples.killFails None st))
     = [CloseBrowser; TreeKill 4242 "SIGKILL"].
Proof. repeat split; vm_compute; reflexivity. Qed.

Lemma cooperative_is_Cooperative : Cooperative Examples.cooperative.
Proof.
  constructor; intros; cbn; try reflexivity; eauto.
  unfold Examples.loggedIn. eauto.
Qed.

Lemma exampleUrl_acceptable : acceptableUrl Examples.exampleUrl.
Proof. split; [discriminate | reflexivity]. Qed.



(** C1 as stated fails when [browser.close()] is rejected: the education
    task times out, the [catch] of [run] calls [close()], and what reaches
    the caller is the rejection of [close()], not the task's error; the
    browser is still up and pages are still open. *)
Lemma close_rejection_masks_task_failure :
  exists page pr v s1 e r st',
    primary StuckExamples.slowEducationWontClose Examples.exampleUrl
      (Examples.afterSetup Examples.cooperative
         (Examples.withKeepAlive true 5000))
    = (Ok (page, pr, v), s1)
    /\ firstFailure
         (taskOutcomes StuckExamples.slowEducationWontClose
            Examples.exampleUrl s1)
       = Some e
    /\ run StuckExamples.slowEducationWontClose Examples.exampleUrl
         (Examples.afterSetup Examples.cooperative
            (Examples.withKeepAlive true 5000))
       = (Throw r, st')
    /\ e = Engine "Navigation timeout of 30000 ms exceeded"
    /\ r = Engine "Protocol error (Browser.close)"
    /\ connected st' = true
    /\ In page (pages st').
Proof.
  do 7 eexists. split; [vm_compute; reflexivity|].
  split; [vm_compute; reflexivity|].
  split; [vm_compute; reflexivity|].
  split; [reflexivity|]. split; [reflexivity|]. split; [reflexivity|].
  cbn. tauto.
Qed.

Lemma run_is_all_or_nothing_witness :
  let st := Examples.afterSetup Examples.slowEducation
              (Examples.withKeepAlive true 5000) in
  let s1 := snd (primary Examples.slowEducation Examples.exampleUrl st) in
  exists s2 rc s3,
    promiseAll Examples.slowEducation Examples.exampleUrl s1
    = (Throw (Engine "Navigation timeout of 30000 ms exceeded"), s2)
    /\ close Examples.slowEducation None s2 = (rc, s3)
    /\ run Examples.slowEducation Examples.exampleUrl st
       = (Throw (match rc with
                 | inl ce => ce
                 | inr _ => Engine "Navigation timeout of 30000 ms exceeded"
                 end), s3)
    /\ (exists calls, issued s2 s3 calls /\ In CloseBrowser calls)
    /\ (rc = Ok tt -> connected s3 = false).
Proof.
  cbv zeta.
  apply (proj1 (run_is_all_or_nothing Examples.slowEducation
                  Examples.exampleUrl
                  (Examples.afterSetup Examples.slowEducation
                     (Examples.withKeepAlive true 5000)))
           1 Examples.someProfile []).
  - exact exampleUrl_acceptable.
  - vm_compute. reflexivity.
  - vm_compute. reflexivity.
Defined.



End SessionClaims.

(** ** Sessions: further properties of the life cycle *)

Section SessionExtras.
Import Js Config Entities Engine Scraper SessionSpec SessionLogic.
Local Open Scope scraper_scope.



(** X2.  When the launch itself fails on an object that stores no browser,
    [setup] throws the engine's error after the single launch call, stores
    nothing, and every later [run] stops at its first guard with the
    "Browser is not set" error, without any call to the engine. *)
Theorem launch_failure_leaves_no_browser (env : Env) (st : State)
  (msg : string) :
  browser st = None ->
  launch_answer env (tick st) = inl msg ->
  exists st',
    setup env st = (Throw (Engine msg), st')
    /\ browser st' = None
    /\ issued st st'
         [Launch (headless (options st))
            (if truthy (headless (options st))
             then ["--headless"; "--single-process"]
             else ["--start-maximized"])
            (timeout (options st))]
    /\ forall env2 u,
         run env2 u st' = (Throw (JsError msgNoBrowser), st').
Proof.
  intros Hb Hl. eexists. split; [|split; [|split]].
  - unfold setup, tryCatch, bind, launch. rewrite Hl.
    cbv beta iota delta [Throw throw].
    unfold close, closeGivenPage, closeStoredBrowser. cbn [browser emit].
    rewrite Hb. reflexivity.
  - cbn. exact Hb.
  - reflexivity.
  - intros env2 u. unfold run. cbn [browser emit]. rewrite Hb. reflexivity.
Qed.

Lemma launch_failure_leaves_no_browser_witness :
  exists st',
    setup MoreExamples.launchFails
      (fresh defaultOptions)
    = (Throw (Engine "Failed to launch the browser process!"), st')
    /\ run Examples.cooperative Examples.exampleUrl st'
       = (Throw (JsError msgNoBrowser), st').
Proof.
  destruct (launch_failure_leaves_no_browser
              MoreExamples.launchFails
              (fresh defaultOptions)
              "Failed to launch the browser process!" eq_refl eq_refl)
    as (st' & Hs & _ & _ & Hr).
  exists st'. split; [exact Hs | apply Hr].
Defined.

(** X3.  When the browser was launched and [setup] fails afterwards, for
    whatever reason, the browser has been asked to shut down, yet its
    handle stays stored in the object. *)
Theorem setup_failure_shuts_down (env : Env) (st st' : State) (b : Browser)
  (e : thrown) :
  launch_answer env (tick st) = inr b ->
  setup env st = (Throw e, st') ->
  browser st' = Some b
  /\ exists calls, issued st st' calls /\ In CloseBrowser calls.
Proof.
  intros Hl H. unfold setup, tryCatch, bind, launch in H. rewrite Hl in H.
  cbv beta iota delta [Ok] in H.
  set (s0 := setBrowser b _) in H.
  destruct (checkIfLoggedIn env s0) as [[err | x] s1] eqn:E1; [|discriminate].
  pose proof (Stable_checkIfLoggedIn env _ _ _ E1) as S1.
  assert (Hb1 : browser s1 = Some b).
  { rewrite (stable_browser _ _ S1). reflexivity. }
  assert (exists rc, close env None s1 = (rc, st')) as (rc & Ec).
  { unfold throw in H.
    destruct (close env None s1) as [[ce | y] s2]; injection H as _ <-; eauto. }
  pose proof (Stable_close env None _ _ _ Ec) as S2.
  split; [now rewrite (stable_browser _ _ S2)|].
  destruct (close_attempts_shutdown _ _ _ _ _ _ Hb1 Ec) as (c2 & Hi2 & Hin).
  destruct (stable_calls _ _ S1) as (c1 & Hi1 & _).
  eexists (_ :: c1 ++ c2)%list. split.
  - unfold issued in *. rewrite Hi2, Hi1. subst s0. cbn.
    rewrite <- !app_assoc. reflexivity.
  - right. apply in_or_app. now right.
Qed.

Lemma setup_failure_shuts_down_witness :
  browser (Examples.afterSetup Examples.expired
             (Examples.withKeepAlive false 5000))
  = Some (mkBrowser (Some 4242%Z)).
Proof.
  assert (H : setup Examples.expired (fresh (Examples.withKeepAlive false 5000))
              = (Throw (SessionExpired expiredMessage),
                 Examples.afterSetup Examples.expired
                   (Examples.withKeepAlive false 5000)))
    by (vm_compute; reflexivity).
  exact (proj1 (setup_failure_shuts_down Examples.expired _ _
                  (mkBrowser (Some 4242%Z)) _ eq_refl H)).
Defined.

(** *** Errors *)

Import ErrorLogic.

Lemma Raises_weaken (P Q : thrown -> Prop) {A} (m : M A) :
  (forall e, P e -> Q e) -> Raises P m -> Raises Q m.
Proof. intros HPQ Hm st e st' H. eapply HPQ, Hm; eassumption. Qed.

Lemma Raises_ret P {A} (a : A) : Raises P (ret a).
Proof. intros st e st' H. discriminate. Qed.

Lemma Raises_throw (P : thrown -> Prop) {A} e : P e -> Raises P (@throw A e).
Proof. intros He st e' st' H. injection H as <- _. exact He. Qed.

Lemma Raises_bind P {A B} (m : M A) (k : A -> M B) :
  Raises P m -> (forall a, Raises P (k a)) -> Raises P (bind m k).
Proof.
  intros Hm Hk st e st' H. unfold bind in H.
  destruct (m st) as [[e1 | a] s1] eqn:Em.
  - injection H as <- _. eapply Hm; eassumption.
  - eapply Hk; eassumption.
Qed.

Lemma Raises_tryCatch P Q {A} (body : M A) (handler : thrown -> M A) :
  Raises P body -> (forall e, P e -> Raises Q (handler e)) ->
  Raises Q (tryCatch body handler).
Proof.
  intros Hm Hk st e st' H. unfold tryCatch in H.
  destruct (body st) as [[e1 | a] s1] eqn:Em; [|discriminate].
  eapply Hk; [eapply Hm|]; eassumption.
Qed.

Lemma Raises_close env page : Raises fromEngine (close env page).
Proof. intros st e st' H. eapply close_throws_engine; eassumption. Qed.

(** The handler of every [catch] block: [close()], then rethrow. *)
Lemma Raises_handler (P : thrown -> Prop) env {A} e :
  (forall e', fromEngine e' -> P e') -> P e ->
  Raises P (close env None ;;; @throw A e).
Proof.
  intros HP He. apply Raises_bind.
  - eapply Raises_weaken; [exact HP | apply Raises_close].
  - intros _. now apply Raises_throw.
Qed.

Lemma Raises_newPage env : Raises fromEngine (newPage env).
Proof.
  intros st e st' H. unfold newPage in H.
  destruct (newPage_answer env (tick st)) as [msg|]; [|discriminate].
  injection H as <- _. now exists msg.
Qed.

Lemma Raises_configurePage env p ua c :
  Raises fromEngine (configurePage env p ua c).
Proof.
  intros st e st' H. unfold configurePage, succeeded in H.
  destruct (configure_answer env (tick st)) as [msg|]; [|discriminate].
  injection H as <- _. now exists msg.
Qed.

Lemma Raises_goto env p u w t : Raises fromEngine (goto env p u w t).
Proof. intros st e st' H. eapply goto_throws; eassumption. Qed.

Lemma Raises_autoScroll env p : Raises fromEngine (autoScroll env p).
Proof.
  intros st e st' H. unfold autoScroll, succeeded in H.
  destruct (autoScroll_answer env (tick st)) as [msg|]; [|discriminate].
  injection H as <- _. now exists msg.
Qed.

Lemma Raises_evaluate {A} p x (ans : nat -> string + A) :
  Raises fromEngine (evaluate p x ans).
Proof.
  intros st e st' H. unfold evaluate, answered in H.
  destruct (ans (tick st)) as [msg|]; [|discriminate].
  injection H as <- _. now exists msg.
Qed.

Lemma Raises_closePage env p : Raises fromEngine (closePage env p).
Proof. intros st e st' H. eapply closePage_throws; eassumption. Qed.

Lemma Raises_createPage env : Raises runError (createPage env).
Proof.
  intros st e st' H. destruct (createPage_throws _ _ _ _ H) as [-> | He].
  - right. now eexists.
  - now left.
Qed.

Lemma runError_of_engine e : fromEngine e -> runError e.
Proof. now left. Qed.

Lemma Raises_detail env {A} (suffix extractor : string)
  (ans : nat -> string + A) profileUrl :
  Raises runError
    (page <- createPage env ;;
     goto env page (profileUrl ++ suffix) "networkidle2" None ;;;
     data <- evaluate page extractor ans ;;
     closePage env page ;;;
     ret data).
Proof.
  apply Raises_bind; [apply Raises_createPage|]. intros p.
  apply Raises_bind;
    [eapply Raises_weaken; [apply runError_of_engine | apply Raises_goto]|].
  intros _.
  apply Raises_bind;
    [eapply Raises_weaken; [apply runError_of_engine | apply Raises_evaluate]|].
  intros d.
  apply Raises_bind;
    [eapply Raises_weaken; [apply runError_of_engine | apply Raises_closePage]|].
  intros _. apply Raises_ret.
Qed.

Lemma join3_inl {A B C D} (ra : result A) (rb : result B) (rc : result C)
  (k : A -> B -> C -> D) e :
  join3 ra rb rc k = inl e -> ra = inl e \/ rb = inl e \/ rc = inl e.
Proof.
  destruct ra as [|a], rb as [|b], rc as [|c]; cbn; intros H;
    try discriminate; injection H as ->; auto.
Qed.

Lemma Raises_promiseAll env u : Raises runError (promiseAll env u).
Proof.
  intros st e st' H. unfold promiseAll in H.
  pose proof (Raises_detail env "/details/experience" "experience"
                (experiences_answer env) u) as HE.
  pose proof (Raises_detail env "/details/education" "education"
                (education_answer env) u) as HD.
  pose proof (Raises_detail env "/details/skills" "skills"
                (skills_answer env) u) as HS.
  fold (getExperiences env u) in HE. fold (getEducation env u) in HD.
  fold (getSkills env u) in HS.
  destruct (schedule env (tick st));
    repeat match type of H with
      | context [let '(_, _) := ?t ?s in _] =>
          let E := fresh "E" in
          destruct (t s) as [? ?] eqn:E
      end;
    injection H as H _; apply join3_inl in H;
    destruct H as [-> | [-> | ->]];
    match goal with
    | E : getExperiences _ _ _ = (inl e, _) |- _ => exact (HE _ _ _ E)
    | E : getEducation _ _ _ = (inl e, _) |- _ => exact (HD _ _ _ E)
    | E : getSkills _ _ _ = (inl e, _) |- _ => exact (HS _ _ _ E)
    end.
Qed.

Lemma Raises_primary env u : Raises runError (primary env u).
Proof.
  intros st e st' H. unfold primary in H. revert H.
  generalize (timeout (options st)). intros t.
  apply Raises_bind; [apply Raises_createPage|]. intros p.
  apply Raises_bind;
    [eapply Raises_weaken; [apply runError_of_engine | apply Raises_goto]|].
  intros _.
  apply Raises_bind;
    [eapply Raises_weaken; [apply runError_of_engine | apply Raises_autoScroll]|].
  intros _.
  apply Raises_bind;
    [eapply Raises_weaken; [apply runError_of_engine | apply Raises_evaluate]|].
  intros pr.
  apply Raises_bind;
    [eapply Raises_weaken; [apply runError_of_engine | apply Raises_evaluate]|].
  intros v. apply Raises_ret.
Qed.

Lemma Raises_dispose env p : Raises runError (dispose env p).
Proof.
  intros st e st' H. unfold dispose in H. left.
  destruct (negb (truthy (keepAlive (options st)))).
  - eapply Raises_close; eassumption.
  - eapply Raises_closePage; eassumption.
Qed.

Lemma Raises_runBody env u : Raises runError (runBody env u).
Proof.
  apply Raises_bind; [apply Raises_primary|]. intros [[p pr] v].
  apply Raises_bind; [apply Raises_promiseAll|]. intros [[e d] s].
  apply Raises_bind; [apply Raises_dispose|]. intros _.
  apply Raises_ret.
Qed.

Lemma Raises_run env u : Raises runError (run env u).
Proof.
  intros st e st' H. unfold run in H.
  destruct (browser st); [|injection H as <- _; right; now eexists].
  destruct (u =? ""); [injection H as <- _; right; now eexists|].
  destruct (negb (includes u "linkedin.com/"));
    [injection H as <- _; right; now eexists|].
  revert H. apply (Raises_tryCatch runError); [apply Raises_runBody|].
  intros e0 He0. apply Raises_handler; [apply runError_of_engine | exact He0].
Qed.

Lemma Raises_checkIfLoggedIn env : Raises setupError (checkIfLoggedIn env).
Proof.
  intros st e st' H. unfold checkIfLoggedIn in H. revert H.
  generalize (timeout (options st)). intros t.
  apply Raises_bind;
    [eapply Raises_weaken; [|apply Raises_createPage]; now left|].
  intros p.
  apply Raises_bind;
    [eapply Raises_weaken; [|apply Raises_goto]; intros; left; now left|].
  intros final.
  apply Raises_bind;
    [eapply Raises_weaken; [|apply Raises_closePage]; intros; left; now left|].
  intros _.
  destruct (negb (endsWith final "/login"));
    [apply Raises_ret | apply Raises_throw; now right].
Qed.

Lemma Raises_setup env : Raises setupError (setup env).
Proof.
  intros st e st' H. unfold setup in H. revert H.
  apply (Raises_tryCatch setupError).
  - apply Raises_bind; [|intros _; apply Raises_checkIfLoggedIn].
    intros s e0 s' H0. unfold launch in H0.
    destruct (launch_answer env (tick s)) as [msg|]; [|discriminate].
    injection H0 as <- _. left; left. now exists msg.
  - intros e0 He0. apply Raises_handler; [|exact He0].
    intros; left; now left.
Qed.

(** X4.  [run] throws only [Error] objects of the scraper itself or errors
    of the engine: it never reports [SessionExpired], whatever the engine
    answers. *)
Theorem run_never_reports_expiry (env : Env) (u : string) (st st' : State)
  (e : thrown) :
  run env u st = (Throw e, st') ->
  (exists msg, e = Engine msg) \/ (exists msg, e = JsError msg).
Proof. intros H. exact (Raises_run env u _ _ _ H). Qed.

Lemma run_never_reports_expiry_witness :
  (exists msg,
     fst (run Examples.expired Examples.exampleUrl
            (Examples.afterSetup Examples.expired
               (Examples.withKeepAlive false 5000)))
     = Throw (Engine msg))
  \/ (exists msg,
        fst (run Examples.expired Examples.exampleUrl
               (Examples.afterSetup Examples.expired
                  (Examples.withKeepAlive false 5000)))
        = Throw (JsError msg)).
Proof.
  assert (H : run Examples.expired Examples.exampleUrl
                (Examples.afterSetup Examples.expired
                   (Examples.withKeepAlive false 5000))
              = (Throw (Engine "Target closed."),
                 snd (run Examples.expired Examples.exampleUrl
                        (Examples.afterSetup Examples.expired
                           (Examples.withKeepAlive false 5000)))))
    by (vm_compute; reflexivity).
  destruct (run_never_reports_expiry _ _ _ _ _ H) as [(msg & E) | (msg & E)].
  - left. exists msg. rewrite H. cbn. now f_equal.
  - right. exists msg. rewrite H. cbn. now f_equal.
Defined.

(** X5.  The string rejection that the tree-kill callback issues never
    reaches a caller: neither [close] nor [setup] nor [run] ever fails with
    it. *)
Theorem kill_rejection_never_surfaces (env : Env) (st : State) :
  (forall page msg, fst (close env page st) <> Throw (Rejection msg))
  /\ (forall msg, fst (setup env st) <> Throw (Rejection msg))
  /\ (forall u msg, fst (run env u st) <> Throw (Rejection msg)).
Proof.
  split; [|split].
  - intros page msg H.
    destruct (close env page st) as [r s] eqn:E. cbn in H. subst r.
    destruct (Raises_close env page _ _ _ E) as (m & Hm). discriminate.
  - intros msg H.
    destruct (setup env st) as [r s] eqn:E. cbn in H. subst r.
    destruct (Raises_setup env _ _ _ E)
      as [[(m & Hm) | (m & Hm)] | Hm]; discriminate.
  - intros u msg H.
    destruct (run env u st) as [r s] eqn:E. cbn in H. subst r.
    destruct (Raises_run env u _ _ _ E) as [(m & Hm) | (m & Hm)];
      discriminate.
Qed.

(** X6.  When a browser handle is stored and [createPage] fails, the error
    comes from the engine and [close()] has been called: the browser was
    asked to shut down before the error is thrown on. *)
Theorem provisioning_failure_shuts_down (env : Env) (st st' : State)
  (b : Browser) (e : thrown) :
  browser st = Some b ->
  createPage env st = (Throw e, st') ->
  (exists msg, e = Engine msg)
  /\ browser st' = Some b
  /\ exists calls, issued st st' calls /\ In CloseBrowser calls.
Proof.
  intros Hb H. split.
  { destruct (createPage_throws _ _ _ _ H) as [-> | He]; [|exact He].
    unfold createPage in H. rewrite Hb in H.
    revert H. generalize (userAgent (options st))
                (sessionCookieValue (options st)). intros ua c H.
    exfalso.
    assert (R : Raises fromEngine
                  (tryCatch
                     (page <- newPage env ;;
                      configurePage env page ua c ;;; ret page)
                     (fun err => close env None ;;; throw err))).
    { apply (Raises_tryCatch fromEngine).
      - apply Raises_bind; [apply Raises_newPage|]. intros p.
        apply Raises_bind; [apply Raises_configurePage|]. intros _.
        apply Raises_ret.
      - intros e0 He0. apply Raises_handler; auto. }
    destruct (R _ _ _ H) as (m & Hm). discriminate. }
  pose proof (Stable_createPage env _ _ _ H) as S.
  split; [now rewrite (stable_browser _ _ S)|].
  unfold createPage in H. rewrite Hb in H. unfold tryCatch in H.
  match type of H with
  | context [match ?body st with _ => _ end] =>
      destruct (body st) as [[err | p] s1] eqn:Eb
  end; [|discriminate].
  assert (S1 : stable st s1).
  { revert Eb. generalize (userAgent (options st))
                 (sessionCookieValue (options st)). intros ua c.
    apply Stable_bind; [apply Stable_newPage|]. intros p.
    apply Stable_bind; [apply Stable_configurePage|]. intros _.
    apply Stable_ret. }
  assert (exists rc, close env None s1 = (rc, st')) as (rc & Ec).
  { unfold bind, throw in H.
    destruct (close env None s1) as [[ce | y] s2]; injection H as _ <-; eauto. }
  assert (Hb1 : browser s1 = Some b).
  { now rewrite (stable_browser _ _ S1). }
  destruct (close_attempts_shutdown _ _ _ _ _ _ Hb1 Ec) as (c2 & Hi2 & Hin).
  destruct (stable_calls _ _ S1) as (c1 & Hi1 & _).
  exists (c1 ++ c2)%list. split; [eapply issued_trans; eassumption|].
  apply in_or_app. now right.
Qed.

Lemma provisioning_failure_shuts_down_witness :
  exists msg calls,
    fst (createPage MoreExamples.configureFails
           (Examples.afterSetup Examples.cooperative
              (Examples.withKeepAlive true 5000)))
    = Throw (Engine msg)
    /\ issued (Examples.afterSetup Examples.cooperative
                 (Examples.withKeepAlive true 5000))
         (snd (createPage MoreExamples.configureFails
                 (Examples.afterSetup Examples.cooperative
                    (Examples.withKeepAlive true 5000))))
         calls
    /\ In CloseBrowser calls.
Proof.
  assert (H : createPage MoreExamples.configureFails
                (Examples.afterSetup Examples.cooperative
                   (Examples.withKeepAlive true 5000))
              = (Throw (Engine "Protocol error (Page.enable)"),
                 snd (createPage MoreExamples.configureFails
                        (Examples.afterSetup Examples.cooperative
                           (Examples.withKeepAlive true 5000)))))
    by (vm_compute; reflexivity).
  destruct (provisioning_failure_shuts_down MoreExamples.configureFails
              (Examples.afterSetup Examples.cooperative
                 (Examples.withKeepAlive true 5000))
              _ (mkBrowser (Some 4242%Z)) _ eq_refl H)
    as ((msg & Hm) & _ & calls & Hi & Hin).
  exists msg, calls. rewrite H. cbn [fst]. repeat split; try assumption.
  now f_equal.
Defined.

(** X7.  Whenever [run] has passed its guards and then fails, [close()] has
    been called before the error reaches the caller: the browser was asked
    to shut down, also when [keepAlive] is set; the handle stays stored. *)
Theorem run_failure_shuts_down (env : Env) (u : string) (st st' : State)
  (b : Browser) (e : thrown) :
  browser st = Some b -> acceptableUrl u ->
  run env u st = (Throw e, st') ->
  browser st' = Some b
  /\ exists calls, issued st st' calls /\ In CloseBrowser calls.
Proof.
  intros Hb [Hne Hin] H.
  pose proof (Stable_run env u _ _ _ H) as S.
  split; [now rewrite (stable_browser _ _ S)|].
  unfold run in H. rewrite Hb in H.
  apply String.eqb_neq in Hne. rewrite Hne, Hin in H. cbn [negb] in H.
  unfold tryCatch in H.
  destruct (runBody env u st) as [[err | r] s1] eqn:Eb; [|discriminate].
  pose proof (Stable_runBody env u _ _ _ Eb) as S1.
  assert (exists rc, close env None s1 = (rc, st')) as (rc & Ec).
  { unfold bind, throw in H.
    destruct (close env None s1) as [[ce | y] s2]; injection H as _ <-; eauto. }
  assert (Hb1 : browser s1 = Some b).
  { now rewrite (stable_browser _ _ S1). }
  destruct (close_attempts_shutdown _ _ _ _ _ _ Hb1 Ec) as (c2 & Hi2 & Hin2).
  destruct (stable_calls _ _ S1) as (c1 & Hi1 & _).
  exists (c1 ++ c2)%list. split; [eapply issued_trans; eassumption|].
  apply in_or_app. now right.
Qed.

Lemma run_failure_shuts_down_witness :
  exists calls,
    issued (Examples.afterSetup Examples.slowEducation
              (Examples.withKeepAlive true 5000))
      (snd (run Examples.slowEducation Examples.exampleUrl
              (Examples.afterSetup Examples.slowEducation
                 (Examples.withKeepAlive true 5000))))
      calls
    /\ In CloseBrowser calls.
Proof.
  assert (H : run Examples.slowEducation Examples.exampleUrl
                (Examples.afterSetup Examples.slowEducation
                   (Examples.withKeepAlive true 5000))
              = (Throw (Engine "Navigation timeout of 30000 ms exceeded"),
                 snd (run Examples.slowEducation Examples.exampleUrl
                        (Examples.afterSetup Examples.slowEducation
                           (Examples.withKeepAlive true 5000)))))
    by (vm_compute; reflexivity).
  exact (proj2 (run_failure_shuts_down Examples.slowEducation
                  Examples.exampleUrl
                  (Examples.afterSetup Examples.slowEducation
                     (Examples.withKeepAlive true 5000))
                  _ (mkBrowser (Some 4242%Z)) _
                  eq_refl exampleUrl_acceptable H)).
Defined.

(** *** The shutdown protocol *)

Import CloseSpec.

Lemma tick_emit ev st : tick (emit ev st) = S (tick st).
Proof. unfold tick. cbn. rewrite length_app. cbn. lia. Qed.

Lemma closeStoredBrowser_protocol env st :
  let '(early2, late, st2) := closeStoredBrowser env st in
  issued st st2
    match browser st with
    | None => []
    | Some b =>
        CloseBrowser ::
        match closeBrowser_answer env (tick st), process_pid b with
        | None, Some pid => if (pid =? 0)%Z then [] else [TreeKill pid "SIGKILL"]
        | _, _ => []
        end
    end
  /\ ((early2 = []
       /\ (browser st = None \/ closeBrowser_answer env (tick st) = None))
      \/ ((exists e, early2 = [Throw e])
          /\ browser st <> None /\ closeBrowser_answer env (tick st) <> None)).
Proof.
  unfold closeStoredBrowser, closeBrowser, treeKill, issued.
  destruct (browser st) as [b|].
  - destruct (closeBrowser_answer env (tick st)) as [m2|].
    + split; [reflexivity|]. right. split; [eauto|]. split; discriminate.
    + destruct (process_pid b) as [pid|].
      * destruct (pid =? 0)%Z.
        -- split; [reflexivity|]. left. auto.
        -- cbn. rewrite <- app_assoc. split; [reflexivity|]. left. auto.
      * split; [reflexivity|]. left. auto.
  - split; [now rewrite app_nil_r|]. left. auto.
Qed.

Lemma closeGivenPage_protocol env page st :
  let '(early1, st1) := closeGivenPage env page st in
  issued st st1 (match page with Some p => [ClosePage p] | None => [] end)
  /\ browser st1 = browser st
  /\ tick st1 = browserStepTick page st
  /\ ((early1 = [] /\ (page = None \/ closePage_answer env (tick st) = None))
      \/ ((exists e, early1 = [Throw e])
          /\ page <> None /\ closePage_answer env (tick st) <> None)).
Proof.
  unfold closeGivenPage, closePage, browserStepTick, issued.
  destruct page as [p|].
  - destruct (closePage_answer env (tick st)) as [m1|].
    + split; [reflexivity|]. split; [reflexivity|].
      split; [apply tick_emit|]. right. split; [eauto|]. split; discriminate.
    + split; [reflexivity|]. split; [reflexivity|].
      split; [apply (tick_emit (ClosePage p) st)|]. left. auto.
  - split; [now rewrite app_nil_r|]. split; [reflexivity|].
    split; [reflexivity|]. left. auto.
Qed.

(** X8.  [close(page?)] issues exactly these calls, in this order: the
    closing of the page if one is given; the graceful closing of the stored
    browser if there is one, also after the page refused to close; the
    SIGKILL of the process tree only if the browser closed gracefully and
    its process has a pid.  It fulfils exactly when neither the page nor
    the browser refused to close. *)
Theorem close_protocol (env : Env) (page : option PageId) (st : State) :
  issued st (snd (close env page st)) (closeCalls env page st)
  /\ (fst (close env page st) = Ok tt <-> closesCleanly env page st).
Proof.
  unfold close, closeCalls, closesCleanly.
  pose proof (closeGivenPage_protocol env page st) as H1.
  destruct (closeGivenPage env page st) as [early1 st1].
  destruct H1 as (I1 & Hb & Ht & C1).
  pose proof (closeStoredBrowser_protocol env st1) as H2.
  destruct (closeStoredBrowser env st1) as [[early2 late] st2].
  rewrite Hb, Ht in H2. destruct H2 as (I2 & C2).
  cbn [fst snd]. split; [eapply issued_trans; eassumption|].
  destruct C1 as [(-> & P1) | ((e1 & ->) & N1 & N1')];
    destruct C2 as [(-> & P2) | ((e2 & ->) & N2 & N2')]; cbn.
  - tauto.
  - split; [discriminate|]. intros [_ [H | H]]; contradiction.
  - split; [discriminate|]. intros [[H | H] _]; contradiction.
  - split; [discriminate|]. intros [[H | H] _]; contradiction.
Qed.

(** *** The primary phase and the pages of a run *)

(** X9.  The primary phase of [run] issues exactly six calls on a page of
    its own: new page, configuration, navigation to the profile URL with
    the configured timeout, scroll, profile extraction, volunteering
    extraction; every call [run] makes on a detail page comes after
    them. *)
Theorem primary_phase_comes_first (env : Env) (u : string) (st s1 : State)
  (p : PageId) (pr : Profile) (v : list Volunteering) :
  acceptableUrl u ->
  primary env u st = (Ok (p, pr, v), s1) ->
  p = nextPage st
  /\ exists rest,
       issued st (snd (run env u st))
         ([NewPage;
           ConfigurePage p (userAgent (options st))
             (sessionCookieValue (options st));
           Goto p u "domcontentloaded" (Some (timeout (options st)));
           AutoScroll p; Evaluate p "profile"; Evaluate p "volunteering"]
          ++ rest).
Proof.
  intros [Hne Hin] E1.
  destruct (primary_returned _ _ _ _ _ _ _ E1) as (Hp & _ & I1).
  split; [exact Hp|].
  destruct (primary_has_browser _ _ _ _ _ E1) as (b & Hb).
  unfold run. rewrite Hb.
  apply String.eqb_neq in Hne. rewrite Hne, Hin. cbn [negb].
  unfold tryCatch, runBody.
  unfold bind at 1. rewrite E1. cbv beta iota delta [Ok].
  match goal with
  | |- context [snd (let (_, _) := ?t in _)] =>
      destruct t as [[err | r] s2] eqn:Ek
  end;
    (assert (S2 : stable s1 s2);
     [ revert Ek; apply Stable_bind; [apply Stable_promiseAll|];
       intros [[e d] s]; apply Stable_bind; [apply Stable_dispose|];
       intros _; apply Stable_ret
     | destruct (stable_calls _ _ S2) as (c2 & I2 & _) ]).
  - destruct ((close env None ;;; throw err) s2) as [r3 s3] eqn:E3.
    pose proof (Stable_handler env (A := Result) err _ _ _ E3) as S3.
    destruct (stable_calls _ _ S3) as (c3 & I3 & _).
    exists (c2 ++ c3)%list. cbn [snd].
    eapply issued_trans; [exact I1|]. eapply issued_trans; eassumption.
  - exists c2. cbn [snd]. eapply issued_trans; eassumption.
Qed.

Lemma primary_phase_comes_first_witness :
  exists rest,
    issued (Examples.afterSetup Examples.cooperative
              (Examples.withKeepAlive true 5000))
      (snd (run Examples.cooperative Examples.exampleUrl
              (Examples.afterSetup Examples.cooperative
                 (Examples.withKeepAlive true 5000))))
      ([NewPage;
        ConfigurePage 1 (VStr defaultUserAgent) (VStr "AQEDAT");
        Goto 1 Examples.exampleUrl "domcontentloaded"
          (Some (VNum (Finite 5000)));
        AutoScroll 1; Evaluate 1 "profile"; Evaluate 1 "volunteering"]
       ++ rest).
Proof.
  assert (H : primary Examples.cooperative Examples.exampleUrl
                (Examples.afterSetup Examples.cooperative
                   (Examples.withKeepAlive true 5000))
              = (Ok (1, Examples.someProfile, []),
                 snd (primary Examples.cooperative Examples.exampleUrl
                        (Examples.afterSetup Examples.cooperative
                           (Examples.withKeepAlive true 5000)))))
    by (vm_compute; reflexivity).
  exact (proj2 (primary_phase_comes_first Examples.cooperative
                  Examples.exampleUrl _ _ 1 Examples.someProfile []
                  exampleUrl_acceptable H)).
Defined.

Lemma detail_returned_pages env {A} (suffix extractor : string)
  (ans : nat -> string + A) u st d st' :
  (page <- createPage env ;;
   goto env page (u ++ suffix) "networkidle2" None ;;;
   data <- evaluate page extractor ans ;;
   closePage env page ;;;
   ret data) st = (inr d, st') ->
  incl (pages st') (pages st).
Proof.
  intros H. unfold bind in H.
  destruct (createPage env st) as [[e | p] sa] eqn:Ea; [discriminate|].
  destruct (createPage_returned _ _ _ _ Ea) as [-> ->].
  unfold goto, answered in H.
  destruct (goto_answer env _ _) as [m | final]; [discriminate|].
  cbv beta iota delta [Ok] in H. unfold evaluate, answered in H.
  destruct (ans _) as [m | d']; [discriminate|].
  cbv beta iota delta [Ok] in H. unfold closePage in H.
  destruct (closePage_answer env _) as [m|]; [discriminate|].
  cbv beta iota delta [Ok ret] in H. injection H as _ <-.
  cbn. rewrite Nat.eqb_refl. cbn.
  intros q Hq. apply filter_In in Hq. tauto.
Qed.

Lemma promiseAll_returned_pages env u st d st' :
  promiseAll env u st = (inr d, st') -> incl (pages st') (pages st).
Proof.
  intros H. unfold promiseAll in H.
  pose proof (detail_returned_pages env "/details/experience" "experience"
                (experiences_answer env) u) as HE.
  pose proof (detail_returned_pages env "/details/education" "education"
                (education_answer env) u) as HD.
  pose proof (detail_returned_pages env "/details/skills" "skills"
                (skills_answer env) u) as HS.
  fold (getExperiences env u) in HE. fold (getEducation env u) in HD.
  fold (getSkills env u) in HS.
  destruct (schedule env (tick st));
    repeat match type of H with
      | context [let '(_, _) := ?t ?s in _] =>
          let E := fresh "E" in
          destruct (t s) as [? ?] eqn:E
      end;
    injection H as H <-;
    apply join3_inr in H; destruct H as (a & b & c & -> & -> & -> & _);
    repeat match goal with
      | E : getExperiences _ _ _ = _ |- _ => apply HE in E
      | E : getEducation _ _ _ = _ |- _ => apply HD in E
      | E : getSkills _ _ _ = _ |- _ => apply HS in E
      end;
    eauto using incl_tran.
Qed.

Lemma close_fulfilled_pages env page b st x st' :
  browser st = Some b -> close env page st = (inr x, st') -> pages st' = [].
Proof.
  intros Hb H. unfold close in H.
  pose proof (closeGivenPage_protocol env page st) as H1.
  destruct (closeGivenPage env page st) as [early1 st1].
  destruct H1 as (_ & Hb1 & _ & C1). rewrite Hb in Hb1.
  unfold closeStoredBrowser, closeBrowser, treeKill in H. rewrite Hb1 in H.
  destruct C1 as [(-> & _) | ((e1 & ->) & _)].
  - destruct (closeBrowser_answer env (tick st1)); [discriminate|].
    destruct (process_pid b) as [pid|].
    + destruct (pid =? 0)%Z; injection H as _ <-; reflexivity.
    + injection H as _ <-. reflexivity.
  - destruct (closeBrowser_answer env (tick st1)); [discriminate|].
    destruct (process_pid b) as [pid|]; [destruct (pid =? 0)%Z|];
      discriminate.
Qed.

(** X10.  No page outlives the run that returned a result: every page
    still open afterwards was open before the run, and with [keepAlive]
    unset no page is open at all. *)
Theorem returned_run_leaves_no_page (env : Env) (u : string) (st st' : State)
  (res : Result) :
  run env u st = (Ok res, st') ->
  incl (pages st') (pages st)
  /\ (truthy (keepAlive (options st)) = false -> pages st' = []).
Proof.
  intros H.
  destruct (run_returned _ _ _ _ _ H)
    as (page & pr & v & s1 & e & d & s & s2 & x & E1 & E2 & E3 & _).
  destruct (primary_has_browser _ _ _ _ _ E1) as (b & Hb).
  destruct (run_before_disposal _ _ _ _ _ _ _ _ _ E1 E2)
    as (Ho & Hb2 & _).
  destruct (primary_returned _ _ _ _ _ _ _ E1) as (_ & Hp1 & _).
  pose proof (promiseAll_returned_pages _ _ _ _ _ E2) as Hp2.
  assert (Hbs : browser s2 = Some b) by congruence.
  unfold dispose in E3. rewrite Ho in E3.
  destruct (truthy (keepAlive (options st))); cbn [negb] in E3.
  - split; [|discriminate].
    unfold closePage in E3.
    destruct (closePage_answer env (tick s2)); [discriminate|].
    injection E3 as _ <-. cbn. intros q Hq.
    apply filter_In in Hq. destruct Hq as [Hq Hne].
    apply Hp2 in Hq. rewrite Hp1 in Hq. destruct Hq as [<- | Hq];
      [now rewrite Nat.eqb_refl in Hne | exact Hq].
  - rewrite (close_fulfilled_pages _ _ _ _ _ _ Hbs E3).
    split; [intros q [] | reflexivity].
Qed.

Lemma returned_run_leaves_no_page_witness :
  incl (pages (snd (run Examples.cooperative Examples.exampleUrl
                      (Examples.afterSetup Examples.cooperative
                         (Examples.withKeepAlive true 5000)))))
       (pages (Examples.afterSetup Examples.cooperative
                 (Examples.withKeepAlive true 5000))).
Proof.
  assert (H : run Examples.cooperative Examples.exampleUrl
                (Examples.afterSetup Examples.cooperative
                   (Examples.withKeepAlive true 5000))
              = (Ok (mkResult Examples.someProfile [] [] [] []),
                 snd (run Examples.cooperative Examples.exampleUrl
                        (Examples.afterSetup Examples.cooperative
                           (Examples.withKeepAlive true 5000)))))
    by (vm_compute; reflexivity).
  exact (proj1 (returned_run_leaves_no_page _ _ _ _ _ H)).
Defined.

(** X11.  Neither [run] nor [close] ever touches the options or the stored
    browser handle, and neither launches a browser: a handle whose browser
    has been closed keeps pointing at the closed browser, and stays
    closed. *)
Theorem run_and_close_keep_the_handle (env : Env) (st : State) :
  (forall u,
     options (snd (run env u st)) = options st
     /\ browser (snd (run env u st)) = browser st
     /\ (connected st = false -> connected (snd (run env u st)) = false)
     /\ exists calls,
          issued st (snd (run env u st)) calls
          /\ existsb isLaunch calls = false)
  /\ (forall page,
        options (snd (close env page st)) = options st
        /\ browser (snd (close env page st)) = browser st
        /\ (connected st = false -> connected (snd (close env page st)) = false)
        /\ exists calls,
             issued st (snd (close env page st)) calls
             /\ existsb isLaunch calls = false).
Proof.
  split.
  - intros u. destruct (run env u st) as [r s] eqn:E.
    destruct (Stable_run env u _ _ _ E) as [Ho Hb Hd Hc]. cbn [snd]. auto.
  - intros page. destruct (close env page st) as [r s] eqn:E.
    destruct (Stable_close env page _ _ _ E) as [Ho Hb Hd Hc]. cbn [snd]. auto.
Qed.

(** *** The URL guard *)

End SessionExtras.

(** ** String tests *)

Section StringFacts.
Import Js.

Lemma prefix_iff (sub s : string) :
  String.prefix sub s = true <-> exists rest, s = sub ++ rest.
Proof.
  revert s. induction sub as [|c sub IH]; intros s.
  - split; [intros _; now exists s | intros _; destruct s; reflexivity].
  - destruct s as [|d s]; cbn;
      [split; [discriminate | intros (r & H); discriminate]|].
    destruct (Ascii.ascii_dec c d) as [-> | Hne].
    + rewrite IH. split; intros (r & H); exists r; [now subst | now injection H].
    + split; [discriminate|]. intros (r & H). injection H as H _. congruence.
Qed.

Lemma includes_iff (s sub : string) :
  includes s sub = true <-> exists a c, s = a ++ sub ++ c.
Proof.
  induction s as [|d s IH]; cbn [includes].
  - rewrite orb_false_r, prefix_iff. split.
    + intros (r & H). now exists "", r.
    + intros (a & c & H). destruct a; [now exists c|discriminate].
  - rewrite orb_true_iff, prefix_iff, IH. split.
    + intros [(r & H) | (a & c & H)].
      * now exists "", r.
      * exists (String d a), c. cbn. now rewrite H.
    + intros (a & c & H). destruct a as [|d' a].
      * left. now exists c.
      * right. injection H as _ H. now exists a, c.
Qed.

Lemma endsWith_iff (s suffix : string) :
  endsWith s suffix = true <-> exists pre, s = pre ++ suffix.
Proof.
  induction s as [|d s IH]; cbn [endsWith].
  - rewrite orb_false_r, String.eqb_eq. split.
    + intros <-. now exists "".
    + intros (pre & H). destruct pre; [exact H | discriminate].
  - rewrite orb_true_iff, String.eqb_eq, IH. split.
    + intros [<- | (pre & H)]; [now exists "" |].
      exists (String d pre). cbn. now rewrite H.
    + intros (pre & H). destruct pre as [|d' pre].
      * left. exact H.
      * right. injection H as _ H. now exists pre.
Qed.

End StringFacts.


(** ** The guards of [run] and of the login check *)

Section GuardExtras.
Import Js Config Entities Engine Scraper SessionSpec SessionLogic.

Lemma issued_nothing st ev calls : ~ issued st st (ev :: calls).
Proof.
  unfold issued. intros H. apply (f_equal (@length Event)) in H.
  rewrite length_app in H. cbn in H. lia.
Qed.

(** X12.  The URL guard of [run] is a substring test: with a browser handle
    stored, [run] goes on to ask the engine for a page exactly when the URL
    contains "linkedin.com/" somewhere, whatever stands before or after
    it. *)
Theorem url_guard_is_a_substring_test (env : Env) (st : State) (b : Browser)
  (u : string) :
  browser st = Some b ->
  ((exists a c, u = a ++ "linkedin.com/" ++ c)
   <-> exists calls, issued st (snd (run env u st)) (NewPage :: calls)).
Proof.
  intros Hb. rewrite <- includes_iff. split.
  - intros Hin. apply (run_starts_with_newPage env b); [exact Hb|].
    split; [|exact Hin]. intros ->. discriminate.
  - intros (calls & I).
    destruct (includes u "linkedin.com/") eqn:Hin; [reflexivity|].
    exfalso. unfold run in I. rewrite Hb, Hin in I.
    destruct (u =? ""); cbn in I; now apply issued_nothing in I.
Qed.

Lemma url_guard_is_a_substring_test_witness :
  exists calls,
    issued (Examples.afterSetup Examples.cooperative
              (Examples.withKeepAlive true 5000))
      (snd (run Examples.cooperative
              "https://example.org/?next=linkedin.com/in/jane"
              (Examples.afterSetup Examples.cooperative
                 (Examples.withKeepAlive true 5000))))
      (NewPage :: calls).
Proof.
  apply (proj1 (url_guard_is_a_substring_test Examples.cooperative
                  (Examples.afterSetup Examples.cooperative
                     (Examples.withKeepAlive true 5000))
                  (mkBrowser (Some 4242%Z))
                  "https://example.org/?next=linkedin.com/in/jane"
                  eq_refl)).
  exists "https://example.org/?next=", "in/jane". reflexivity.
Defined.

(** X13.  The login check is a suffix test on the final URL: once the
    verification page has been created, navigated and closed,
    [checkIfLoggedIn] returns normally exactly when the final URL is not of
    the form [pre ++ "/login"]; anything after "/login" counts as logged
    in. *)
Theorem login_check_is_a_suffix_test (env : Env) (st s1 s2 s3 : State)
  (p : PageId) (final : string) :
  createPage env st = (Ok p, s1) ->
  goto env p loginUrl "domcontentloaded" (Some (timeout (options st))) s1
    = (Ok final, s2) ->
  closePage env p s2 = (Ok tt, s3) ->
  (fst (checkIfLoggedIn env st) = Ok tt
   <-> ~ exists pre, final = pre ++ "/login").
Proof.
  intros E1 E2 E3.
  rewrite (checkIfLoggedIn_verdict _ _ _ _ _ _ _ _ E1 E2 E3).
  rewrite <- endsWith_iff. cbn [fst].
  destruct (endsWith final "/login"); split; try discriminate; congruence.
Qed.

Lemma login_check_is_a_suffix_test_witness :
  fst (checkIfLoggedIn
         (Examples.engine
            (fun _ => inr "https://www.linkedin.com/login?fromSignIn=true")
            None)
         (Examples.afterSetup Examples.cooperative
            (Examples.withKeepAlive true 5000)))
  = Ok tt.
Proof.
  apply (proj2 (login_check_is_a_suffix_test
                  (Examples.engine
                     (fun _ => inr "https://www.linkedin.com/login?fromSignIn=true")
                     None)
                  (Examples.afterSetup Examples.cooperative
                     (Examples.withKeepAlive true 5000))
                  _ _ _ 1 "https://www.linkedin.com/login?fromSignIn=true"
                  eq_refl eq_refl eq_refl)).
  rewrite <- endsWith_iff. discriminate.
Defined.

End GuardExtras.

(** ** The constructor: which configurations pass *)

Section ConstructorExtras.
Import Js Config Spec ConfigSpec Engine Scraper SessionSpec SessionLogic.

Lemma token_checks_iff (v : value) :
  negb (truthy v) = false
  /\ truthy v && negb (typeof v =? "string") = false
  <-> nonEmptyString v.
Proof.
  unfold nonEmptyString. destruct v as [| | b | n | s |]; cbn.
  - split; [intros [H _]; discriminate | intros (s & H & _); discriminate].
  - split; [intros [H _]; discriminate | intros (s & H & _); discriminate].
  - destruct b; cbn;
      (split; [intros [H1 H2]; discriminate | intros (s & H & _); discriminate]).
  - split; [|intros (s & H & _); discriminate].
    destruct n as [z|]; [destruct (z =? 0)%Z|]; cbn; intros [H1 H2];
      discriminate.
  - destruct (s =? "") eqn:E; cbn.
    + split; [intros [H _]; discriminate|].
      intros (s' & H & Hne). injection H as <-.
      apply String.eqb_eq in E. contradiction.
    + split; [|auto]. intros _. exists s. split; [reflexivity|].
      now apply String.eqb_neq.
  - split; [intros [_ H]; discriminate | intros (s & H & _); discriminate].
Qed.

Lemma userAgent_check_iff (v : value) :
  truthy v && negb (typeof v =? "string") = false <-> falsyOrString v.
Proof.
  unfold falsyOrString. destruct (truthy v) eqn:Et; cbn [andb].
  - destruct v as [| | b | n | s |]; cbn in *; try discriminate.
    + split; [discriminate|]. intros [H | (s & H)]; discriminate.
    + split; [discriminate|]. intros [H | (s & H)]; discriminate.
    + split; [eauto | reflexivity].
    + split; [discriminate|]. intros [H | (s & H)]; discriminate.
  - split; [auto | reflexivity].
Qed.

Lemma boolean_check_iff (v : value) :
  is_defined v && negb (typeof v =? "boolean") = false
  <-> undefinedOr isBoolean v.
Proof.
  unfold undefinedOr, isBoolean. destruct v as [| | b | n | s |]; cbn;
    try (split; [discriminate | intros [H | (x & H)]; discriminate]).
  - split; auto.
  - split; [eauto | reflexivity].
Qed.

Lemma number_check_iff (v : value) :
  is_defined v && negb (typeof v =? "number") = false
  <-> undefinedOr isNumber v.
Proof.
  unfold undefinedOr, isNumber. destruct v as [| | b | n | s |]; cbn;
    try (split; [discriminate | intros [H | (x & H)]; discriminate]).
  - split; auto.
  - split; [eauto | reflexivity].
Qed.

Lemma validate_passes_iff (u : UserOptions) :
  validate u = Ok (assign defaultOptions u) <-> accepted u.
Proof.
  unfold accepted.
  rewrite <- token_checks_iff, <- userAgent_check_iff, <- !boolean_check_iff,
    <- number_check_iff.
  unfold validate.
  destruct (negb (truthy (prop (u_sessionCookieValue u))));
    [split; [discriminate | intros [[H _] _]; discriminate]|].
  destruct (truthy (prop (u_sessionCookieValue u))
            && negb (typeof (prop (u_sessionCookieValue u)) =? "string"));
    [split; [discriminate | intros [[_ H] _]; discriminate]|].
  destruct (truthy (prop (u_userAgent u))
            && negb (typeof (prop (u_userAgent u)) =? "string"));
    [split; [discriminate | intros (_ & H & _); discriminate]|].
  destruct (is_defined (prop (u_keepAlive u))
            && negb (typeof (prop (u_keepAlive u)) =? "boolean"));
    [split; [discriminate | intros (_ & _ & H & _); discriminate]|].
  destruct (is_defined (prop (u_timeout u))
            && negb (typeof (prop (u_timeout u)) =? "number"));
    [split; [discriminate | intros (_ & _ & _ & H & _); discriminate]|].
  destruct (is_defined (prop (u_headless u))
            && negb (typeof (prop (u_headless u)) =? "boolean"));
    [split; [discriminate | intros (_ & _ & _ & _ & H); discriminate]|].
  split; [auto 10 | reflexivity].
Qed.

Lemma validate_total (u : UserOptions) :
  validate u = Ok (assign defaultOptions u)
  \/ exists msg, validate u = Throw (JsError msg).
Proof.
  rewrite validate_first_rejection.
  destruct (find (rejects u) checkOrder) as [c|]; [right | now left].
  unfold complaint. eauto.
Qed.

(** X14.  The constructor lets a configuration through exactly when the
    token is a non-empty string, the user agent is falsy or a string, and
    each of keepAlive, timeout and headless is absent, [undefined] or of
    its type; the object then holds the defaults overwritten by the given
    properties.  Every other configuration is rejected with an [Error] of
    the scraper. *)
Theorem constructor_accepts_exactly (u : UserOptions) :
  (construct u = Ok (fresh (assign defaultOptions u)) <-> accepted u)
  /\ ((exists msg, construct u = Throw (JsError msg)) <-> ~ accepted u).
Proof.
  assert (Hc : construct u = Ok (fresh (assign defaultOptions u))
               <-> accepted u).
  { rewrite <- validate_passes_iff. unfold construct.
    destruct (validate u) as [e | o]; split; try discriminate.
    - intros H. injection H as ->. reflexivity.
    - intros H. injection H as ->. reflexivity. }
  split; [exact Hc|]. rewrite <- Hc. unfold construct.
  destruct (validate_total u) as [-> | (msg & ->)].
  - split; [intros (msg & H); discriminate | intros H; now elim H].
  - split; [intros _ H; discriminate | intros _; now exists msg].
Qed.

Lemma setup_starts_with_launch env st :
  exists rest,
    issued st (snd (setup env st))
      (Launch (headless (options st))
         (if truthy (headless (options st))
          then ["--headless"; "--single-process"]
          else ["--start-maximized"])
         (timeout (options st)) :: rest).
Proof.
  unfold setup.
  apply tryCatch_starts; [|intros e; apply Stable_handler].
  apply bind_starts; [|intros _; apply Stable_checkIfLoggedIn].
  unfold launch. destruct (launch_answer env (tick st)); exists [];
    reflexivity.
Qed.

(** X15.  A property given as [undefined] passes the constructor's type
    check and then overwrites the default: with [headless: undefined] the
    browser is launched in the foreground ("--start-maximized", no
    "--headless"), and [keepAlive] or [timeout] given as [undefined] end
    up [undefined] in the options instead of [false] and [10000]. *)
Theorem explicit_undefined_overrides_default (u : UserOptions) (st : State) :
  construct u = Ok st ->
  (u_headless u = Some VUndefined ->
     headless (options st) = VUndefined
     /\ forall env,
          exists rest,
            issued st (snd (setup env st))
              (Launch VUndefined ["--start-maximized"] (timeout (options st))
                 :: rest))
  /\ (u_keepAlive u = Some VUndefined -> keepAlive (options st) = VUndefined)
  /\ (u_timeout u = Some VUndefined -> timeout (options st) = VUndefined).
Proof.
  intros H. unfold construct in H.
  destruct (validate_total u) as [Hv | (msg & Hv)]; rewrite Hv in H;
    [|discriminate].
  injection H as <-. cbn [options fresh]. unfold assign.
  cbn [headless keepAlive timeout].
  split; [|split].
  - intros Hh. rewrite Hh. split; [reflexivity|]. intros env.
    destruct (setup_starts_with_launch env
                (fresh (assign defaultOptions u))) as (rest & I).
    cbn [options fresh] in I. unfold assign in I.
    cbn [headless timeout] in I. rewrite Hh in I. cbn in I.
    exists rest. exact I.
  - intros ->. reflexivity.
  - intros ->. reflexivity.
Qed.

Lemma explicit_undefined_overrides_default_witness :
  exists st,
    construct (mkUser (Some (VStr "AQEDAT")) None None None (Some VUndefined))
    = Ok st
    /\ headless (options st) = VUndefined
    /\ exists rest,
         issued st (snd (setup Examples.cooperative st))
           (Launch VUndefined ["--start-maximized"] (timeout (options st))
              :: rest).
Proof.
  eexists. split; [reflexivity|].
  destruct (proj1 (explicit_undefined_overrides_default
                     (mkUser (Some (VStr "AQEDAT")) None None None
                        (Some VUndefined))
                     _ eq_refl) eq_refl) as [Hh Hs].
  split; [exact Hh | exact (Hs Examples.cooperative)].
Defined.

End ConstructorExtras.

(** ** The extraction callbacks: further properties *)

Section ExtractExtras.
Import Js Extract Entities Pages Spec ExtractSpec.

Lemma orNull_filled (x : option string) : filled (orNull x).
Proof.
  unfold filled, orNull. destruct x as [s|]; [|discriminate].
  destruct (s =? "") eqn:E; [discriminate|].
  intros H. injection H as ->. discriminate.
Qed.

Lemma textOrNull_filled (el : option Element) : filled (textOrNull el).
Proof. apply orNull_filled. Qed.

Lemma segmentOrNull_filled (t : option string) (i : nat) :
  filled (segmentOrNull t i).
Proof. apply orNull_filled. Qed.

Lemma orNull_some (x : option string) (s : string) :
  orNull x = Some s <-> x = Some s /\ s <> "".
Proof.
  unfold orNull. destruct x as [t|].
  - destruct (t =? "") eqn:E.
    + apply String.eqb_eq in E. subst t. split; [discriminate|].
      intros [H Hne]. injection H as <-. contradiction.
    + apply String.eqb_neq in E. split.
      * intros H. injection H as <-. now split.
      * intros [H _]. exact H.
  - split; [discriminate | intros [H _]; discriminate].
Qed.

Section WithBuiltins.
Variables trim toLowerCase : string -> string.

Lemma isPresent_iff (el : option Element) :
  isPresent trim toLowerCase (segmentOrNull (textOrNull el) 1) = true
  <-> ongoing trim toLowerCase el.
Proof.
  rewrite segment_is_second. unfold ongoing, isPresent.
  destruct (orNull (secondSegment el)) as [p|] eqn:E.
  - apply orNull_some in E. destruct E as [E Hne].
    rewrite String.eqb_eq. split.
    + intros H. now exists p.
    + intros (seg & Hs & _ & Hp). congruence.
  - split; [discriminate|]. intros (seg & Hs & Hne & _).
    assert (H : orNull (secondSegment el) = Some seg)
      by (apply orNull_some; now split).
    congruence.
Qed.

Lemma endDateOf_cases (el : option Element) :
  let part := segmentOrNull (textOrNull el) 1 in
  let flag := isPresent trim toLowerCase part in
  (flag = true -> endDateOf trim part flag = "Present")
  /\ (forall seg,
        secondSegment el = Some seg -> seg <> "" -> flag = false ->
        endDateOf trim part flag = trim seg).
Proof.
  cbv zeta. rewrite segment_is_second. split.
  - intros ->. unfold endDateOf.
    destruct (orNull (secondSegment el)); reflexivity.
  - intros seg Hs Hne ->.
    assert (H : orNull (secondSegment el) = Some seg)
      by (apply orNull_some; now split).
    rewrite H. reflexivity.
Qed.

End WithBuiltins.

(** X16.  Every raw text field that the callbacks fill through [|| null]
    is null or a non-empty string, never the empty string: the fields of
    the raw profile, of a raw education entry, and the title, company,
    start date, description (and employment type, location) of a raw
    volunteering or experience entry. *)
Theorem raw_text_is_null_or_non_empty (trim toLowerCase : string -> string)
  (doc : ProfileDocument) (d : EducationNode) (v : VolunteerNode)
  (x : ExperienceNode) :
  let rp := rawProfile doc in
  let rd := educationEntry d in
  let rv := volunteeringEntry trim toLowerCase v in
  let rx := experienceEntry trim toLowerCase x in
  (filled (rp_fullName rp) /\ filled (rp_title rp) /\ filled (rp_location rp)
   /\ filled (rp_photo rp) /\ filled (rp_description rp))
  /\ (filled (red_schoolName rd) /\ filled (red_degreeName rd)
      /\ filled (red_fieldOfStudy rd) /\ filled (red_startDate rd)
      /\ filled (red_endDate rd))
  /\ (filled (rv_title rv) /\ filled (rv_company rv)
      /\ filled (rv_startDate rv) /\ filled (rv_description rv))
  /\ (filled (re_title rx) /\ filled (re_company rx)
      /\ filled (re_employmentType rx) /\ filled (re_location rx)
      /\ filled (re_startDate rx) /\ filled (re_description rx)).
Proof.
  cbv zeta.
  unfold rawProfile, educationEntry, volunteeringEntry, experienceEntry.
  cbn [rp_fullName rp_title rp_location rp_photo rp_description
       red_schoolName red_degreeName red_fieldOfStudy red_startDate
       red_endDate rv_title rv_company rv_startDate rv_description
       re_title re_company re_employmentType re_location re_startDate
       re_description].
  repeat split; apply orNull_filled.
Qed.

(** X17.  In a raw volunteering or experience entry the flag
    [endDateIsPresent] is set exactly when the date-range text has a
    non-empty second segment that reads "present" in any letter case; when
    it is set the end date is the string "Present", and when it is not and
    the second segment is non-empty the end date is that segment,
    trimmed. *)
Theorem present_flag_and_end_date (trim toLowerCase : string -> string)
  (v : VolunteerNode) (x : ExperienceNode) :
  let rv := volunteeringEntry trim toLowerCase v in
  let rx := experienceEntry trim toLowerCase x in
  ((rv_endDateIsPresent rv = true
    <-> ongoing trim toLowerCase (v_dateRangeElement v))
   /\ (rv_endDateIsPresent rv = true -> rv_endDate rv = Some "Present")
   /\ (forall seg,
         secondSegment (v_dateRangeElement v) = Some seg -> seg <> "" ->
         rv_endDateIsPresent rv = false -> rv_endDate rv = Some (trim seg)))
  /\ ((re_endDateIsPresent rx = true
       <-> ongoing trim toLowerCase (e_dateRangeElement x))
      /\ (re_endDateIsPresent rx = true -> re_endDate rx = Some "Present")
      /\ (forall seg,
            secondSegment (e_dateRangeElement x) = Some seg -> seg <> "" ->
            re_endDateIsPresent rx = false -> re_endDate rx = Some (trim seg))).
Proof.
  cbv zeta. unfold volunteeringEntry, experienceEntry.
  cbn [rv_endDateIsPresent rv_endDate re_endDateIsPresent re_endDate].
  split.
  - destruct (endDateOf_cases trim toLowerCase (v_dateRangeElement v))
      as [H1 H2].
    split; [apply isPresent_iff|]. split.
    + intros H. f_equal. now apply H1.
    + intros seg Hs Hne H. f_equal. now apply H2.
  - destruct (endDateOf_cases trim toLowerCase (e_dateRangeElement x))
      as [H1 H2].
    split; [apply isPresent_iff|]. split.
    + intros H. f_equal. now apply H1.
    + intros seg Hs Hne H. f_equal. now apply H2.
Qed.

Lemma present_flag_and_end_date_witness :
  rv_endDate
    (volunteeringEntry AsciiBuiltins.trim AsciiBuiltins.toLowerCase
       (mkVolunteerNode None None
          (Some (mkElement (Some ("Jan 2019 " ++ enDash ++ " Mar 2020 "))))
          None))
  = Some "Mar 2020".
Proof.
  apply (proj2 (proj2 (proj1 (present_flag_and_end_date AsciiBuiltins.trim
                                AsciiBuiltins.toLowerCase
                                (mkVolunteerNode None None
                                   (Some (mkElement
                                            (Some ("Jan 2019 " ++ enDash
                                                   ++ " Mar 2020 "))))
                                   None)
                                (mkExperienceNode None None None None None
                                   None))))
           " Mar 2020 ").
  - reflexivity.
  - discriminate.
  - reflexivity.
Defined.

Section WithHelpers.
Variable getCleanText : option string -> option string.
Variable getLocationFromText : string -> option Location.
Variable formatDate : option string -> option string.
Variable getDurationInDays : option string -> EndOfPeriod -> option number.
Variables trim toLowerCase : string -> string.

Lemma profile_without_top_card_facts (doc : ProfileDocument) :
  profileSection doc = None ->
  let p := getProfileData getCleanText getLocationFromText doc in
  fullName p = getCleanText None /\ title p = getCleanText None
  /\ location p = None /\ photo p = None
  /\ description p = getCleanText (textOrNull (descriptionElement doc))
  /\ url p = href doc.
Proof.
  intros H. cbv zeta.
  unfold getProfileData, cleanProfile, rawProfile, inTopCard. rewrite H.
  cbn. repeat split.
Qed.

Lemma photo_facts (doc : ProfileDocument) (card : TopCard) :
  profileSection doc = Some card ->
  let p := getProfileData getCleanText getLocationFromText doc in
  (forall img, t_photo card = Some img -> photo p = orNull (src img))
  /\ (t_photo card = None ->
      forall img, t_photoPreview card = Some img -> photo p = orNull (src img))
  /\ (t_photo card = None -> t_photoPreview card = None -> photo p = None).
Proof.
  intros H. cbv zeta.
  unfold getProfileData, cleanProfile, rawProfile, inTopCard, firstFound.
  rewrite H. cbn [photo rp_photo].
  split; [|split].
  - intros img ->. reflexivity.
  - intros -> img ->. reflexivity.
  - intros -> ->. reflexivity.
Qed.

Lemma undated_experience_facts (x : ExperienceNode) :
  e_dateRangeElement x = None ->
  let c := cleanExperience getCleanText getLocationFromText formatDate
             getDurationInDays (experienceEntry trim toLowerCase x) in
  x_endDateIsPresent c = false
  /\ x_startDate c = formatDate None
  /\ x_endDate c = orNull (formatDate (Some "Present")).
Proof.
  intros H. cbv zeta. unfold cleanExperience, experienceEntry. rewrite H.
  cbn. repeat split.
Qed.

Lemma undated_volunteering_facts (v : VolunteerNode) :
  v_dateRangeElement v = None ->
  let c := cleanVolunteering getCleanText formatDate getDurationInDays
             (volunteeringEntry trim toLowerCase v) in
  g_endDateIsPresent c = false
  /\ g_startDate c = formatDate None
  /\ g_endDate c = formatDate (Some "Present")
  /\ g_durationInDays c
     = getDurationInDays (formatDate None)
         (Formatted (formatDate (Some "Present"))).
Proof.
  intros H. cbv zeta. unfold cleanVolunteering, volunteeringEntry. rewrite H.
  cbn. repeat split.
Qed.

Lemma ongoing_experience_facts (x : ExperienceNode) :
  ongoing trim toLowerCase (e_dateRangeElement x) ->
  let c := cleanExperience getCleanText getLocationFromText formatDate
             getDurationInDays (experienceEntry trim toLowerCase x) in
  x_endDateIsPresent c = true
  /\ x_endDate c = orNull (formatDate (Some "Present"))
  /\ x_durationInDays c
     = (if given (x_startDate c)
        then getDurationInDays (x_startDate c) CurrentDate else None).
Proof.
  intros H. cbv zeta.
  pose proof (proj2 (isPresent_iff trim toLowerCase _) H) as Hflag.
  pose proof (proj1 (endDateOf_cases trim toLowerCase (e_dateRangeElement x))
                Hflag) as Hend.
  unfold cleanExperience, experienceEntry.
  cbn [re_endDateIsPresent re_endDate re_startDate x_endDateIsPresent
       x_endDate x_durationInDays x_startDate].
  rewrite Hend, Hflag. cbn [andb negb]. repeat split.
Qed.

Lemma ongoing_volunteering_facts (v : VolunteerNode) :
  ongoing trim toLowerCase (v_dateRangeElement v) ->
  let c := cleanVolunteering getCleanText formatDate getDurationInDays
             (volunteeringEntry trim toLowerCase v) in
  g_endDateIsPresent c = true
  /\ g_durationInDays c
     = getDurationInDays (g_startDate c)
         (Formatted (formatDate (Some "Present"))).
Proof.
  intros H. cbv zeta.
  pose proof (proj2 (isPresent_iff trim toLowerCase _) H) as Hflag.
  pose proof (proj1 (endDateOf_cases trim toLowerCase (v_dateRangeElement v))
                Hflag) as Hend.
  unfold cleanVolunteering, volunteeringEntry.
  cbn [rv_endDateIsPresent rv_endDate rv_startDate g_endDateIsPresent
       g_durationInDays g_startDate].
  rewrite Hend, Hflag. repeat split.
Qed.

End WithHelpers.

(** X18.  When the page has no top card, [getProfile] still returns a
    profile: name and title are what [getCleanText] makes of null,
    location and photo are null, while the URL and the description, which
    is read outside the top card, are kept. *)
Theorem profile_without_top_card
  (getCleanText : option string -> option string)
  (getLocationFromText : string -> option Location) (doc : ProfileDocument) :
  profileSection doc = None ->
  let p := getProfileData getCleanText getLocationFromText doc in
  fullName p = getCleanText None /\ title p = getCleanText None
  /\ location p = None /\ photo p = None
  /\ description p = getCleanText (textOrNull (descriptionElement doc))
  /\ url p = href doc.
Proof. apply profile_without_top_card_facts. Qed.

Lemma profile_without_top_card_witness :
  let p := getProfileData (fun t => t) (fun l => Some (mkLocation (Some l) None None))
             (mkProfileDocument None (Some (mkElement (Some "About me")))
                "https://www.linkedin.com/in/example") in
  photo p = None /\ description p = Some "About me"
  /\ url p = "https://www.linkedin.com/in/example".
Proof.
  destruct (profile_without_top_card (fun t => t)
              (fun l => Some (mkLocation (Some l) None None))
              (mkProfileDocument None (Some (mkElement (Some "About me")))
                 "https://www.linkedin.com/in/example") eq_refl)
    as (_ & _ & _ & Hp & Hd & Hu).
  cbv zeta. repeat split; assumption.
Defined.

(** X19.  The profile photo is the [src] of the first photo element found:
    when the top card has the regular photo element its [src] decides,
    and a missing or empty [src] gives null even if the edit preview has
    one; the preview is read only when the regular element is absent.  The
    photo is not cleaned. *)
Theorem photo_is_taken_from_the_first_element
  (getCleanText : option string -> option string)
  (getLocationFromText : string -> option Location) (doc : ProfileDocument)
  (card : TopCard) :
  profileSection doc = Some card ->
  let p := getProfileData getCleanText getLocationFromText doc in
  (forall img, t_photo card = Some img -> photo p = orNull (src img))
  /\ (t_photo card = None ->
      forall img, t_photoPreview card = Some img -> photo p = orNull (src img))
  /\ (t_photo card = None -> t_photoPreview card = None -> photo p = None).
Proof. apply photo_facts. Qed.

Lemma photo_is_taken_from_the_first_element_witness :
  photo (getProfileData (fun t => t) (fun _ => None)
           (mkProfileDocument
              (Some (mkTopCard None None None (Some (mkImage None))
                       (Some (mkImage (Some "https://media.example/me.jpg")))))
              None "https://www.linkedin.com/in/example"))
  = None.
Proof.
  exact (proj1 (photo_is_taken_from_the_first_element (fun t => t)
                  (fun _ => None)
                  (mkProfileDocument
                     (Some (mkTopCard None None None (Some (mkImage None))
                              (Some (mkImage
                                       (Some "https://media.example/me.jpg")))))
                     None "https://www.linkedin.com/in/example")
                  _ eq_refl)
           (mkImage None) eq_refl).
Defined.

(** X20.  An entry without a date range is cleaned as if its end date were
    the literal "Present", while [endDateIsPresent] stays false: the end
    date of the experience or volunteering record is what [formatDate]
    makes of "Present", the start date what it makes of null, and the
    volunteering duration is measured between these two. *)
Theorem undated_entry_ends_at_present
  (getCleanText : option string -> option string)
  (getLocationFromText : string -> option Location)
  (formatDate : option string -> option string)
  (getDurationInDays : option string -> EndOfPeriod -> option number)
  (trim toLowerCase : string -> string)
  (x : ExperienceNode) (v : VolunteerNode) :
  (e_dateRangeElement x = None ->
   let c := cleanExperience getCleanText getLocationFromText formatDate
              getDurationInDays (experienceEntry trim toLowerCase x) in
   x_endDateIsPresent c = false
   /\ x_startDate c = formatDate None
   /\ x_endDate c = orNull (formatDate (Some "Present")))
  /\ (v_dateRangeElement v = None ->
      let c := cleanVolunteering getCleanText formatDate getDurationInDays
                 (volunteeringEntry trim toLowerCase v) in
      g_endDateIsPresent c = false
      /\ g_startDate c = formatDate None
      /\ g_endDate c = formatDate (Some "Present")
      /\ g_durationInDays c
         = getDurationInDays (formatDate None)
             (Formatted (formatDate (Some "Present")))).
Proof.
  split; [apply undated_experience_facts | apply undated_volunteering_facts].
Qed.

Lemma undated_entry_ends_at_present_witness :
  x_endDate
    (cleanExperience (fun t => t) (fun _ => None) (fun d => d)
       (fun _ _ => None)
       (experienceEntry AsciiBuiltins.trim AsciiBuiltins.toLowerCase
          (mkExperienceNode (Some (mkElement (Some "Engineer"))) None None
             None None None)))
  = Some "Present".
Proof.
  exact (proj2 (proj2 (proj1 (undated_entry_ends_at_present (fun t => t)
                                (fun _ => None) (fun d => d) (fun _ _ => None)
                                AsciiBuiltins.trim AsciiBuiltins.toLowerCase
                                (mkExperienceNode
                                   (Some (mkElement (Some "Engineer")))
                                   None None None None None)
                                (mkVolunteerNode None None None None))
                         eq_refl))).
Defined.

(** X21.  An ongoing position (second segment reading "present") is
    flagged [endDateIsPresent]; the duration of an ongoing experience is
    measured from its formatted start date to the current date, and is
    null when that start date is missing, whereas the duration of an
    ongoing volunteering entry is measured to what [formatDate] makes of
    "Present". *)
Theorem ongoing_entry_duration
  (getCleanText : option string -> option string)
  (getLocationFromText : string -> option Location)
  (formatDate : option string -> option string)
  (getDurationInDays : option string -> EndOfPeriod -> option number)
  (trim toLowerCase : string -> string)
  (x : ExperienceNode) (v : VolunteerNode) :
  (ongoing trim toLowerCase (e_dateRangeElement x) ->
   let c := cleanExperience getCleanText getLocationFromText formatDate
              getDurationInDays (experienceEntry trim toLowerCase x) in
   x_endDateIsPresent c = true
   /\ x_endDate c = orNull (formatDate (Some "Present"))
   /\ x_durationInDays c
      = (if given (x_startDate c)
         then getDurationInDays (x_startDate c) CurrentDate else None))
  /\ (ongoing trim toLowerCase (v_dateRangeElement v) ->
      let c := cleanVolunteering getCleanText formatDate getDurationInDays
                 (volunteeringEntry trim toLowerCase v) in
      g_endDateIsPresent c = true
      /\ g_durationInDays c
         = getDurationInDays (g_startDate c)
             (Formatted (formatDate (Some "Present")))).
Proof.
  split; [apply ongoing_experience_facts | apply ongoing_volunteering_facts].
Qed.

Lemma ongoing_entry_duration_witness :
  x_durationInDays
    (cleanExperience (fun t => t) (fun _ => None) (fun d => d)
       (fun _ e => match e with
                   | CurrentDate => Some (Finite 400)
                   | Formatted _ => Some (Finite 0)
                   end)
       (experienceEntry AsciiBuiltins.trim AsciiBuiltins.toLowerCase
          (mkExperienceNode None None None None
             (Some (mkElement (Some ("Jan 2019 " ++ enDash ++ " Present"))))
             None)))
  = Some (Finite 400).
Proof.
  refine (proj2 (proj2 (proj1 (ongoing_entry_duration (fun t => t)
                                 (fun _ => None) (fun d => d)
                                 (fun _ e => match e with
                                             | CurrentDate => Some (Finite 400)
                                             | Formatted _ => Some (Finite 0)
                                             end)
                                 AsciiBuiltins.trim AsciiBuiltins.toLowerCase
                                 (mkExperienceNode None None None None
                                    (Some (mkElement
                                             (Some ("Jan 2019 " ++ enDash
                                                    ++ " Present"))))
                                    None)
                                 (mkVolunteerNode None None None None))
                          _))).
  exists " Present". repeat split. discriminate.
Defined.

Lemma orNull_idempotent (x : option string) : orNull (orNull x) = orNull x.
Proof.
  destruct x as [s|]; [|reflexivity]. cbn.
  destruct (s =? "") eqn:E; [reflexivity|]. cbn. now rewrite E.
Qed.

(** X22.  A raw education entry takes its dates by position from the
    [time] elements of the entry: the start date is the text of the first,
    the end date the text of the second, empty text counting as null; with
    fewer than two such elements the end date is null, with none the start
    date is null too.  Unlike the other entries, no "Present" is filled
    in. *)
Theorem education_dates_by_position (d : EducationNode) :
  (length (n_dateRangeElement d) < 2 -> red_endDate (educationEntry d) = None)
  /\ (n_dateRangeElement d = [] -> red_startDate (educationEntry d) = None)
  /\ (forall a rest,
        n_dateRangeElement d = a :: rest ->
        red_startDate (educationEntry d) = orNull (textContent a))
  /\ (forall a b rest,
        n_dateRangeElement d = a :: b :: rest ->
        red_endDate (educationEntry d) = orNull (textContent b)).
Proof.
  unfold educationEntry, timeText. cbn [red_startDate red_endDate].
  rewrite !orNull_idempotent. split; [|split; [|split]].
  - intros H. destruct (n_dateRangeElement d) as [|a [|b rest]];
      cbn in *; try reflexivity. lia.
  - intros ->. reflexivity.
  - intros a rest ->. reflexivity.
  - intros a b rest ->. reflexivity.
Qed.

Lemma education_dates_by_position_witness :
  red_startDate
    (educationEntry
       (mkEducationNode (Some (mkElement (Some "MIT"))) None None
          [mkElement (Some "2015")]))
  = Some "2015"
  /\ red_endDate
       (educationEntry
          (mkEducationNode (Some (mkElement (Some "MIT"))) None None
             [mkElement (Some "2015")]))
     = None.
Proof.
  pose proof (education_dates_by_position
                (mkEducationNode (Some (mkElement (Some "MIT"))) None None
                   [mkElement (Some "2015")])) as (Hend & _ & Hstart & _).
  split.
  - exact (Hstart (mkElement (Some "2015")) [] eq_refl).
  - apply Hend. cbn. lia.
Defined.

End ExtractExtras.

(** ** The detail-page navigations *)

Section DetailExtras.
Import Js Config Entities Engine Scraper SessionSpec SessionLogic.

(** X23.  Whatever the engine answers, each detail-page task navigates the
    page it has just created to the profile URL followed by its own
    "/details/..." path, waiting for "networkidle2", and passes no timeout
    option; this navigation is the first call it makes on that page. *)
Theorem detail_tasks_navigate_without_timeout (env : Env) (u : string)
  (st s1 : State) (p : PageId) :
  createPage env st = (Ok p, s1) ->
  (exists calls,
     issued s1 (snd (getExperiences env u st))
       (Goto p (u ++ "/details/experience") "networkidle2" None :: calls))
  /\ (exists calls,
        issued s1 (snd (getEducation env u st))
          (Goto p (u ++ "/details/education") "networkidle2" None :: calls))
  /\ (exists calls,
        issued s1 (snd (getSkills env u st))
          (Goto p (u ++ "/details/skills") "networkidle2" None :: calls)).
Proof.
  intros E. split; [|split].
  - apply (detail_navigation_has_no_timeout env "/details/experience"
             "experience" (experiences_answer env) u st p s1 E).
  - apply (detail_navigation_has_no_timeout env "/details/education"
             "education" (education_answer env) u st p s1 E).
  - apply (detail_navigation_has_no_timeout env "/details/skills"
             "skills" (skills_answer env) u st p s1 E).
Qed.

Lemma detail_tasks_navigate_without_timeout_witness :
  exists calls,
    issued (snd (createPage Examples.slowEducation
                   (Examples.afterSetup Examples.cooperative
                      (Examples.withKeepAlive true 5000))))
      (snd (getEducation Examples.slowEducation Examples.exampleUrl
              (Examples.afterSetup Examples.cooperative
                 (Examples.withKeepAlive true 5000))))
      (Goto 1 (Examples.exampleUrl ++ "/details/education") "networkidle2"
         None :: calls).
Proof.
  exact (proj1 (proj2 (detail_tasks_navigate_without_timeout
                         Examples.slowEducation Examples.exampleUrl
                         (Examples.afterSetup Examples.cooperative
                            (Examples.withKeepAlive true 5000))
                         _ 1 eq_refl))).
Defined.

End DetailExtras.
